(** * Data validation engine of the data integration system

    Shallow embedding of [data_validation.py] (class [DataValidator]) and
    properties of the report it produces.

    The validator runs a fixed set of SQL queries against the three tables
    [customers], [products] and [orders] of an SQLite database, turns every
    non-empty query result into one message of the section's [issues] list
    and prints a summary.  The embedding follows that structure:

    - [Py]   : the Python values the validator builds (strings, lists,
               tuples, dicts), truth value and [repr];
    - [Sql]  : SQL's three-valued logic, [LIKE], [GROUP BY ... HAVING] and
               the two joins the queries use;
    - the tables and the snapshot of the database;
    - [DataValidator] : one definition per query and per method. *)

From Stdlib Require Import List String Ascii Bool ZArith Lia Floats.
From Stdlib Require Import DecimalString Sorted.
From Stdlib Require OrderedTypeEx.
Import ListNotations.

Local Open Scope string_scope.
Local Open Scope Z_scope.

Set Implicit Arguments.
Set Warnings "-register-all,-inexact-float".


(* ===================================================================== *)
(** ** Python values *)
(* ===================================================================== *)

Module Py.

(** The objects the validator handles: cells fetched from SQLite ([None],
    [int], [float], [str]), the row tuples and row lists returned by
    [fetchall], the message strings and the report dictionaries.  A [dict]
    keeps its insertion order, so it is an association list. *)
Inductive pyobj : Type :=
| PyNone
| PyBool (b : bool)
| PyInt (z : Z)
| PyFloat (f : float)
| PyStr (s : string)
| PyTuple (items : list pyobj)
| PyList (items : list pyobj)
| PyDict (entries : list (string * pyobj)).

(** [repr] of [str] and of [float] objects is the interpreter's own (quote
    selection and escaping, shortest round-trip digits); the validator only
    splices their result into its messages, so both are taken as given. *)
Class Builtins : Type := {
  str_repr : string -> string;
  float_repr : float -> string
}.

(** [str(n)] / [repr(n)] of an [int]. *)
Definition int_repr (z : Z) : string := NilZero.string_of_int (Z.to_int z).

(** [sep.join(parts)]. *)
Fixpoint join (sep : string) (parts : list string) : string :=
  match parts with
  | [] => ""
  | [p] => p
  | p :: rest => p ++ sep ++ join sep rest
  end.

Section Repr.
Context {B : Builtins}.

(** [repr(o)]: lists as [[a, b]], tuples as [(a, b)] with the one-element
    form [(a,)], dicts as [{'k': v}]. *)
Fixpoint repr (o : pyobj) : string :=
  match o with
  | PyNone => "None"
  | PyBool true => "True"
  | PyBool false => "False"
  | PyInt z => int_repr z
  | PyFloat f => float_repr f
  | PyStr s => str_repr s
  | PyTuple [x] => "(" ++ repr x ++ ",)"
  | PyTuple items => "(" ++ join ", " (map repr items) ++ ")"
  | PyList items => "[" ++ join ", " (map repr items) ++ "]"
  | PyDict entries =>
      "{" ++ join ", " (map (fun kv => str_repr (fst kv) ++ ": " ++ repr (snd kv)) entries) ++ "}"
  end.
End Repr.

(** Truth value of an object, as [if x:] and [all([...])] test it. *)
Definition truthy (o : pyobj) : bool :=
  match o with
  | PyNone => false
  | PyBool b => b
  | PyInt z => negb (z =? 0)
  | PyFloat f => negb (PrimFloat.eqb f 0%float)
  | PyStr s => negb (String.eqb s "")
  | PyTuple items | PyList items => negb (Nat.eqb (List.length items) 0)
  | PyDict entries => negb (Nat.eqb (List.length entries) 0)
  end.

(** [all(xs)]. *)
Definition all (xs : list pyobj) : bool := forallb truthy xs.

(** [str(o)], which an f-string applies to the value of a replacement
    field: a [str] is spliced as it is, the other objects by their [repr]. *)
Definition str_of {B : Builtins} (o : pyobj) : string :=
  match o with
  | PyStr s => s
  | other => repr other
  end.

(** [s * n]. *)
Fixpoint str_mul (s : string) (n : nat) : string :=
  match n with
  | O => ""
  | S n' => s ++ str_mul s n'
  end.

(** The line feed of a ["\n"] literal. *)
Definition nl : string := String (ascii_of_nat 10) EmptyString.

(** [len(x) == 0] for a list. *)
Definition len_is_zero (xs : list pyobj) : bool := Nat.eqb (List.length xs) 0.

(** [d[k]]; [None] stands for the [KeyError] (or [TypeError]) Python raises. *)
Fixpoint lookup (k : string) (entries : list (string * pyobj)) : option pyobj :=
  match entries with
  | [] => None
  | (k', v) :: rest => if String.eqb k k' then Some v else lookup k rest
  end.

Definition getitem (d : pyobj) (k : string) : option pyobj :=
  match d with
  | PyDict entries => lookup k entries
  | _ => None
  end.

(** [k in d]. *)
Definition has_key (d : pyobj) (k : string) : bool :=
  match getitem d k with Some _ => true | None => false end.

(** [d[k] = v] on a dict: replaces the value of an existing key in place,
    appends a new key. *)
Fixpoint assign (k : string) (v : pyobj) (entries : list (string * pyobj)) : list (string * pyobj) :=
  match entries with
  | [] => [(k, v)]
  | (k', v') :: rest =>
      if String.eqb k k' then (k', v) :: rest else (k', v') :: assign k v rest
  end.

Definition setitem (d : pyobj) (k : string) (v : pyobj) : pyobj :=
  match d with
  | PyDict entries => PyDict (assign k v entries)
  | other => other
  end.

End Py.

Import Py.

(* ===================================================================== *)
(** ** The SQL the queries use *)
(* ===================================================================== *)

Module Sql.

(** A nullable cell; [None] is SQL's [NULL]. *)
Definition cell (A : Type) : Type := option A.

(** A truth value of SQL's three-valued logic; [None] is unknown. *)
Definition truth : Type := option bool.

(** A [WHERE], [HAVING] or [ON] clause keeps a row only when its condition
    is true: unknown drops the row as false does. *)
Definition holds (t : truth) : bool :=
  match t with Some true => true | _ => false end.

Definition sql_or (a b : truth) : truth :=
  match a, b with
  | Some true, _ | _, Some true => Some true
  | Some false, Some false => Some false
  | _, _ => None
  end.

Definition sql_not (a : truth) : truth := option_map negb a.

(** [x IS NULL] is never unknown. *)
Definition is_null {A} (x : cell A) : truth :=
  match x with None => Some true | Some _ => Some false end.

(** A comparison or an arithmetic operation with a [NULL] operand is [NULL]. *)
Definition lift2 {A B C} (f : A -> B -> C) (x : cell A) (y : cell B) : cell C :=
  match x, y with
  | Some a, Some b => Some (f a b)
  | _, _ => None
  end.

Definition lift1 {A B} (f : A -> B) (x : cell A) : cell B := option_map f x.

(** Integer columns. *)
Definition int_eq : cell Z -> cell Z -> truth := lift2 Z.eqb.
Definition int_lt : cell Z -> cell Z -> truth := lift2 Z.ltb.
Definition int_le : cell Z -> cell Z -> truth := lift2 Z.leb.
Definition int_gt : cell Z -> cell Z -> truth := lift2 Z.gtb.
Definition int_add : cell Z -> cell Z -> cell Z := lift2 Z.add.

(** Real columns: IEEE 754 binary64, as SQLite stores [REAL] and computes
    with it.  A whole number that SQLite keeps as [INTEGER] in such a column
    is read as the float of that value. *)
Definition real_lt : cell float -> cell float -> truth := lift2 PrimFloat.ltb.
Definition real_gt : cell float -> cell float -> truth := lift2 (fun x y => PrimFloat.ltb y x).
Definition real_sub : cell float -> cell float -> cell float := lift2 PrimFloat.sub.
Definition real_abs : cell float -> cell float := lift1 PrimFloat.abs.

(** *** [LIKE] *)

(** [LIKE] compares ASCII letters without regard to case. *)
Definition lower (c : ascii) : ascii :=
  let n := nat_of_ascii c in
  if (Nat.leb 65 n && Nat.leb n 90)%bool then ascii_of_nat (n + 32) else c.

Definition same_nocase (c d : ascii) : bool := Ascii.eqb (lower c) (lower d).

(** [like pattern s] is [s LIKE pattern]: [%] matches any run of
    characters, also the empty one, [_] matches exactly one, every other
    pattern character matches itself.  Text is a string of bytes (UTF-8),
    so [_] stands for one byte here and for one character in SQLite; the
    pattern of the validator has no [_]. *)
Fixpoint like (pattern : string) : string -> bool :=
  match pattern with
  | EmptyString => fun s => match s with EmptyString => true | _ => false end
  | String p pattern' =>
      if Ascii.eqb p "%" then
        fix any_run (s : string) : bool :=
          (like pattern' s ||
             match s with
             | EmptyString => false
             | String _ s' => any_run s'
             end)%bool
      else if Ascii.eqb p "_" then
        fun s => match s with
                 | EmptyString => false
                 | String _ s' => like pattern' s'
                 end
      else
        fun s => match s with
                 | EmptyString => false
                 | String c s' => (same_nocase p c && like pattern' s')%bool
                 end
  end.

Definition text_like (x : cell string) (pattern : string) : truth :=
  lift1 (like pattern) x.

Definition text_not_like (x : cell string) (pattern : string) : truth :=
  sql_not (text_like x pattern).

(** *** [GROUP BY key HAVING COUNT( * ) > 1] *)

Section Grouping.
Variable K : Type.
(** Equality of grouping keys; [GROUP BY] puts all [NULL]s in one group. *)
Variable same : K -> K -> bool.
(** The order of the keys.  SQLite forms the groups by sorting the rows on
    the key, or reads them off an index on it, so the groups come out in
    ascending order of the key. *)
Variable before : K -> K -> bool.

Fixpoint count (k : K) (keys : list K) : Z :=
  match keys with
  | [] => 0
  | k' :: rest => (if same k k' then 1 else 0) + count k rest
  end.

(** The keys that occur, each once. *)
Fixpoint occurring (keys : list K) : list K :=
  match keys with
  | [] => []
  | k :: rest => k :: filter (fun k' => negb (same k k')) (occurring rest)
  end.

(** A key put at its place among keys in ascending order. *)
Fixpoint insert_key (k : K) (sorted : list K) : list K :=
  match sorted with
  | [] => [k]
  | k' :: rest => if before k' k then k' :: insert_key k rest else k :: k' :: rest
  end.

(** The keys that occur, each once, in ascending order: the groups. *)
Definition distinct (keys : list K) : list K :=
  fold_right insert_key [] (occurring keys).

Definition group_count (keys : list K) : list (K * Z) :=
  map (fun k => (k, count k keys)) (distinct keys).

Definition having_count_gt_1 (keys : list K) : list (K * Z) :=
  filter (fun g => snd g >? 1) (group_count keys).
End Grouping.

Definition same_cell {A} (eqb : A -> A -> bool) (x y : cell A) : bool :=
  match x, y with
  | None, None => true
  | Some a, Some b => eqb a b
  | _, _ => false
  end.

(** The order of a column: [NULL] comes before every value.  Integers are
    in numerical order and text, under the default collation, in the order
    of its bytes, a text before those it begins ([Z.ltb] and
    [String.ltb]). *)
Definition cell_before {A} (ltb : A -> A -> bool) (x y : cell A) : bool :=
  match x, y with
  | None, Some _ => true
  | Some a, Some b => ltb a b
  | _, _ => false
  end.

(** *** Joins *)

Section Joins.
Variables L R : Type.
Variable on : L -> R -> truth.

Definition matches (l : L) (right : list R) : list R :=
  filter (fun r => holds (on l r)) right.

(** [left JOIN right ON on]. *)
Definition inner_join (left : list L) (right : list R) : list (L * R) :=
  flat_map (fun l => map (pair l) (matches l right)) left.

(** [left LEFT JOIN right ON on]: a left row without a match is kept once,
    with every column of the right side [NULL]. *)
Definition left_join (left : list L) (right : list R) : list (L * option R) :=
  flat_map (fun l =>
              match matches l right with
              | [] => [(l, None)]
              | ms => map (fun r => (l, Some r)) ms
              end) left.

(** A column of the nullable side of a left join. *)
Definition column {A} (col : R -> cell A) (r : option R) : cell A :=
  match r with
  | None => None
  | Some row => col row
  end.
End Joins.

(** What [sqlite3] hands to Python for a cell. *)
Definition int_cell (x : cell Z) : pyobj :=
  match x with None => PyNone | Some z => PyInt z end.

Definition real_cell (x : cell float) : pyobj :=
  match x with None => PyNone | Some f => PyFloat f end.

Definition text_cell (x : cell string) : pyobj :=
  match x with None => PyNone | Some s => PyStr s end.

End Sql.

(* ===================================================================== *)
(** ** The tables *)
(* ===================================================================== *)

(** [schema.sql], which declares the tables, is not among the sources.  The
    records below take the columns and their types from the queries of
    [data_validation.py], from the values the import code of
    [data_integration.py] writes (integer keys and quantities, real prices,
    text names) and from section 3 of the specification.  Every column is
    nullable and no uniqueness constraint is built in: those are the
    conditions the validator itself looks for.  The columns the validator
    does not read (phone, address, description, category, order date,
    status, ...) are left out.

    Integers are unbounded.  SQLite's are 64-bit and its [+] switches to
    floating point on overflow; the only arithmetic on integers here is
    [stock_quantity + 100], which leaves the 64-bit range only for a stock
    within 100 of 2^63, where no 64-bit quantity is above the sum either
    way. *)

Module Customer.
(** Modelled from the spec: the [customers] table, declared in the absent
    [schema.sql]: [customer_id] (primary key), [first_name], [last_name],
    [email]. *)
Record t : Type := {
  customer_id : Sql.cell Z;
  first_name : Sql.cell string;
  last_name : Sql.cell string;
  email : Sql.cell string
}.
End Customer.

Module Product.
(** Modelled from the spec: the [products] table, declared in the absent
    [schema.sql]: [product_id] (primary key), [product_name], [price],
    [stock_quantity]. *)
Record t : Type := {
  product_id : Sql.cell Z;
  product_name : Sql.cell string;
  price : Sql.cell float;
  stock_quantity : Sql.cell Z
}.
End Product.

Module Order.
(** Modelled from the spec: the [orders] table, declared in the absent
    [schema.sql]: [order_id] (primary key), [customer_id] and [product_id]
    (foreign keys), [quantity], [unit_price]. *)
Record t : Type := {
  order_id : Sql.cell Z;
  customer_id : Sql.cell Z;
  product_id : Sql.cell Z;
  quantity : Sql.cell Z;
  unit_price : Sql.cell float
}.
End Order.

(** The content of the database file at the time of a run: what the
    validator's connection reads between [connect] and [close].  The file
    has the three tables; on one that lacks them the first query raises,
    and such a file is no value of this type. *)
Record database : Type := {
  customers : list Customer.t;
  products : list Product.t;
  orders : list Order.t
}.

(* ===================================================================== *)
(** ** [class DataValidator] *)
(* ===================================================================== *)

Module DataValidator.

Import Sql.

Section Validator.
Context {B : Builtins}.

(** [if rows: issues.append(message)]. *)
Definition append_if (rows : list pyobj) (message : string) (issues : list pyobj) : list pyobj :=
  if truthy (PyList rows) then issues ++ [PyStr message] else issues.

(** The dictionary every [validate_*] method returns. *)
Definition section_dict (kind name : string) (issues : list pyobj) : pyobj :=
  PyDict [ (kind, PyStr name);
           ("valid", PyBool (len_is_zero issues));
           ("issues", PyList issues) ].

(** *** [validate_customers] *)

(** [SELECT customer_id, first_name, last_name, email FROM customers
     WHERE first_name IS NULL OR last_name IS NULL OR email IS NULL] *)
Definition customers_null_fields (db : database) : list pyobj :=
  map (fun c => PyTuple [ int_cell (Customer.customer_id c);
                          text_cell (Customer.first_name c);
                          text_cell (Customer.last_name c);
                          text_cell (Customer.email c) ])
      (filter (fun c => holds (sql_or (sql_or (is_null (Customer.first_name c))
                                      (is_null (Customer.last_name c)))
                                  (is_null (Customer.email c))))
              (customers db)).

(** [SELECT email, COUNT( * ) as count FROM customers
     GROUP BY email HAVING count > 1] *)
Definition duplicate_emails (db : database) : list pyobj :=
  map (fun g => PyTuple [ text_cell (fst g); PyInt (snd g) ])
      (having_count_gt_1 (same_cell String.eqb) (cell_before String.ltb)
                         (map Customer.email (customers db))).

(** [SELECT customer_id, email FROM customers
     WHERE email NOT LIKE '%@%.%'] *)
Definition invalid_emails (db : database) : list pyobj :=
  map (fun c => PyTuple [ int_cell (Customer.customer_id c);
                          text_cell (Customer.email c) ])
      (filter (fun c => holds (text_not_like (Customer.email c) "%@%.%"))
              (customers db)).

Definition customers_issues (db : database) : list pyobj :=
  let issues := [] in
  let null_fields := customers_null_fields db in
  let issues :=
    append_if null_fields
      ("Customers with NULL required fields: " ++ str_of (PyList null_fields)) issues in
  let duplicate_emails := duplicate_emails db in
  let issues :=
    append_if duplicate_emails
      ("Duplicate email addresses: " ++ str_of (PyList duplicate_emails)) issues in
  let invalid_emails := invalid_emails db in
  let issues :=
    append_if invalid_emails
      ("Invalid email format: " ++ str_of (PyList invalid_emails)) issues in
  issues.

Definition validate_customers (db : database) : pyobj :=
  section_dict "table" "customers" (customers_issues db).

(** *** [validate_products] *)

(** [SELECT product_id, product_name, price FROM products
     WHERE product_name IS NULL OR price IS NULL] *)
Definition products_null_fields (db : database) : list pyobj :=
  map (fun p => PyTuple [ int_cell (Product.product_id p);
                          text_cell (Product.product_name p);
                          real_cell (Product.price p) ])
      (filter (fun p => holds (sql_or (is_null (Product.product_name p))
                                  (is_null (Product.price p))))
              (products db)).

(** [SELECT product_id, product_name, price FROM products WHERE price < 0] *)
Definition products_negative_prices (db : database) : list pyobj :=
  map (fun p => PyTuple [ int_cell (Product.product_id p);
                          text_cell (Product.product_name p);
                          real_cell (Product.price p) ])
      (filter (fun p => holds (real_lt (Product.price p) (Some 0%float)))
              (products db)).

(** [SELECT product_id, product_name, stock_quantity FROM products
     WHERE stock_quantity < 0] *)
Definition negative_stock (db : database) : list pyobj :=
  map (fun p => PyTuple [ int_cell (Product.product_id p);
                          text_cell (Product.product_name p);
                          int_cell (Product.stock_quantity p) ])
      (filter (fun p => holds (int_lt (Product.stock_quantity p) (Some 0)))
              (products db)).

(** [SELECT product_id, COUNT( * ) as count FROM products
     GROUP BY product_id HAVING count > 1] *)
Definition duplicate_ids (db : database) : list pyobj :=
  map (fun g => PyTuple [ int_cell (fst g); PyInt (snd g) ])
      (having_count_gt_1 (same_cell Z.eqb) (cell_before Z.ltb)
                         (map Product.product_id (products db))).

Definition products_issues (db : database) : list pyobj :=
  let issues := [] in
  let null_fields := products_null_fields db in
  let issues :=
    append_if null_fields
      ("Products with NULL required fields: " ++ str_of (PyList null_fields)) issues in
  let negative_prices := products_negative_prices db in
  let issues :=
    append_if negative_prices
      ("Products with negative prices: " ++ str_of (PyList negative_prices)) issues in
  let negative_stock := negative_stock db in
  let issues :=
    append_if negative_stock
      ("Products with negative stock: " ++ str_of (PyList negative_stock)) issues in
  let duplicate_ids := duplicate_ids db in
  let issues :=
    append_if duplicate_ids
      ("Duplicate product IDs: " ++ str_of (PyList duplicate_ids)) issues in
  issues.

Definition validate_products (db : database) : pyobj :=
  section_dict "table" "products" (products_issues db).

(** *** [validate_orders] *)

(** [SELECT order_id, customer_id, product_id, quantity, unit_price
     FROM orders
     WHERE customer_id IS NULL OR product_id IS NULL
        OR quantity IS NULL OR unit_price IS NULL] *)
Definition orders_null_fields (db : database) : list pyobj :=
  map (fun o => PyTuple [ int_cell (Order.order_id o);
                          int_cell (Order.customer_id o);
                          int_cell (Order.product_id o);
                          int_cell (Order.quantity o);
                          real_cell (Order.unit_price o) ])
      (filter (fun o => holds (sql_or (sql_or (sql_or (is_null (Order.customer_id o))
                                          (is_null (Order.product_id o)))
                                      (is_null (Order.quantity o)))
                                  (is_null (Order.unit_price o))))
              (orders db)).

(** [SELECT order_id, quantity FROM orders WHERE quantity <= 0] *)
Definition invalid_quantities (db : database) : list pyobj :=
  map (fun o => PyTuple [ int_cell (Order.order_id o); int_cell (Order.quantity o) ])
      (filter (fun o => holds (int_le (Order.quantity o) (Some 0))) (orders db)).

(** [SELECT order_id, unit_price FROM orders WHERE unit_price < 0] *)
Definition orders_negative_prices (db : database) : list pyobj :=
  map (fun o => PyTuple [ int_cell (Order.order_id o); real_cell (Order.unit_price o) ])
      (filter (fun o => holds (real_lt (Order.unit_price o) (Some 0%float))) (orders db)).

Definition orders_issues (db : database) : list pyobj :=
  let issues := [] in
  let null_fields := orders_null_fields db in
  let issues :=
    append_if null_fields
      ("Orders with NULL required fields: " ++ str_of (PyList null_fields)) issues in
  let invalid_quantities := invalid_quantities db in
  let issues :=
    append_if invalid_quantities
      ("Orders with invalid quantities: " ++ str_of (PyList invalid_quantities)) issues in
  let negative_prices := orders_negative_prices db in
  let issues :=
    append_if negative_prices
      ("Orders with negative prices: " ++ str_of (PyList negative_prices)) issues in
  issues.

Definition validate_orders (db : database) : pyobj :=
  section_dict "table" "orders" (orders_issues db).

(** *** [validate_foreign_keys] *)

(** [SELECT o.order_id, o.customer_id FROM orders o
     LEFT JOIN customers c ON o.customer_id = c.customer_id
     WHERE c.customer_id IS NULL] *)
Definition orphaned_customers (db : database) : list pyobj :=
  map (fun oc => PyTuple [ int_cell (Order.order_id (fst oc));
                           int_cell (Order.customer_id (fst oc)) ])
      (filter (fun oc => holds (is_null (column Customer.customer_id (snd oc))))
              (left_join (fun o c => int_eq (Order.customer_id o) (Customer.customer_id c))
                         (orders db) (customers db))).

(** [SELECT o.order_id, o.product_id FROM orders o
     LEFT JOIN products p ON o.product_id = p.product_id
     WHERE p.product_id IS NULL] *)
Definition orphaned_products (db : database) : list pyobj :=
  map (fun op => PyTuple [ int_cell (Order.order_id (fst op));
                           int_cell (Order.product_id (fst op)) ])
      (filter (fun op => holds (is_null (column Product.product_id (snd op))))
              (left_join (fun o p => int_eq (Order.product_id o) (Product.product_id p))
                         (orders db) (products db))).

Definition foreign_keys_issues (db : database) : list pyobj :=
  let issues := [] in
  let orphaned_customers := orphaned_customers db in
  let issues :=
    append_if orphaned_customers
      ("Orders with invalid customer_id: " ++ str_of (PyList orphaned_customers)) issues in
  let orphaned_products := orphaned_products db in
  let issues :=
    append_if orphaned_products
      ("Orders with invalid product_id: " ++ str_of (PyList orphaned_products)) issues in
  issues.

Definition validate_foreign_keys (db : database) : pyobj :=
  section_dict "constraint" "foreign_keys" (foreign_keys_issues db).

(** *** [validate_data_consistency] *)

(** [len(rows)]. *)
Definition len (rows : list pyobj) : pyobj := PyInt (Z.of_nat (List.length rows)).

(** [ABS(o.unit_price - p.price) > 0.01] *)
Definition price_differs (o : Order.t) (p : Product.t) : truth :=
  real_gt (real_abs (real_sub (Order.unit_price o) (Product.price p))) (Some 0.01%float).

(** [SELECT o.order_id, o.product_id, o.unit_price, p.price as current_price
     FROM orders o JOIN products p ON o.product_id = p.product_id
     WHERE ABS(o.unit_price - p.price) > 0.01] *)
Definition price_mismatches (db : database) : list pyobj :=
  map (fun op => PyTuple [ int_cell (Order.order_id (fst op));
                           int_cell (Order.product_id (fst op));
                           real_cell (Order.unit_price (fst op));
                           real_cell (Product.price (snd op)) ])
      (filter (fun op => holds (price_differs (fst op) (snd op)))
              (inner_join (fun o p => int_eq (Order.product_id o) (Product.product_id p))
                    (orders db) (products db))).

(** [o.quantity > p.stock_quantity + 100] *)
Definition exceeds_stock (o : Order.t) (p : Product.t) : truth :=
  int_gt (Order.quantity o) (int_add (Product.stock_quantity p) (Some 100)).

(** [SELECT o.order_id, o.product_id, o.quantity, p.stock_quantity as current_stock
     FROM orders o JOIN products p ON o.product_id = p.product_id
     WHERE o.quantity > p.stock_quantity + 100] *)
Definition potential_stock_issues (db : database) : list pyobj :=
  map (fun op => PyTuple [ int_cell (Order.order_id (fst op));
                           int_cell (Order.product_id (fst op));
                           int_cell (Order.quantity (fst op));
                           int_cell (Product.stock_quantity (snd op)) ])
      (filter (fun op => holds (exceeds_stock (fst op) (snd op)))
              (inner_join (fun o p => int_eq (Order.product_id o) (Product.product_id p))
                    (orders db) (products db))).

Definition consistency_issues (db : database) : list pyobj :=
  let issues := [] in
  let price_mismatches := price_mismatches db in
  let issues :=
    append_if price_mismatches
      ("Order prices differ from current product prices (may be expected): "
         ++ str_of (len price_mismatches) ++ " cases") issues in
  let potential_stock_issues := potential_stock_issues db in
  let issues :=
    append_if potential_stock_issues
      ("Orders with quantities significantly exceeding current stock: "
         ++ str_of (len potential_stock_issues) ++ " cases") issues in
  issues.

Definition validate_data_consistency (db : database) : pyobj :=
  section_dict "check" "data_consistency" (consistency_issues db).

(** *** [run_full_validation] *)

(** The [results] dictionary. *)
Definition results (db : database) : pyobj :=
  PyDict [ ("customers", validate_customers db);
           ("products", validate_products db);
           ("orders", validate_orders db);
           ("foreign_keys", validate_foreign_keys db);
           ("consistency", validate_data_consistency db) ].

(** [results[name][field]]. *)
Definition field (results : pyobj) (name field : string) : option pyobj :=
  match getitem results name with
  | Some section => getitem section field
  | None => None
  end.

(** The lines one block of the printed report consists of:
    [[
      print(title)
      print(f"  Status: {good if results[name]['valid'] else bad}")
      for issue in results[name]['issues']:
          print(f"  - {issue}")
    ]] *)
Definition status_line (valid : pyobj) (good bad : string) : string :=
  "  Status: " ++ (if truthy valid then good else bad).

Definition issue_line (issue : pyobj) : string := "  - " ++ str_of issue.

Definition print_section (results : pyobj) (name title good bad : string)
  : option (list string) :=
  match field results name "valid", field results name "issues" with
  | Some valid, Some (PyList issues) =>
      Some (title :: status_line valid good bad :: map issue_line issues)
  | _, _ => None
  end.

(** [all_valid], the overall status: a local variable of
    [run_full_validation]. *)
Definition all_valid (results : pyobj) : option bool :=
  match field results "customers" "valid", field results "products" "valid",
        field results "orders" "valid", field results "foreign_keys" "valid" with
  | Some c, Some p, Some o, Some f => Some (all [c; p; o; f])
  | _, _, _, _ => None
  end.

(** ["=" * 60] *)
Definition banner : string := str_mul "=" 60.

(** [print(f"Overall Status: {... if all_valid else ...}")] *)
Definition overall_line (all_valid : bool) : string :=
  "Overall Status: " ++ (if all_valid then "✓ All Validations Passed"
                         else "✗ Some Issues Found").

Definition header (title : string) : string := nl ++ title.

(** What a run prints (one string per [print] call, which ends it with a
    line feed) and what it returns.  [None] would be an exception raised on
    the way; on a database with the three tables there is none, see
    [run_full_validation_returns]. *)
Definition run_full_validation (db : database) : option (list string * pyobj) :=
  let results := results db in
  match print_section results "customers" (header "[Customers Validation]")
                      "✓ Valid" "✗ Issues Found",
        print_section results "products" (header "[Products Validation]")
                      "✓ Valid" "✗ Issues Found",
        print_section results "orders" (header "[Orders Validation]")
                      "✓ Valid" "✗ Issues Found",
        print_section results "foreign_keys" (header "[Foreign Keys Validation]")
                      "✓ Valid" "✗ Issues Found",
        print_section results "consistency" (header "[Data Consistency Check]")
                      "✓ Consistent" "⚠ Warnings",
        all_valid results with
  | Some customers, Some products, Some orders, Some foreign_keys, Some consistency,
    Some all_valid =>
      Some (List.concat
              [ [ banner; "Data Validation Report"; banner ];
                customers; products; orders; foreign_keys; consistency;
                [ header banner; overall_line all_valid; banner ] ],
            results)
  | _, _, _, _, _, _ => None
  end.

End Validator.

End DataValidator.

Import Sql DataValidator.

(* ===================================================================== *)
(** ** Example data *)
(* ===================================================================== *)

Module Examples.

(** A stand-in for the interpreter's [repr] of text and floats, used where
    an example has to print: text goes between single quotes, which is
    what CPython shows for printable ASCII without quotes or backslashes; a
    whole-number float below 10^16 is printed as CPython does ([100.0]),
    any other finite float by its exact binary value ([m*2**e]). *)
Definition float_text (f : float) : string :=
  match Prim2SF f with
  | S754_zero false => "0.0"
  | S754_zero true => "-0.0"
  | S754_infinity false => "inf"
  | S754_infinity true => "-inf"
  | S754_nan => "nan"
  | S754_finite s m e =>
      let sign := if s then "-" else "" in
      if 0 <=? e then sign ++ int_repr (Z.pos m * 2 ^ e) ++ ".0"
      else if Z.pos m mod 2 ^ (- e) =? 0
           then sign ++ int_repr (Z.pos m / 2 ^ (- e)) ++ ".0"
           else sign ++ int_repr (Z.pos m) ++ "*2**" ++ int_repr e
  end.

#[export] Instance builtins : Builtins :=
  {| str_repr := fun s => "'" ++ s ++ "'"; float_repr := float_text |}.

Definition customer (id : Z) (first last mail : string) : Customer.t :=
  {| Customer.customer_id := Some id;
     Customer.first_name := Some first;
     Customer.last_name := Some last;
     Customer.email := Some mail |}.

Definition product (id : Z) (name : string) (price : float) (stock : Z) : Product.t :=
  {| Product.product_id := Some id;
     Product.product_name := Some name;
     Product.price := Some price;
     Product.stock_quantity := Some stock |}.

Definition order (id customer product quantity : Z) (unit_price : float) : Order.t :=
  {| Order.order_id := Some id;
     Order.customer_id := Some customer;
     Order.product_id := Some product;
     Order.quantity := Some quantity;
     Order.unit_price := Some unit_price |}.

(** Three empty tables. *)
Definition empty_db : database :=
  {| customers := []; products := []; orders := [] |}.

(** Two customers, one product and one order from the sample data. *)
Definition john : Customer.t := customer 1 "John" "Smith" "john.smith@email.com".
Definition mouse : Product.t := product 102 "Wireless Mouse" 29.99 150.

(** Two customer records under the same [customer_id], otherwise clean. *)
Definition twin_ids : database :=
  {| customers := [john; customer 1 "Emily" "Johnson" "emily.johnson@email.com"];
     products := [];
     orders := [] |}.

(** Two product records under the same [product_id], otherwise clean. *)
Definition twin_product_ids : database :=
  {| customers := [];
     products := [mouse; product 102 "Desk Lamp" 39.99 100];
     orders := [] |}.

(** A customer whose address has no dot after the [@]. *)
Definition bad_email : database :=
  {| customers := [john; customer 2 "Emily" "Johnson" "emily@localhost"];
     products := [];
     orders := [] |}.

(** An order of a customer that does not exist. *)
Definition orphan : database :=
  {| customers := [john];
     products := [mouse];
     orders := [order 1 1 102 2 29.99; order 2 7 102 1 29.99] |}.



(** One order at 100.00 of a product whose price is the given one. *)
Definition priced (current : float) : database :=
  {| customers := [john];
     products := [product 7 "Desk" current 10];
     orders := [order 1 1 7 1 100] |}.

(** The number a price of so many cents is stored as: the binary64 number
    nearest to it, as the division of two whole numbers yields it. *)
Definition money (cents : Z) : float :=
  PrimFloat.div (PrimFloat.of_uint63 (Uint63.of_Z cents)) 100.

(** One order at the first price of a product whose price is the second,
    both in cents. *)
Definition marked (unit_price price : Z) : database :=
  {| customers := [john];
     products := [product 7 "Desk" (money price) 10];
     orders := [order 1 1 7 1 (money unit_price)] |}.

(** One order of the given quantity of a product with 40 in stock. *)
Definition stocked (quantity : Z) : database :=
  {| customers := [john];
     products := [product 104 "Monitor" 399.99 40];
     orders := [order 1 1 104 quantity 399.99] |}.



End Examples.

(* ===================================================================== *)
(** ** Vocabulary of the properties *)
(* ===================================================================== *)

(** [needle] occurs in [text]. *)
Definition contains (needle text : string) : Prop :=
  exists before after, text = before ++ needle ++ after.

(** The rules of the sections: the heading under which each reports, with
    the rows its query returned. *)
Definition customers_rules (db : database) : list (string * list pyobj) :=
  [ ("Customers with NULL required fields: ", customers_null_fields db);
    ("Duplicate email addresses: ", duplicate_emails db);
    ("Invalid email format: ", invalid_emails db) ].

Definition products_rules (db : database) : list (string * list pyobj) :=
  [ ("Products with NULL required fields: ", products_null_fields db);
    ("Products with negative prices: ", products_negative_prices db);
    ("Products with negative stock: ", negative_stock db);
    ("Duplicate product IDs: ", duplicate_ids db) ].

Definition orders_rules (db : database) : list (string * list pyobj) :=
  [ ("Orders with NULL required fields: ", orders_null_fields db);
    ("Orders with invalid quantities: ", invalid_quantities db);
    ("Orders with negative prices: ", orders_negative_prices db) ].

Definition foreign_keys_rules (db : database) : list (string * list pyobj) :=
  [ ("Orders with invalid customer_id: ", orphaned_customers db);
    ("Orders with invalid product_id: ", orphaned_products db) ].

Definition consistency_rules (db : database) : list (string * list pyobj) :=
  [ ("Order prices differ from current product prices (may be expected): ",
     price_mismatches db);
    ("Orders with quantities significantly exceeding current stock: ",
     potential_stock_issues db) ].

(** An entry of an [issues] list that is a message under [heading]. *)
Definition under (heading : string) (issue : pyobj) : bool :=
  match issue with
  | PyStr message => prefix heading message
  | _ => false
  end.

(** The entries of an [issues] list that report the rule with this heading. *)
Definition rule_entries (heading : string) (issues : list pyobj) : list pyobj :=
  filter (under heading) issues.

(** An entry that is a plain message: text made of the heading of one of
    the rules and the printed list of the rows its query returned, of which
    there is at least one. *)
Definition is_rows_message {B : Builtins} (rules : list (string * list pyobj)) (issue : pyobj)
  : Prop :=
  exists heading rows,
    In (heading, rows) rules /\ rows <> []
    /\ issue = PyStr (heading ++ str_of (PyList rows)).

(** The specification's [IssueDescriptor = { rule: string,
    affected_keys: [key], detail: string }], read as a Python object: a
    dictionary with a text under ["rule"], a list under ["affected_keys"]
    and a text under ["detail"]. *)
Definition is_issue_descriptor (issue : pyobj) : bool :=
  match getitem issue "rule", getitem issue "affected_keys", getitem issue "detail" with
  | Some (PyStr _), Some (PyList _), Some (PyStr _) => true
  | _, _, _ => false
  end.


(** The rows the consistency queries return for an order and a product. *)
Definition price_case (o : Order.t) (p : Product.t) : pyobj :=
  PyTuple [ int_cell (Order.order_id o); int_cell (Order.product_id o);
            real_cell (Order.unit_price o); real_cell (Product.price p) ].

Definition stock_case (o : Order.t) (p : Product.t) : pyobj :=
  PyTuple [ int_cell (Order.order_id o); int_cell (Order.product_id o);
            int_cell (Order.quantity o); int_cell (Product.stock_quantity p) ].

(** The message of a consistency rule. *)
Definition count_message {B : Builtins} (heading : string) (rows : list pyobj) : pyobj :=
  PyStr (heading ++ str_of (len rows) ++ " cases").


(** The format check of [validate_customers] lets the address through: the
    [WHERE email NOT LIKE '%@%.%'] of its query does not select it. *)
Definition passes_format_check (email : cell string) : bool :=
  negb (holds (text_not_like email "%@%.%")).

(** An entry of the consistency section: the heading of one of its rules
    and the number of the rows its query returned, of which there is at
    least one. *)
Definition is_count_message (rules : list (string * list pyobj)) (issue : pyobj) : Prop :=
  exists heading rows,
    In (heading, rows) rules /\ rows <> []
    /\ issue = PyStr (heading ++ int_repr (Z.of_nat (List.length rows)) ++ " cases").

(** What a rule leaves in an [issues] list: nothing when its query returned
    no row, and otherwise one message, the heading followed by the printed
    list of all the rows. *)
Definition rows_entry {B : Builtins} (rule : string * list pyobj) : list pyobj :=
  match snd rule with
  | [] => []
  | _ :: _ => [PyStr (fst rule ++ str_of (PyList (snd rule)))]
  end.

(** The same for a rule of the consistency section, whose message gives
    the number of rows. *)
Definition count_entry {B : Builtins} (rule : string * list pyobj) : list pyobj :=
  match snd rule with
  | [] => []
  | _ :: _ => [count_message (fst rule) (snd rule)]
  end.

(** *** Conditions on a data set *)

Fixpoint unique {A} (same : A -> A -> bool) (xs : list A) : bool :=
  match xs with
  | [] => true
  | x :: rest => negb (existsb (same x) rest) && unique same rest
  end.

Definition present {A} (x : cell A) : bool :=
  match x with Some _ => true | None => false end.



(** Some customer record carries the order's [customer_id]. *)
Definition customer_exists (db : database) (o : Order.t) : bool :=
  existsb (fun c => holds (int_eq (Order.customer_id o) (Customer.customer_id c)))
          (customers db).

(** Some product record carries the order's [product_id]. *)
Definition product_exists (db : database) (o : Order.t) : bool :=
  existsb (fun p => holds (int_eq (Order.product_id o) (Product.product_id p)))
          (products db).

(** Every order names a customer and a product that exist. *)
Definition references_resolve (db : database) : bool :=
  forallb (fun o => customer_exists db o && product_exists db o) (orders db).

(** The same data with every customer record filed under the key [k]. *)
Definition rekeyed (k : cell Z) (db : database) : database :=
  {| customers := map (fun c => {| Customer.customer_id := k;
                                   Customer.first_name := Customer.first_name c;
                                   Customer.last_name := Customer.last_name c;
                                   Customer.email := Customer.email c |})
                      (customers db);
     products := products db;
     orders := orders db |}.

(** The same customers and products with another [orders] table. *)
Definition with_orders (db : database) (others : list Order.t) : database :=
  {| customers := customers db; products := products db; orders := others |}.

(** The rows the foreign-key and the required-field queries return for an
    order. *)
Definition customer_reference (o : Order.t) : pyobj :=
  PyTuple [int_cell (Order.order_id o); int_cell (Order.customer_id o)].

Definition product_reference (o : Order.t) : pyobj :=
  PyTuple [int_cell (Order.order_id o); int_cell (Order.product_id o)].

Definition order_fields (o : Order.t) : pyobj :=
  PyTuple [ int_cell (Order.order_id o); int_cell (Order.customer_id o);
            int_cell (Order.product_id o); int_cell (Order.quantity o);
            real_cell (Order.unit_price o) ].







(** No two customers share an address. *)
Definition emails_unique (db : database) : bool :=
  unique (same_cell String.eqb) (map Customer.email (customers db)).




(** A section without findings. *)
Definition section_clean (report : pyobj) (name : string) : Prop :=
  field report name "issues" = Some (PyList [])
  /\ field report name "valid" = Some (PyBool true).

(** What a section of a report looks like.  Its [issues] list is made of
    the entries the rules leave, in the order of the rules, so it has at
    most [bound] entries; the entries under the heading of a rule are the
    ones that rule leaves, at most one; and its [valid] flag says whether the
    list is empty. *)
Definition section_shape (report : pyobj) (name : string)
           (entry : string * list pyobj -> list pyobj)
           (rules : list (string * list pyobj)) (bound : nat) : Prop :=
  exists issues,
    field report name "issues" = Some (PyList issues)
    /\ field report name "valid"
       = Some (PyBool (match issues with [] => true | _ :: _ => false end))
    /\ (List.length issues <= bound)%nat
    /\ issues = flat_map entry rules
    /\ Forall (fun rule => rule_entries (fst rule) issues = entry rule
                           /\ (List.length (rule_entries (fst rule) issues) <= 1)%nat)
              rules.

(** Every entry of a section's [issues] list is a message of the given
    kind, and none is a descriptor. *)
Definition plain_messages (report : pyobj) (name : string) (message : pyobj -> Prop) : Prop :=
  exists issues,
    field report name "issues" = Some (PyList issues)
    /\ Forall (fun issue => message issue /\ is_issue_descriptor issue = false) issues.

(* ===================================================================== *)
(** ** Vocabulary of the rules, one by one *)
(* ===================================================================== *)

(** The rows the queries of the three tables return for a record. *)
Definition customer_fields (c : Customer.t) : pyobj :=
  PyTuple [ int_cell (Customer.customer_id c); text_cell (Customer.first_name c);
            text_cell (Customer.last_name c); text_cell (Customer.email c) ].







(** *** What a record must look like for the hard sections to pass *)

Definition customer_complete (c : Customer.t) : bool :=
  present (Customer.first_name c) && present (Customer.last_name c)
  && present (Customer.email c).

(** The address, when there is one, passes [LIKE '%@%.%']. *)
Definition email_well_formed (c : Customer.t) : bool :=
  match Customer.email c with
  | Some e => like "%@%.%" e
  | None => true
  end.

Definition product_complete (p : Product.t) : bool :=
  present (Product.product_name p) && present (Product.price p).

(** The price, when there is one, is not below 0. *)
Definition not_below_zero (x : cell float) : bool :=
  match x with
  | Some v => negb (PrimFloat.ltb v 0)
  | None => true
  end.

(** The stock, when there is one, is not below 0. *)
Definition stock_not_negative (p : Product.t) : bool :=
  match Product.stock_quantity p with
  | Some s => 0 <=? s
  | None => true
  end.

Definition order_complete (o : Order.t) : bool :=
  present (Order.customer_id o) && present (Order.product_id o)
  && present (Order.quantity o) && present (Order.unit_price o).

(** The quantity, when there is one, is above 0. *)
Definition quantity_positive (o : Order.t) : bool :=
  match Order.quantity o with
  | Some q => 0 <? q
  | None => true
  end.

Definition customers_pass (db : database) : bool :=
  forallb customer_complete (customers db)
  && emails_unique db
  && forallb email_well_formed (customers db).

Definition products_pass (db : database) : bool :=
  forallb product_complete (products db)
  && forallb (fun p => not_below_zero (Product.price p)) (products db)
  && forallb stock_not_negative (products db)
  && unique (same_cell Z.eqb) (map Product.product_id (products db)).

Definition orders_pass (db : database) : bool :=
  forallb order_complete (orders db)
  && forallb quantity_positive (orders db)
  && forallb (fun o => not_below_zero (Order.unit_price o)) (orders db).

(** Two snapshots with the same orders and the same keys on record. *)
Definition same_references (db db' : database) : Prop :=
  orders db = orders db'
  /\ map Customer.customer_id (customers db) = map Customer.customer_id (customers db')
  /\ map Product.product_id (products db) = map Product.product_id (products db').

(* ===================================================================== *)
(** ** [class DataIntegrator]: [validate_data_integrity] *)
(* ===================================================================== *)

Module DataIntegrator.

(** [x = ''] on a text column. *)
Definition text_eq : cell string -> cell string -> truth := lift2 String.eqb.

(** A step that may raise; [None] is the exception. *)
Definition bind {A C} (x : option A) (k : A -> option C) : option C :=
  match x with
  | Some a => k a
  | None => None
  end.

Notation "x <- c ;; k" := (bind c (fun x => k))
  (at level 61, c at next level, right associativity).

(** The dictionary [validate_data_integrity] starts from. *)
Definition validation_results : pyobj :=
  PyDict [ ("customers", PyDict [("total", PyInt 0); ("valid", PyInt 0); ("issues", PyList [])]);
           ("products", PyDict [("total", PyInt 0); ("valid", PyInt 0); ("issues", PyList [])]);
           ("orders", PyDict [("total", PyInt 0); ("valid", PyInt 0); ("issues", PyList [])]);
           ("foreign_keys", PyDict [("valid", PyBool true); ("issues", PyList [])]) ].

(** [results[name][key] = value]. *)
Definition store (results : pyobj) (name key : string) (value : pyobj) : option pyobj :=
  section <- getitem results name ;;
  Some (setitem results name (setitem section key value)).

(** [SELECT COUNT( * ) FROM table], [fetchone()[0]]. *)
Definition count_rows {A} (table : list A) : pyobj := PyInt (Z.of_nat (List.length table)).

(** [total - len(rows)]; only integers are subtracted here. *)
Definition minus_len (total : pyobj) (rows : list pyobj) : option pyobj :=
  match total with
  | PyInt t => Some (PyInt (t - Z.of_nat (List.length rows)))
  | _ => None
  end.

(** [[
      results[name]['total'] = total
      results[name]['issues'] = invalid
      results[name]['valid'] = results[name]['total'] - len(invalid)
    ]] *)
Definition check_table (results : pyobj) (name : string) (total : pyobj) (invalid : list pyobj)
  : option pyobj :=
  results <- store results name "total" total ;;
  results <- store results name "issues" (PyList invalid) ;;
  total <- field results name "total" ;;
  valid <- minus_len total invalid ;;
  store results name "valid" valid.

(** [SELECT customer_id, email FROM customers
     WHERE email IS NULL OR email = '' OR first_name IS NULL OR last_name IS NULL] *)
Definition invalid_customers (db : database) : list pyobj :=
  map (fun c => PyTuple [ int_cell (Customer.customer_id c); text_cell (Customer.email c) ])
      (filter (fun c => holds (sql_or (sql_or (sql_or (is_null (Customer.email c))
                                                      (text_eq (Customer.email c) (Some "")))
                                              (is_null (Customer.first_name c)))
                                      (is_null (Customer.last_name c))))
              (customers db)).

(** [SELECT product_id, product_name FROM products
     WHERE product_name IS NULL OR product_name = '' OR price IS NULL OR price < 0] *)
Definition invalid_products (db : database) : list pyobj :=
  map (fun p => PyTuple [ int_cell (Product.product_id p); text_cell (Product.product_name p) ])
      (filter (fun p => holds (sql_or (sql_or (sql_or (is_null (Product.product_name p))
                                                      (text_eq (Product.product_name p) (Some "")))
                                              (is_null (Product.price p)))
                                      (real_lt (Product.price p) (Some 0%float))))
              (products db)).

(** [SELECT order_id FROM orders
     WHERE quantity IS NULL OR quantity <= 0 OR unit_price IS NULL OR unit_price < 0] *)
Definition invalid_orders (db : database) : list pyobj :=
  map (fun o => PyTuple [ int_cell (Order.order_id o) ])
      (filter (fun o => holds (sql_or (sql_or (sql_or (is_null (Order.quantity o))
                                                      (int_le (Order.quantity o) (Some 0)))
                                              (is_null (Order.unit_price o)))
                                      (real_lt (Order.unit_price o) (Some 0%float))))
              (orders db)).

(** [SELECT o.order_id, o.customer_id, o.product_id FROM orders o
     LEFT JOIN customers c ON o.customer_id = c.customer_id
     LEFT JOIN products p ON o.product_id = p.product_id
     WHERE c.customer_id IS NULL OR p.product_id IS NULL] *)
Definition orphaned_orders (db : database) : list pyobj :=
  map (fun ocp => PyTuple [ int_cell (Order.order_id (fst (fst ocp)));
                            int_cell (Order.customer_id (fst (fst ocp)));
                            int_cell (Order.product_id (fst (fst ocp))) ])
      (filter (fun ocp => holds (sql_or (is_null (column Customer.customer_id (snd (fst ocp))))
                                        (is_null (column Product.product_id (snd ocp)))))
              (left_join (fun oc p => int_eq (Order.product_id (fst oc)) (Product.product_id p))
                         (left_join (fun o c => int_eq (Order.customer_id o)
                                                       (Customer.customer_id c))
                                    (orders db) (customers db))
                         (products db))).

(** The dictionary the method returns: the four sections filled in turn. *)
Definition integrity_results (db : database) : option pyobj :=
  results <- check_table validation_results "customers"
                         (count_rows (customers db)) (invalid_customers db) ;;
  results <- check_table results "products"
                         (count_rows (products db)) (invalid_products db) ;;
  results <- check_table results "orders"
                         (count_rows (orders db)) (invalid_orders db) ;;
  results <- store results "foreign_keys" "issues" (PyList (orphaned_orders db)) ;;
  store results "foreign_keys" "valid" (PyBool (len_is_zero (orphaned_orders db))).

Section Printing.
Context {B : Builtins}.

(** [[
      print(f"{label}: {results[name]['valid']}/{results[name]['total']} valid")
      if results[name]['issues']:
          print(f"  Issues: {results[name]['issues']}")
    ]] *)
Definition print_table (results : pyobj) (name label : string) : option (list string) :=
  valid <- field results name "valid" ;;
  total <- field results name "total" ;;
  issues <- field results name "issues" ;;
  Some ((label ++ ": " ++ str_of valid ++ "/" ++ str_of total ++ " valid")
          :: if truthy issues then ["  Issues: " ++ str_of issues] else []).

(** [[
      print(f"Foreign Keys: {'Valid' if results['foreign_keys']['valid'] else 'Invalid'}")
      if results['foreign_keys']['issues']:
          print(f"  Orphaned orders: {results['foreign_keys']['issues']}")
    ]] *)
Definition print_foreign_keys (results : pyobj) : option (list string) :=
  valid <- field results "foreign_keys" "valid" ;;
  issues <- field results "foreign_keys" "issues" ;;
  Some (("Foreign Keys: " ++ if truthy valid then "Valid" else "Invalid")
          :: if truthy issues then ["  Orphaned orders: " ++ str_of issues] else []).

(** What the method prints and returns. *)
Definition validate_data_integrity (db : database) : option (list string * pyobj) :=
  results <- integrity_results db ;;
  customers <- print_table results "customers" "Customers" ;;
  products <- print_table results "products" "Products" ;;
  orders <- print_table results "orders" "Orders" ;;
  foreign_keys <- print_foreign_keys results ;;
  Some (List.concat [ [ header "=== Data Integrity Validation ===" ];
                      customers; products; orders; foreign_keys ],
        results).

End Printing.

(** *** Writing to the tables *)

(** What [execute] does with an [INSERT] depends on the constraints the
    tables were declared with, and [schema.sql] is not among the sources.
    So the answer to each [INSERT] is given: [None] when the row is taken,
    which then comes last in its table, and the text of the error raised
    otherwise (by the engine, or by the binding of a value it cannot hold),
    which leaves the tables as they were.  The answers are numbered by the
    iteration of the loop that issues the statement. *)
Definition answers : Type := nat -> option string.

(** How [sqlite3] binds a [float]: a NaN is stored as [NULL]. *)
Definition bind_real (f : float) : cell float :=
  if PrimFloat.is_nan f then None else Some f.

(** The state of an import loop: the tables, what was printed, and the two
    counters. *)
Record progress : Type := {
  tables : database;
  printed : list string;
  inserted_count : Z;
  skipped_count : Z
}.

Definition start (db : database) : progress :=
  {| tables := db; printed := []; inserted_count := 0; skipped_count := 0 |}.

(** [print(line); skipped_count += 1; continue] *)
Definition skip (line : string) (st : progress) : progress :=
  {| tables := tables st;
     printed := printed st ++ [line];
     inserted_count := inserted_count st;
     skipped_count := skipped_count st + 1 |}.

(** *** [create_sample_orders] *)

(** [orders_data]: order_id, customer_id, product_id, order_date, quantity,
    unit_price. *)
Definition orders_data : list (Z * Z * Z * string * Z * float) :=
  [ (1, 1, 101, "2024-01-15", 1, 1299.99%float);
    (2, 1, 102, "2024-01-15", 2, 29.99%float);
    (3, 2, 201, "2024-01-20", 1, 299.99%float);
    (4, 2, 202, "2024-01-20", 1, 39.99%float);
    (5, 3, 103, "2024-02-01", 1, 89.99%float);
    (6, 3, 104, "2024-02-01", 1, 399.99%float);
    (7, 4, 301, "2024-02-10", 3, 34.99%float);
    (8, 4, 302, "2024-02-10", 2, 19.99%float);
    (9, 5, 203, "2024-02-15", 1, 599.99%float);
    (10, 5, 204, "2024-02-15", 1, 79.99%float);
    (11, 6, 105, "2024-02-20", 4, 49.99%float);
    (12, 7, 101, "2024-03-01", 1, 1299.99%float);
    (13, 7, 103, "2024-03-01", 1, 89.99%float);
    (14, 8, 201, "2024-03-05", 2, 299.99%float);
    (15, 9, 104, "2024-03-10", 1, 399.99%float);
    (16, 9, 105, "2024-03-10", 2, 49.99%float);
    (17, 10, 301, "2024-03-15", 5, 34.99%float);
    (18, 10, 302, "2024-03-15", 3, 19.99%float);
    (19, 1, 203, "2024-03-20", 1, 599.99%float);
    (20, 2, 103, "2024-03-25", 2, 89.99%float) ].

(** [SELECT customer_id FROM customers WHERE customer_id = ?] and
    [fetchone()]: the first row, or [None]. *)
Definition select_customer (db : database) (customer_id : Z) : option pyobj :=
  hd_error (map (fun c => PyTuple [int_cell (Customer.customer_id c)])
                (filter (fun c => holds (int_eq (Customer.customer_id c) (Some customer_id)))
                        (customers db))).

(** [SELECT product_id FROM products WHERE product_id = ?] and [fetchone()]. *)
Definition select_product (db : database) (product_id : Z) : option pyobj :=
  hd_error (map (fun p => PyTuple [int_cell (Product.product_id p)])
                (filter (fun p => holds (int_eq (Product.product_id p) (Some product_id)))
                        (products db))).

(** [not self.cursor.fetchone()] *)
Definition not_fetched (row : option pyobj) : bool :=
  match row with
  | None => true
  | Some r => negb (truthy r)
  end.

(** The row of [orders] an accepted [INSERT] leaves.  The statement also
    writes [order_date] and the status ['completed'], two columns the
    snapshot does not keep. *)
Definition order_row (order_id customer_id product_id quantity : Z) (unit_price : float)
  : Order.t :=
  {| Order.order_id := Some order_id;
     Order.customer_id := Some customer_id;
     Order.product_id := Some product_id;
     Order.quantity := Some quantity;
     Order.unit_price := bind_real unit_price |}.

Definition insert_order (o : Order.t) (st : progress) : progress :=
  {| tables := {| customers := customers (tables st);
                  products := products (tables st);
                  orders := orders (tables st) ++ [o] |};
     printed := printed st;
     inserted_count := inserted_count st + 1;
     skipped_count := skipped_count st |}.

(** One turn of the loop, [answer] being what the engine says to its
    [INSERT] if it comes to that. *)
Definition create_order (answer : option string)
           (order : Z * Z * Z * string * Z * float) (st : progress) : progress :=
  let '(order_id, customer_id, product_id, order_date, quantity, unit_price) := order in
  if not_fetched (select_customer (tables st) customer_id) then
    skip ("Warning: Customer " ++ int_repr customer_id ++ " not found, skipping order "
            ++ int_repr order_id) st
  else if not_fetched (select_product (tables st) product_id) then
    skip ("Warning: Product " ++ int_repr product_id ++ " not found, skipping order "
            ++ int_repr order_id) st
  else
    match answer with
    | Some e => skip ("Error inserting order " ++ int_repr order_id ++ ": " ++ e) st
    | None => insert_order (order_row order_id customer_id product_id quantity unit_price) st
    end.

Fixpoint create_orders (engine : answers) (i : nat)
         (data : list (Z * Z * Z * string * Z * float)) (st : progress) : progress :=
  match data with
  | [] => st
  | order :: rest => create_orders engine (S i) rest (create_order (engine i) order st)
  end.

(** [[
      print(f"{done} {inserted_count} {what}")
      if skipped_count > 0:
          print(f"Skipped {skipped_count} {skipped}")
    ]] *)
Definition summary (first : string) (skipped : string) (st : progress) : progress :=
  {| tables := tables st;
     printed := printed st ++ first
                  :: if skipped_count st >? 0
                     then ["Skipped " ++ int_repr (skipped_count st) ++ skipped]
                     else [];
     inserted_count := inserted_count st;
     skipped_count := skipped_count st |}.

Definition create_sample_orders (engine : answers) (db : database) : progress :=
  let st := create_orders engine 0 orders_data (start db) in
  summary ("Created " ++ int_repr (inserted_count st) ++ " sample orders")
          " invalid orders" st.

(** *** [import_product_data] *)

(** [int], [float] and [str.strip] are the interpreter's; a parser
    answers with the value or with the text of the [ValueError] it raises. *)
Class Parsers : Type := {
  int_of_str : string -> Z + string;
  float_of_str : string -> float + string;
  strip : string -> string
}.

(** A row as [csv.DictReader] yields it: the items of a [dict] from the
    names of the header, each name once, to the fields of the line, [None]
    for a field the line is too short for.  (A line longer than the header
    adds an entry under the key [None]; such rows are not covered.) *)
Definition csv_row : Type := list (string * option string).

(** What a step of the [try] block may raise: one of the two exceptions
    the [except] clause names, or anything else. *)
Inductive raised : Type :=
| ValueError (message : string)
| KeyError (key : string)
| Uncaught.

Inductive outcome (A : Type) : Type :=
| Returns (a : A)
| Raises (e : raised).

Arguments Returns {A} a.
Arguments Raises {A} e.

Definition and_then {A C} (x : outcome A) (k : A -> outcome C) : outcome C :=
  match x with
  | Returns a => k a
  | Raises e => Raises e
  end.

Notation "x <~ c ;; k" := (and_then c (fun x => k))
  (at level 61, c at next level, right associativity).

Fixpoint row_lookup (key : string) (row : csv_row) : option (option string) :=
  match row with
  | [] => None
  | (k, v) :: rest => if String.eqb key k then Some v else row_lookup key rest
  end.

(** [row[key]] *)
Definition item (row : csv_row) (key : string) : outcome (option string) :=
  match row_lookup key row with
  | Some v => Returns v
  | None => Raises (KeyError key)
  end.

(** [row.get(key, '')] *)
Definition get_or_empty (row : csv_row) (key : string) : option string :=
  match row_lookup key row with
  | Some v => v
  | None => Some ""
  end.

Section Importing.
Context {B : Builtins} {P : Parsers}.

(** [int(v)]; [int(None)] is a [TypeError]. *)
Definition to_int (v : option string) : outcome Z :=
  match v with
  | Some s => match int_of_str s with
              | inl z => Returns z
              | inr message => Raises (ValueError message)
              end
  | None => Raises Uncaught
  end.

(** [float(v)]; [float(None)] is a [TypeError]. *)
Definition to_float (v : option string) : outcome float :=
  match v with
  | Some s => match float_of_str s with
              | inl f => Returns f
              | inr message => Raises (ValueError message)
              end
  | None => Raises Uncaught
  end.

(** [v.strip()]; [None] has no [strip], an [AttributeError]. *)
Definition stripped (v : option string) : outcome string :=
  match v with
  | Some s => Returns (strip s)
  | None => Raises Uncaught
  end.

(** The seven values the [try] block reads from a row, in its order. *)
Record product_values : Type := {
  product_id : Z;
  product_name : string;
  description : string;
  price : float;
  stock_quantity : Z;
  category : string;
  supplier : string
}.

Definition read_product (row : csv_row) : outcome product_values :=
  id_text <~ item row "product_id" ;;
  id <~ to_int id_text ;;
  name_text <~ item row "product_name" ;;
  name <~ stripped name_text ;;
  description <~ stripped (get_or_empty row "description") ;;
  price_text <~ item row "price" ;;
  price <~ to_float price_text ;;
  stock_text <~ item row "stock_quantity" ;;
  stock <~ to_int stock_text ;;
  category <~ stripped (get_or_empty row "category") ;;
  supplier <~ stripped (get_or_empty row "supplier") ;;
  Returns {| product_id := id; product_name := name; description := description;
             price := price; stock_quantity := stock;
             category := category; supplier := supplier |}.

(** The row of [products] an accepted [INSERT] leaves; [description],
    [category] and [supplier] are written to columns the snapshot does not
    keep. *)
Definition product_row (v : product_values) (stock : Z) : Product.t :=
  {| Product.product_id := Some (product_id v);
     Product.product_name := Some (product_name v);
     Product.price := bind_real (price v);
     Product.stock_quantity := Some stock |}.

Definition insert_product (p : Product.t) (st : progress) : progress :=
  {| tables := {| customers := customers (tables st);
                  products := products (tables st) ++ [p];
                  orders := orders (tables st) |};
     printed := printed st;
     inserted_count := inserted_count st + 1;
     skipped_count := skipped_count st |}.

(** [print(line)] *)
Definition say (line : string) (st : progress) : progress :=
  {| tables := tables st;
     printed := printed st ++ [line];
     inserted_count := inserted_count st;
     skipped_count := skipped_count st |}.

(** [str(e)] of a caught exception. *)
Definition error_text (e : raised) : string :=
  match e with
  | ValueError message => message
  | KeyError key => str_repr key
  | Uncaught => ""
  end.

(** [str(row)], the row being a [dict]. *)
Definition row_text (row : csv_row) : string :=
  str_of (PyDict (map (fun kv => (fst kv, text_cell (snd kv))) row)).

(** One turn of the loop; [None] when an exception leaves the method.
    An error of the engine is not among those the [except] clause names. *)
Definition import_product (answer : option string) (row : csv_row) (st : progress)
  : option progress :=
  match read_product row with
  | Returns v =>
      if PrimFloat.ltb (price v) 0 then
        Some (skip ("Warning: Invalid price for product " ++ int_repr (product_id v)
                      ++ ", skipping") st)
      else
        let '(stock, st) :=
          if stock_quantity v <? 0
          then (0, say ("Warning: Invalid stock quantity for product "
                          ++ int_repr (product_id v) ++ ", setting to 0") st)
          else (stock_quantity v, st) in
        match answer with
        | None => Some (insert_product (product_row v stock) st)
        | Some _ => None
        end
  | Raises Uncaught => None
  | Raises e =>
      Some (skip ("Error processing row: " ++ row_text row ++ ". Error: " ++ error_text e) st)
  end.

Fixpoint import_products (engine : answers) (i : nat) (rows : list csv_row) (st : progress)
  : option progress :=
  match rows with
  | [] => Some st
  | row :: rest =>
      match import_product (engine i) row st with
      | Some st' => import_products engine (S i) rest st'
      | None => None
      end
  end.

(** The method on the rows [csv.DictReader] yields for a file that is
    there; [None] when it raises. *)
Definition import_product_data (engine : answers) (product_file : string)
           (rows : list csv_row) (db : database) : option progress :=
  match import_products engine 0 rows (start db) with
  | Some st =>
      Some (summary ("Imported " ++ int_repr (inserted_count st) ++ " products from "
                       ++ product_file)
                    " invalid product records" st)
  | None => None
  end.

End Importing.

End DataIntegrator.

(** The dictionary a run of the integrity check returns, written out. *)
Definition integrity_report (db : database) : pyobj :=
  PyDict
    [ ("customers",
       PyDict [ ("total", PyInt (Z.of_nat (List.length (customers db))));
                ("valid", PyInt (Z.of_nat (List.length (customers db))
                                 - Z.of_nat (List.length (DataIntegrator.invalid_customers db))));
                ("issues", PyList (DataIntegrator.invalid_customers db)) ]);
      ("products",
       PyDict [ ("total", PyInt (Z.of_nat (List.length (products db))));
                ("valid", PyInt (Z.of_nat (List.length (products db))
                                 - Z.of_nat (List.length (DataIntegrator.invalid_products db))));
                ("issues", PyList (DataIntegrator.invalid_products db)) ]);
      ("orders",
       PyDict [ ("total", PyInt (Z.of_nat (List.length (orders db))));
                ("valid", PyInt (Z.of_nat (List.length (orders db))
                                 - Z.of_nat (List.length (DataIntegrator.invalid_orders db))));
                ("issues", PyList (DataIntegrator.invalid_orders db)) ]);
      ("foreign_keys",
       PyDict [ ("valid", PyBool (len_is_zero (DataIntegrator.orphaned_orders db)));
                ("issues", PyList (DataIntegrator.orphaned_orders db)) ]) ].

(** No product has the empty text for a name. *)
Definition names_not_empty (db : database) : bool :=
  forallb (fun p => match Product.product_name p with
                    | Some name => negb (String.eqb name "")
                    | None => true
                    end) (products db).

(* ===================================================================== *)
(** ** Vocabulary of the two import loops *)
(* ===================================================================== *)

(** The same customers and orders with another [products] table. *)
Definition with_products (db : database) (others : list Product.t) : database :=
  {| customers := customers db; products := others; orders := orders db |}.

(** The row [create_sample_orders] writes for an entry of [orders_data]. *)
Definition order_of (entry : Z * Z * Z * string * Z * float) : Order.t :=
  let '(order_id, customer_id, product_id, _, quantity, unit_price) := entry in
  DataIntegrator.order_row order_id customer_id product_id quantity unit_price.

(** An order with its four required values, a quantity above 0 and a unit
    price not below 0. *)
Definition order_sound (o : Order.t) : bool :=
  order_complete o && quantity_positive o && not_below_zero (Order.unit_price o).

(** A product with a key, a name and a stock quantity, neither the price
    nor the stock below 0. *)
Definition product_sound (p : Product.t) : bool :=
  present (Product.product_id p) && present (Product.product_name p)
  && not_below_zero (Product.price p)
  && present (Product.stock_quantity p) && stock_not_negative p.

(** A row of a line that was not shorter than the header. *)
Definition full (row : DataIntegrator.csv_row) : bool :=
  forallb (fun kv => present (snd kv)) row.

(** *** Stand-ins for the examples *)

Module Samples.

Import DataIntegrator Examples.

(** [int] on an optional sign followed by digits. *)
Definition whole (s : string) : option Z :=
  if String.eqb s "" then None else option_map Z.of_int (NilZero.int_of_string s).

Definition float_of_whole (z : Z) : float :=
  if z <? 0 then PrimFloat.opp (PrimFloat.of_uint63 (Uint63.of_Z (- z)))
  else PrimFloat.of_uint63 (Uint63.of_Z z).

(** Parsers for whole numbers and [nan], and a [strip] for texts without
    blanks around them: what the example rows need. *)
#[export] Instance parsers : Parsers :=
  {| int_of_str := fun s =>
       match whole s with
       | Some z => inl z
       | None => inr ("invalid literal for int() with base 10: " ++ str_repr s)
       end;
     float_of_str := fun s =>
       if String.eqb s "nan" then inl PrimFloat.nan
       else match whole s with
            | Some z => inl (float_of_whole z)
            | None => inr ("could not convert string to float: " ++ str_repr s)
            end;
     strip := fun s => s |}.

Definition header : list string :=
  ["product_id"; "product_name"; "description"; "price"; "stock_quantity";
   "category"; "supplier"].

(** The row of a line with these fields, cut short after [n] of them. *)
Definition line (fields : list string) : csv_row :=
  combine header (map Some fields ++ repeat None (List.length header - List.length fields)).

Definition laptop : csv_row :=
  line ["101"; "Laptop"; "A laptop"; "1300"; "50"; "Electronics"; "TechCorp"].

Definition refund : csv_row :=
  line ["102"; "Refund"; "A negative price"; "-5"; "10"; "Misc"; "Nobody"].

Definition backorder : csv_row :=
  line ["103"; "Desk"; "A negative stock"; "300"; "-4"; "Furniture"; "WoodWorks"].

Definition garbled : csv_row :=
  line ["104"; "Lamp"; "No number for a price"; "cheap"; "7"; "Furniture"; "WoodWorks"].

Definition products_file : list csv_row := [laptop; refund; backorder; garbled].

(** A shop that has the customers and products of the first sample orders. *)
Definition stocked_shop : database :=
  {| customers := [Examples.customer 1 "John" "Smith" "john.smith@email.com";
                   Examples.customer 2 "Emily" "Johnson" "emily.johnson@email.com"];
     products := [Examples.product 101 "Laptop" 1299.99 50;
                  Examples.product 102 "Wireless Mouse" 29.99 150;
                  Examples.product 201 "Office Chair" 299.99 75];
     orders := [] |}.

(** An engine that takes every row but the one of the third turn. *)
Definition picky : answers :=
  fun i => if Nat.eqb i 2 then Some "UNIQUE constraint failed: orders.order_id" else None.

End Samples.

(* ===================================================================== *)
(** ** [run_queries.py]: the table of a query result *)
(* ===================================================================== *)

(** The part of [execute_queries] that lays out the rows of a result: the
    widths of the columns, the header line and one line per row.  A text is
    the sequence of its characters. *)
Module RunQueries.

(** [len(s)] *)
Definition len (s : string) : Z := Z.of_nat (String.length s).

(** [s[:k]]: the first [k] characters, and all but the last [-k] when [k]
    is negative. *)
Definition slice_to (s : string) (k : Z) : string :=
  if k <? 0 then String.substring 0 (String.length s - Z.to_nat (- k)) s
  else String.substring 0 (Z.to_nat k) s.

(** [f"{s:<{w}}"]: [s] with blanks on its right up to [w] characters. *)
Definition ljust (s : string) (w : Z) : string := s ++ str_mul " " (Z.to_nat (w - len s)).

(** [[
      val = str(row[col])
      if len(val) > col_widths[i] - 2:
          val = val[:col_widths[i] - 5] + "..."
      row_parts.append(f"{val:<{col_widths[i]}}")
    ]] *)
Definition row_part (w : Z) (val : string) : string :=
  let val := if len val >? w - 2 then slice_to val (w - 5) ++ "..." else val in
  ljust val w.

Section Table.

(** The rows are [sqlite3.Row] objects; [text row col] is [str(row[col])]. *)
Variable Row : Type.
Variable text : Row -> string -> string.

(** [[
      max_len = len(col)
      for row in results[:10]:
          val_len = len(str(row[col]))
          if val_len > max_len:
              max_len = val_len
    ]] *)
Definition max_len (col : string) (results : list Row) : Z :=
  fold_left (fun max_len row =>
               let val_len := len (text row col) in
               if val_len >? max_len then val_len else max_len)
            (firstn 10 results) (len col).

(** [min(max_len + 2, 25)] *)
Definition col_width (col : string) (results : list Row) : Z :=
  Z.min (max_len col results + 2) 25.

Definition col_widths (columns : list string) (results : list Row) : list Z :=
  map (fun col => col_width col results) columns.

(** [for i, col in enumerate(columns[:8])] with [col_widths[i]]: the first
    eight columns, each with its width. *)
Definition shown (columns : list string) (col_widths : list Z) : list (string * Z) :=
  combine (firstn 8 columns) col_widths.

Definition header_parts (columns : list string) (col_widths : list Z) : list string :=
  map (fun cw => ljust (fst cw) (snd cw)) (shown columns col_widths).

Definition row_parts (columns : list string) (col_widths : list Z) (row : Row) : list string :=
  map (fun cw => row_part (snd cw) (text row (fst cw))) (shown columns col_widths).

(** The header line, the rule under it and the lines of the first 15 rows. *)
Definition table (columns : list string) (results : list Row) : list string :=
  let col_widths := col_widths columns results in
  join " | " (header_parts columns col_widths)
    :: str_mul "-" 80
    :: map (fun row => join " | " (row_parts columns col_widths row)) (firstn 15 results).

End Table.

(** A column name of 3 to 25 characters. *)
Definition plain_name (col : string) : bool := (3 <=? len col) && (len col <=? 25).

(** *** A result for the examples *)

(** A row as the texts of its values, by column name. *)
Definition sample_text (row : list (string * string)) (col : string) : string :=
  match find (fun kv => String.eqb (fst kv) col) row with
  | Some kv => snd kv
  | None => ""
  end.

Definition sample_row (id name : string) : list (string * string) :=
  [("id", id); ("name", name)].

(** Eleven rows: ten short ones and one with a longer [id]. *)
Definition sample_results : list (list (string * string)) :=
  (map (fun id => sample_row id "Laptop") ["1"; "2"; "3"; "4"; "5"; "6"; "7"; "8"; "9"; "10"]
   ++ [sample_row "12345" "Mouse"])%list.

End RunQueries.

(* ===================================================================== *)
(** ** Python objects: lookups and assignments *)
(* ===================================================================== *)

Lemma lookup_assign_other (k k' : string) (v : pyobj) (entries : list (string * pyobj)) :
  k <> k' -> lookup k' (assign k v entries) = lookup k' entries.
Proof.
  intros Hne. induction entries as [|[k0 v0] rest IH]; simpl.
  - destruct (String.eqb_spec k' k) as [->|_]; [contradiction | reflexivity].
  - destruct (String.eqb_spec k k0) as [->|Hk]; simpl.
    + destruct (String.eqb_spec k' k0) as [->|_]; [contradiction | reflexivity].
    + rewrite IH. reflexivity.
Qed.

Lemma getitem_setitem_other (d : pyobj) (k k' : string) (v : pyobj) :
  k <> k' -> getitem (setitem d k v) k' = getitem d k'.
Proof.
  intros Hne. destruct d; simpl; try reflexivity.
  now apply lookup_assign_other.
Qed.

Lemma field_setitem_other (report : pyobj) (k name f : string) (v : pyobj) :
  k <> name -> field (setitem report k v) name f = field report name f.
Proof.
  intros Hne. unfold field. now rewrite getitem_setitem_other.
Qed.

(** The overall status reads four sections; whatever is stored under
    ["consistency"] has no part in it. *)
Lemma all_valid_ignores_consistency (report consistency : pyobj) :
  all_valid (setitem report "consistency" consistency) = all_valid report.
Proof.
  unfold all_valid.
  rewrite !field_setitem_other by discriminate.
  reflexivity.
Qed.

(* ===================================================================== *)
(** ** The issue lists *)
(* ===================================================================== *)

Lemma append_if_app (rows : list pyobj) (message : string) (issues : list pyobj) :
  append_if rows message issues
  = (issues ++ if len_is_zero rows then [] else [PyStr message])%list.
Proof.
  unfold append_if, len_is_zero. simpl.
  destruct (Nat.eqb (List.length rows) 0); simpl; [now rewrite app_nil_r | reflexivity].
Qed.

Lemma len_is_zero_match (rows : list pyobj) :
  len_is_zero rows = match rows with [] => true | _ :: _ => false end.
Proof. now destruct rows. Qed.

Lemma append_if_In (rows : list pyobj) (message : string) (issues : list pyobj) (row : pyobj) :
  In row rows -> In (PyStr message) (append_if rows message issues).
Proof.
  intros Hin. rewrite append_if_app.
  destruct rows; [contradiction|]. simpl. apply in_or_app. right. now left.
Qed.

Lemma append_if_keeps (rows : list pyobj) (message : string) (issues : list pyobj) (x : pyobj) :
  In x issues -> In x (append_if rows message issues).
Proof. intros Hin. rewrite append_if_app. apply in_or_app. now left. Qed.

Section Report.
Context {B : Builtins}.

Lemma customers_fields (db : database) :
  field (results db) "customers" "issues" = Some (PyList (customers_issues db))
  /\ field (results db) "customers" "valid"
     = Some (PyBool (len_is_zero (customers_issues db))).
Proof. split; reflexivity. Qed.

Lemma products_fields (db : database) :
  field (results db) "products" "issues" = Some (PyList (products_issues db))
  /\ field (results db) "products" "valid"
     = Some (PyBool (len_is_zero (products_issues db))).
Proof. split; reflexivity. Qed.

Lemma orders_fields (db : database) :
  field (results db) "orders" "issues" = Some (PyList (orders_issues db))
  /\ field (results db) "orders" "valid"
     = Some (PyBool (len_is_zero (orders_issues db))).
Proof. split; reflexivity. Qed.

Lemma foreign_keys_fields (db : database) :
  field (results db) "foreign_keys" "issues" = Some (PyList (foreign_keys_issues db))
  /\ field (results db) "foreign_keys" "valid"
     = Some (PyBool (len_is_zero (foreign_keys_issues db))).
Proof. split; reflexivity. Qed.

Lemma consistency_fields (db : database) :
  field (results db) "consistency" "issues" = Some (PyList (consistency_issues db))
  /\ field (results db) "consistency" "valid"
     = Some (PyBool (len_is_zero (consistency_issues db))).
Proof. split; reflexivity. Qed.

(** The overall status of a run is the conjunction of the four flags. *)
Lemma all_valid_results (db : database) :
  all_valid (results db)
  = Some (len_is_zero (customers_issues db) && len_is_zero (products_issues db)
          && len_is_zero (orders_issues db) && len_is_zero (foreign_keys_issues db)).
Proof.
  unfold all_valid.
  rewrite (proj2 (customers_fields db)), (proj2 (products_fields db)),
    (proj2 (orders_fields db)), (proj2 (foreign_keys_fields db)).
  unfold all. simpl. rewrite andb_true_r, !andb_assoc. reflexivity.
Qed.

(** A run on a database with the three tables raises nothing: it prints
    its report, the overall status in the last text but one, and returns
    [results]. *)
Lemma run_full_validation_returns (db : database) :
  exists printed status,
    run_full_validation db = Some (printed, results db)
    /\ all_valid (results db) = Some status
    /\ In (overall_line status) printed.
Proof.
  unfold run_full_validation. rewrite all_valid_results.
  unfold print_section.
  rewrite (proj1 (customers_fields db)), (proj2 (customers_fields db)),
    (proj1 (products_fields db)), (proj2 (products_fields db)),
    (proj1 (orders_fields db)), (proj2 (orders_fields db)),
    (proj1 (foreign_keys_fields db)), (proj2 (foreign_keys_fields db)),
    (proj1 (consistency_fields db)), (proj2 (consistency_fields db)).
  eexists. eexists. split; [reflexivity|]. split; [reflexivity|].
  unfold List.concat. rewrite !in_app_iff. do 6 right. left. simpl. right. now left.
Qed.

End Report.

(* ===================================================================== *)
(** ** The overall status *)
(* ===================================================================== *)

(** C1, as the claim states it, fails: the dictionary [run_full_validation]
    returns has the five sections and no ["overall_valid"] entry.  Shown on
    three empty tables. *)
Lemma returned_report_has_no_overall_valid :
  option_map (fun run => (map fst match snd run with PyDict entries => entries | _ => [] end,
                          has_key (snd run) "overall_valid"))
             (run_full_validation (B := Examples.builtins) Examples.empty_db)
  = Some (["customers"; "products"; "orders"; "foreign_keys"; "consistency"], false).
Proof. reflexivity. Qed.

(** C1, amended: a run computes an overall status, [all_valid], which it
    prints in the "Overall Status" line and does not store in the report it
    returns.  The status is true if and only if the customers, products,
    orders and foreign_keys sections are all valid, and it stays the same
    whatever the consistency section holds. *)
Theorem overall_status_is_and_of_hard_sections {B : Builtins} (db : database) :
  exists printed status,
    run_full_validation db = Some (printed, results db)
    /\ has_key (results db) "overall_valid" = false
    /\ all_valid (results db) = Some status
    /\ In (overall_line status) printed
    /\ (status = true <->
        field (results db) "customers" "valid" = Some (PyBool true)
        /\ field (results db) "products" "valid" = Some (PyBool true)
        /\ field (results db) "orders" "valid" = Some (PyBool true)
        /\ field (results db) "foreign_keys" "valid" = Some (PyBool true))
    /\ (forall consistency : pyobj,
          all_valid (setitem (results db) "consistency" consistency) = Some status).
Proof.
  destruct (run_full_validation_returns db) as (printed & status & Hrun & Hall & Hline).
  exists printed, status.
  split; [exact Hrun|]. split; [reflexivity|]. split; [exact Hall|]. split; [exact Hline|].
  rewrite all_valid_results in Hall. injection Hall as Hall.
  rewrite (proj2 (customers_fields db)), (proj2 (products_fields db)),
    (proj2 (orders_fields db)), (proj2 (foreign_keys_fields db)).
  split; [split|].
  - intros ->. apply andb_prop in Hall as [Hall Hf]. apply andb_prop in Hall as [Hall Ho].
    apply andb_prop in Hall as [Hc Hp]. now rewrite Hc, Hp, Ho, Hf.
  - intros (Hc & Hp & Ho & Hf).
    injection Hc as Hc. injection Hp as Hp. injection Ho as Ho. injection Hf as Hf.
    now rewrite Hc, Hp, Ho, Hf in Hall.
  - intros consistency. rewrite all_valid_ignores_consistency, all_valid_results.
    now rewrite Hall.
Qed.

(* ===================================================================== *)
(** ** Shape of the sections *)
(* ===================================================================== *)

Lemma under_own_heading (heading rest : string) :
  under heading (PyStr (heading ++ rest)) = true.
Proof.
  simpl. induction heading as [|c heading IH]; simpl.
  - now destruct rest.
  - destruct (ascii_dec c c) as [_|Hne]; [exact IH | now elim Hne].
Qed.

(** The entries under a heading, with the printed rows abstracted: a
    message under another heading of the section is told apart by running
    [prefix] over the two headings. *)
Ltac entries_under :=
  unfold rule_entries, rows_entry, count_entry, count_message; cbn [fst snd filter];
  repeat match goal with
         | |- context [str_of ?x] => generalize (str_of x); intro
         end;
  rewrite ?under_own_heading; cbv; first [reflexivity | lia].

Ltac shape_of_issues :=
  split; [reflexivity|];
  split; [simpl; lia|];
  split; [reflexivity|];
  repeat apply Forall_cons; try apply Forall_nil; (split; entries_under).

Section Shape.
Context {B : Builtins}.

(** The [issues] list of each section, rule by rule. *)
Lemma customers_entries (db : database) :
  customers_issues db = flat_map rows_entry (customers_rules db).
Proof.
  unfold customers_issues, customers_rules, rows_entry.
  rewrite !append_if_app, !len_is_zero_match. cbn [flat_map fst snd].
  destruct (customers_null_fields db), (duplicate_emails db), (invalid_emails db);
    reflexivity.
Qed.

Lemma products_entries (db : database) :
  products_issues db = flat_map rows_entry (products_rules db).
Proof.
  unfold products_issues, products_rules, rows_entry.
  rewrite !append_if_app, !len_is_zero_match. cbn [flat_map fst snd].
  destruct (products_null_fields db), (products_negative_prices db), (negative_stock db),
    (duplicate_ids db); reflexivity.
Qed.

Lemma orders_entries (db : database) :
  orders_issues db = flat_map rows_entry (orders_rules db).
Proof.
  unfold orders_issues, orders_rules, rows_entry.
  rewrite !append_if_app, !len_is_zero_match. cbn [flat_map fst snd].
  destruct (orders_null_fields db), (invalid_quantities db), (orders_negative_prices db);
    reflexivity.
Qed.

Lemma foreign_keys_entries (db : database) :
  foreign_keys_issues db = flat_map rows_entry (foreign_keys_rules db).
Proof.
  unfold foreign_keys_issues, foreign_keys_rules, rows_entry.
  rewrite !append_if_app, !len_is_zero_match. cbn [flat_map fst snd].
  destruct (orphaned_customers db), (orphaned_products db); reflexivity.
Qed.

Lemma consistency_entries (db : database) :
  consistency_issues db = flat_map count_entry (consistency_rules db).
Proof.
  unfold consistency_issues, consistency_rules, count_entry, count_message.
  rewrite !append_if_app, !len_is_zero_match. cbn [flat_map fst snd].
  destruct (price_mismatches db), (potential_stock_issues db); reflexivity.
Qed.

Lemma customers_shape (db : database) :
  section_shape (results db) "customers" rows_entry (customers_rules db) 3.
Proof.
  exists (customers_issues db). split; [reflexivity|].
  rewrite (proj2 (customers_fields db)), len_is_zero_match, customers_entries.
  unfold customers_rules, rows_entry. cbn [flat_map fst snd].
  destruct (customers_null_fields db), (duplicate_emails db), (invalid_emails db);
    cbn [app]; shape_of_issues.
Qed.

Lemma products_shape (db : database) :
  section_shape (results db) "products" rows_entry (products_rules db) 4.
Proof.
  exists (products_issues db). split; [reflexivity|].
  rewrite (proj2 (products_fields db)), len_is_zero_match, products_entries.
  unfold products_rules, rows_entry. cbn [flat_map fst snd].
  destruct (products_null_fields db), (products_negative_prices db), (negative_stock db),
    (duplicate_ids db); cbn [app]; shape_of_issues.
Qed.

Lemma orders_shape (db : database) :
  section_shape (results db) "orders" rows_entry (orders_rules db) 3.
Proof.
  exists (orders_issues db). split; [reflexivity|].
  rewrite (proj2 (orders_fields db)), len_is_zero_match, orders_entries.
  unfold orders_rules, rows_entry. cbn [flat_map fst snd].
  destruct (orders_null_fields db), (invalid_quantities db), (orders_negative_prices db);
    cbn [app]; shape_of_issues.
Qed.

Lemma foreign_keys_shape (db : database) :
  section_shape (results db) "foreign_keys" rows_entry (foreign_keys_rules db) 2.
Proof.
  exists (foreign_keys_issues db). split; [reflexivity|].
  rewrite (proj2 (foreign_keys_fields db)), len_is_zero_match, foreign_keys_entries.
  unfold foreign_keys_rules, rows_entry. cbn [flat_map fst snd].
  destruct (orphaned_customers db), (orphaned_products db); cbn [app]; shape_of_issues.
Qed.

Lemma consistency_shape (db : database) :
  section_shape (results db) "consistency" count_entry (consistency_rules db) 2.
Proof.
  exists (consistency_issues db). split; [reflexivity|].
  rewrite (proj2 (consistency_fields db)), len_is_zero_match, consistency_entries.
  unfold consistency_rules, count_entry. cbn [flat_map fst snd].
  destruct (price_mismatches db), (potential_stock_issues db); cbn [app]; shape_of_issues.
Qed.

(** The entries the rules leave are messages of the rules. *)
Lemma rows_entries_are_messages (rules : list (string * list pyobj)) :
  Forall (fun issue => is_rows_message rules issue /\ is_issue_descriptor issue = false)
         (flat_map rows_entry rules).
Proof.
  apply Forall_forall. intros issue Hin.
  apply in_flat_map in Hin as ([heading rows] & Hrule & Hin).
  unfold rows_entry in Hin. cbn [fst snd] in Hin.
  destruct rows as [|row rows]; [contradiction|]. destruct Hin as [<-|[]].
  split; [|reflexivity]. exists heading, (row :: rows).
  split; [exact Hrule|]. split; [discriminate | reflexivity].
Qed.

Lemma count_entries_are_messages (rules : list (string * list pyobj)) :
  Forall (fun issue => is_count_message rules issue /\ is_issue_descriptor issue = false)
         (flat_map count_entry rules).
Proof.
  apply Forall_forall. intros issue Hin.
  apply in_flat_map in Hin as ([heading rows] & Hrule & Hin).
  unfold count_entry in Hin. cbn [fst snd] in Hin.
  destruct rows as [|row rows]; [contradiction|]. destruct Hin as [<-|[]].
  split; [|reflexivity]. exists heading, (row :: rows).
  split; [exact Hrule|]. split; [discriminate | reflexivity].
Qed.

End Shape.

(** C10: whatever the data, every section lists one entry for each rule
    whose query returned rows and none for the others, in the order of the
    rules.  The entry of a rule carries all the rows its query returned,
    however many they are, and it is the only entry under the heading of the
    rule.  So there are at most 3 entries for customers, 4 for products, 3
    for orders, 2 for foreign_keys and 2 for consistency; and a section's
    [valid] flag says whether its [issues] list is empty. *)
Theorem one_entry_per_rule {B : Builtins} (db : database) :
  section_shape (results db) "customers" rows_entry (customers_rules db) 3
  /\ section_shape (results db) "products" rows_entry (products_rules db) 4
  /\ section_shape (results db) "orders" rows_entry (orders_rules db) 3
  /\ section_shape (results db) "foreign_keys" rows_entry (foreign_keys_rules db) 2
  /\ section_shape (results db) "consistency" count_entry (consistency_rules db) 2.
Proof.
  split; [apply customers_shape|].
  split; [apply products_shape|].
  split; [apply orders_shape|].
  split; [apply foreign_keys_shape | apply consistency_shape].
Qed.

(* ===================================================================== *)
(** ** Issues are messages *)
(* ===================================================================== *)

(** C3, as the claim states it, fails: an entry of an [issues] list is a
    [str], not an object with [rule], [affected_keys] and [detail].  Shown
    on a table with one malformed address: the customers section lists one
    message, text with the printed rows inside. *)
Lemma issue_is_text_not_descriptor :
  field (results (B := Examples.builtins) Examples.bad_email) "customers" "issues"
  = Some (PyList [PyStr "Invalid email format: [(2, 'emily@localhost')]"])
  /\ is_issue_descriptor (PyStr "Invalid email format: [(2, 'emily@localhost')]") = false.
Proof. split; reflexivity. Qed.

(** C3, amended: whatever the data, every entry of every section's
    [issues] list is a text message, not a descriptor with fields: the
    heading of one of the section's rules, which names the rule, followed by
    the printed list of the rows the query of that rule returned, or for
    the consistency section by the number of those rows and the word
    [cases]. *)
Theorem issues_are_plain_messages {B : Builtins} (db : database) :
  plain_messages (results db) "customers" (is_rows_message (customers_rules db))
  /\ plain_messages (results db) "products" (is_rows_message (products_rules db))
  /\ plain_messages (results db) "orders" (is_rows_message (orders_rules db))
  /\ plain_messages (results db) "foreign_keys" (is_rows_message (foreign_keys_rules db))
  /\ plain_messages (results db) "consistency" (is_count_message (consistency_rules db)).
Proof.
  repeat apply conj.
  - exists (customers_issues db). split; [reflexivity|].
    rewrite customers_entries. apply rows_entries_are_messages.
  - exists (products_issues db). split; [reflexivity|].
    rewrite products_entries. apply rows_entries_are_messages.
  - exists (orders_issues db). split; [reflexivity|].
    rewrite orders_entries. apply rows_entries_are_messages.
  - exists (foreign_keys_issues db). split; [reflexivity|].
    rewrite foreign_keys_entries. apply rows_entries_are_messages.
  - exists (consistency_issues db). split; [reflexivity|].
    rewrite consistency_entries. apply count_entries_are_messages.
Qed.

(* ===================================================================== *)
(** ** Duplicate keys *)
(* ===================================================================== *)

Lemma len_is_zero_map {A} (f : A -> pyobj) (xs : list A) :
  len_is_zero (map f xs) = match xs with [] => true | _ :: _ => false end.
Proof. now destruct xs. Qed.

Lemma len_is_zero_append_if (rows : list pyobj) (message : string) (issues : list pyobj) :
  len_is_zero (append_if rows message issues) = (len_is_zero issues && len_is_zero rows)%bool.
Proof.
  rewrite append_if_app. destruct issues, rows; reflexivity.
Qed.

(** The customers section is valid when its three queries return nothing. *)
Lemma customers_valid_flag {B : Builtins} (db : database) :
  len_is_zero (customers_issues db)
  = (len_is_zero (customers_null_fields db) && len_is_zero (duplicate_emails db)
     && len_is_zero (invalid_emails db))%bool.
Proof. unfold customers_issues. now rewrite !len_is_zero_append_if. Qed.

(** None of the three queries of [validate_customers] looks at the keys:
    filing every customer under one key changes no verdict. *)
Lemma customers_valid_rekeyed {B : Builtins} (k : cell Z) (db : database) :
  len_is_zero (customers_issues (rekeyed k db)) = len_is_zero (customers_issues db).
Proof.
  rewrite !customers_valid_flag.
  unfold customers_null_fields, duplicate_emails, invalid_emails, rekeyed; cbn [customers].
  rewrite !filter_map_swap, !map_map; cbn [Customer.first_name Customer.last_name Customer.email].
  now rewrite !len_is_zero_map.
Qed.

(** C2: the claim is not what the code does.  [validate_customers] groups
    by email only; two customer records under one [customer_id] with
    different addresses leave the customers section valid and empty, while
    [validate_products] reports the same situation in its table.  More
    generally the customers section is as valid with every record filed
    under one key as it is with the keys it has. *)
Theorem duplicate_customer_id_goes_unreported {B : Builtins} :
  unique (same_cell Z.eqb) (map Customer.customer_id (customers Examples.twin_ids)) = false
  /\ validate_customers Examples.twin_ids
     = PyDict [ ("table", PyStr "customers"); ("valid", PyBool true); ("issues", PyList []) ]
  /\ duplicate_ids Examples.twin_product_ids = [PyTuple [PyInt 102; PyInt 2]]
  /\ field (results Examples.twin_product_ids) "products" "valid" = Some (PyBool false)
  /\ (forall (k : cell Z) (db : database),
        field (results (rekeyed k db)) "customers" "valid"
        = field (results db) "customers" "valid").
Proof.
  repeat split; try reflexivity.
  intros k db. rewrite (proj2 (customers_fields db)), (proj2 (customers_fields (rekeyed k db))).
  now rewrite customers_valid_rekeyed.
Qed.

(* ===================================================================== *)
(** ** Text *)
(* ===================================================================== *)

Lemma append_assoc (a b c : string) : (a ++ b) ++ c = a ++ b ++ c.
Proof. induction a as [|x a IH]; simpl; [reflexivity | now rewrite IH]. Qed.

Lemma append_empty_r (a : string) : a ++ "" = a.
Proof. induction a as [|x a IH]; simpl; [reflexivity | now rewrite IH]. Qed.

Lemma contains_refl (text : string) : contains text text.
Proof. exists "", "". simpl. now rewrite append_empty_r. Qed.

Lemma contains_inside (needle text before after : string) :
  contains needle text -> contains needle (before ++ text ++ after).
Proof.
  intros (b & a & ->). exists (before ++ b), (a ++ after).
  now rewrite !append_assoc.
Qed.

Lemma contains_join (sep needle : string) (parts : list string) :
  In needle parts -> contains needle (Py.join sep parts).
Proof.
  induction parts as [|p rest IH]; [contradiction|].
  intros [->|Hin].
  - destruct rest as [|q rest]; simpl.
    + apply contains_refl.
    + exists "", (sep ++ Py.join sep (q :: rest)). reflexivity.
  - destruct rest as [|q rest]; [contradiction|].
    change (Py.join sep (p :: q :: rest)) with (p ++ sep ++ Py.join sep (q :: rest)).
    specialize (IH Hin).
    rewrite <- (append_empty_r (Py.join sep (q :: rest))), <- append_assoc.
    now apply contains_inside.
Qed.

(** A row that was fetched shows in the printed list of rows. *)
Lemma contains_row {B : Builtins} (row : pyobj) (rows : list pyobj) :
  In row rows -> contains (repr row) (str_of (PyList rows)).
Proof.
  intros Hin. unfold str_of.
  change (repr (PyList rows)) with ("[" ++ Py.join ", " (map repr rows) ++ "]").
  apply contains_inside, contains_join, in_map, Hin.
Qed.

(** *** [LIKE '%@%.%'] *)









(* ===================================================================== *)
(** ** The email format rule *)
(* ===================================================================== *)

Lemma In_not_empty (x : pyobj) (xs : list pyobj) : In x xs -> len_is_zero xs = false.
Proof. destruct xs; [contradiction | reflexivity]. Qed.


Lemma int_cell_inj (x y : cell Z) : int_cell x = int_cell y -> x = y.
Proof.
  destruct x, y; simpl; intros H; try discriminate; [now injection H as -> | reflexivity].
Qed.


(** A customer without address is not selected by the format query (the
    comparison with [NULL] is unknown); the required-field query reports it. *)
Lemma null_email_not_selected (db : database) (c : Customer.t) :
  In c (customers db) -> Customer.email c = None ->
  passes_format_check (Customer.email c) = true
  /\ In (PyTuple [ int_cell (Customer.customer_id c); text_cell (Customer.first_name c);
                   text_cell (Customer.last_name c); PyNone ])
        (customers_null_fields db).
Proof.
  intros Hin He. rewrite He. split; [reflexivity|].
  unfold customers_null_fields. apply in_map_iff. exists c.
  rewrite He. split; [reflexivity|].
  apply filter_In. split; [exact Hin|]. rewrite He.
  now destruct (Customer.first_name c), (Customer.last_name c).
Qed.



(* ===================================================================== *)
(** ** Referential integrity *)
(* ===================================================================== *)

Lemma filter_none {A} (f : A -> bool) (xs : list A) :
  existsb f xs = false -> filter f xs = [].
Proof.
  induction xs as [|x xs IH]; [reflexivity|]. simpl.
  destruct (f x); [discriminate | exact IH].
Qed.

Lemma filter_some {A} (f : A -> bool) (xs : list A) :
  existsb f xs = true -> filter f xs <> [].
Proof.
  induction xs as [|x xs IH]; [discriminate|]. simpl.
  destruct (f x); [discriminate | exact IH].
Qed.

Lemma left_join_unmatched {L R} (on : L -> R -> truth) (left : list L) (right : list R) (l : L) :
  In l left -> existsb (fun r => holds (on l r)) right = false ->
  In (l, None) (left_join on left right).
Proof.
  intros Hin Hnone. unfold left_join. apply in_flat_map. exists l. split; [exact Hin|].
  unfold matches. rewrite (filter_none _ _ Hnone). now left.
Qed.

Lemma left_join_null_side {L R} (on : L -> R -> truth) (left : list L) (right : list R) (l : L) :
  In (l, None) (left_join on left right) ->
  In l left /\ existsb (fun r => holds (on l r)) right = false.
Proof.
  unfold left_join. intros H. apply in_flat_map in H as (l' & Hin & H).
  unfold matches in H.
  destruct (existsb (fun r => holds (on l' r)) right) eqn:Hex.
  - apply filter_some in Hex.
    destruct (filter (fun r => holds (on l' r)) right) as [|r rs]; [contradiction|].
    apply in_map_iff in H as (r' & H & _). discriminate H.
  - rewrite (filter_none _ _ Hex) in H. destruct H as [H|[]].
    injection H as ->. now split.
Qed.

Lemma left_join_matched_side {L R} (on : L -> R -> truth) (left : list L) (right : list R)
      (l : L) (r : R) :
  In (l, Some r) (left_join on left right) -> holds (on l r) = true.
Proof.
  unfold left_join. intros H. apply in_flat_map in H as (l' & Hin & H).
  unfold matches in H.
  destruct (filter (fun r => holds (on l' r)) right) as [|r0 rs] eqn:Hf.
  - destruct H as [H|[]]. discriminate H.
  - rewrite <- Hf in H. apply in_map_iff in H as (r' & H & Hr'). injection H as -> ->.
    now apply filter_In in Hr' as [_ Hr'].
Qed.

(** A key that equals a key of the other table is not [NULL]. *)
Lemma int_eq_holds (x y : cell Z) :
  holds (int_eq x y) = true <-> exists k, x = Some k /\ y = Some k.
Proof.
  destruct x as [a|], y as [b|]; simpl; split; try discriminate;
    try (intros (k & H1 & H2); discriminate).
  - destruct (Z.eqb_spec a b) as [->|]; [|discriminate]. intros _. now exists b.
  - intros (k & H1 & H2). injection H1 as ->. injection H2 as ->. now rewrite Z.eqb_refl.
Qed.



(** The orders the first foreign-key query returns are those without a
    customer record. *)
Lemma orphaned_customers_In (db : database) (o : Order.t) :
  In o (orders db) -> customer_exists db o = false ->
  In (customer_reference o) (orphaned_customers db).
Proof.
  intros Hin Hnone. unfold orphaned_customers. apply in_map_iff.
  exists (o, None). split; [reflexivity|].
  apply filter_In. split; [|reflexivity].
  now apply left_join_unmatched.
Qed.

Lemma orphaned_products_In (db : database) (o : Order.t) :
  In o (orders db) -> product_exists db o = false ->
  In (product_reference o) (orphaned_products db).
Proof.
  intros Hin Hnone. unfold orphaned_products. apply in_map_iff.
  exists (o, None). split; [reflexivity|].
  apply filter_In. split; [|reflexivity].
  now apply left_join_unmatched.
Qed.

Lemma prefixed_contains_row {B : Builtins} (heading : string) (row : pyobj) (rows : list pyobj) :
  In row rows -> contains (repr row) (heading ++ str_of (PyList rows)).
Proof.
  intros Hin. rewrite <- (append_empty_r (str_of (PyList rows))).
  now apply contains_inside, contains_row.
Qed.

Section ForeignKeys.
Context {B : Builtins}.

Lemma orphaned_customer_reported (db : database) (o : Order.t) :
  In o (orders db) -> customer_exists db o = false ->
  In (customer_reference o) (orphaned_customers db)
  /\ In (PyStr ("Orders with invalid customer_id: " ++ str_of (PyList (orphaned_customers db))))
        (foreign_keys_issues db)
  /\ contains (repr (customer_reference o))
              ("Orders with invalid customer_id: " ++ str_of (PyList (orphaned_customers db)))
  /\ field (results db) "foreign_keys" "valid" = Some (PyBool false).
Proof.
  intros Hin Hnone. pose proof (orphaned_customers_In db o Hin Hnone) as Hrow.
  assert (Hissue : In (PyStr ("Orders with invalid customer_id: "
                                ++ str_of (PyList (orphaned_customers db))))
                      (foreign_keys_issues db)).
  { unfold foreign_keys_issues. apply append_if_keeps. eapply append_if_In, Hrow. }
  split; [exact Hrow|]. split; [exact Hissue|].
  split; [now apply prefixed_contains_row|].
  rewrite (proj2 (foreign_keys_fields db)). now rewrite (In_not_empty _ _ Hissue).
Qed.


End ForeignKeys.

(** C5: an order whose [customer_id] is that of no customer record is
    listed in the foreign_keys issues and makes that section invalid; the
    customers and products sections are what they are for any other
    [orders] table over the same customers and products. *)
Theorem orphaned_order_is_reported {B : Builtins} (db : database) (o : Order.t) :
  In o (orders db) ->
  customer_exists db o = false ->
  In (customer_reference o) (orphaned_customers db)
  /\ In (PyStr ("Orders with invalid customer_id: " ++ str_of (PyList (orphaned_customers db))))
        (foreign_keys_issues db)
  /\ contains (repr (customer_reference o))
              ("Orders with invalid customer_id: " ++ str_of (PyList (orphaned_customers db)))
  /\ field (results db) "foreign_keys" "issues" = Some (PyList (foreign_keys_issues db))
  /\ field (results db) "foreign_keys" "valid" = Some (PyBool false)
  /\ (forall others : list Order.t,
        getitem (results (with_orders db others)) "customers"
        = getitem (results db) "customers"
        /\ getitem (results (with_orders db others)) "products"
           = getitem (results db) "products").
Proof.
  intros Hin Hnone.
  destruct (orphaned_customer_reported db o Hin Hnone) as (Hrow & Hissue & Htext & Hvalid).
  split; [exact Hrow|]. split; [exact Hissue|]. split; [exact Htext|].
  split; [reflexivity|]. split; [exact Hvalid|].
  intros others. split; reflexivity.
Qed.

(** The order of customer 7, who is not in the table, is reported; the
    customers and products sections are those of the table without it. *)
Lemma orphaned_order_is_reported_witness :
  In (PyTuple [PyInt 2; PyInt 7]) (orphaned_customers Examples.orphan)
  /\ field (results (B := Examples.builtins) Examples.orphan) "foreign_keys" "issues"
     = Some (PyList [PyStr "Orders with invalid customer_id: [(2, 7)]"])
  /\ field (results (B := Examples.builtins) Examples.orphan) "foreign_keys" "valid"
     = Some (PyBool false)
  /\ getitem (results (B := Examples.builtins) Examples.orphan) "customers"
     = getitem (results (B := Examples.builtins)
                  (with_orders Examples.orphan [Examples.order 1 1 102 2 29.99]))
               "customers".
Proof.
  destruct (@orphaned_order_is_reported Examples.builtins Examples.orphan
              (Examples.order 2 7 102 1 29.99) ltac:(simpl; tauto) eq_refl)
    as (Hrow & _ & _ & Hissues & Hvalid & Hframe).
  split; [exact Hrow|]. split; [exact Hissues|]. split; [exact Hvalid|].
  symmetry. apply (Hframe [Examples.order 1 1 102 2 29.99]).
Defined.

(* ===================================================================== *)
(** ** Orders without a customer or a product *)
(* ===================================================================== *)







(* ===================================================================== *)
(** ** Cross-table consistency *)
(* ===================================================================== *)

Lemma inner_join_In {L R} (on : L -> R -> truth) (left : list L) (right : list R) (l : L) (r : R) :
  In (l, r) (inner_join on left right)
  <-> In l left /\ In r right /\ holds (on l r) = true.
Proof.
  unfold inner_join, matches. rewrite in_flat_map. split.
  - intros (l' & Hl & H). apply in_map_iff in H as (r' & H & Hr). injection H as -> ->.
    apply filter_In in Hr as [Hr Hon]. now repeat split.
  - intros (Hl & Hr & Hon). exists l. split; [exact Hl|].
    apply in_map. apply filter_In. now split.
Qed.

Lemma real_cell_inj (x y : cell float) : real_cell x = real_cell y -> x = y.
Proof.
  destruct x, y; simpl; intros H; try discriminate; [now injection H as -> | reflexivity].
Qed.

Lemma price_mismatches_In (db : database) (o : Order.t) (p : Product.t) :
  In o (orders db) -> In p (products db) ->
  holds (int_eq (Order.product_id o) (Product.product_id p)) = true ->
  (In (price_case o p) (price_mismatches db) <-> holds (price_differs o p) = true).
Proof.
  intros Ho Hp Hon. unfold price_mismatches. rewrite in_map_iff. split.
  - intros ([o' p'] & Hrow & Hsel). apply filter_In in Hsel as [_ Hsel].
    simpl in Hrow, Hsel. injection Hrow as _ _ Hunit Hprice.
    apply real_cell_inj in Hunit, Hprice.
    unfold price_differs in *. now rewrite <- Hunit, <- Hprice.
  - intros Hdiff. exists (o, p). split; [reflexivity|].
    apply filter_In. split; [|exact Hdiff].
    apply inner_join_In. now repeat split.
Qed.

Lemma potential_stock_issues_In (db : database) (o : Order.t) (p : Product.t) :
  In o (orders db) -> In p (products db) ->
  holds (int_eq (Order.product_id o) (Product.product_id p)) = true ->
  (In (stock_case o p) (potential_stock_issues db) <-> holds (exceeds_stock o p) = true).
Proof.
  intros Ho Hp Hon. unfold potential_stock_issues. rewrite in_map_iff. split.
  - intros ([o' p'] & Hrow & Hsel). apply filter_In in Hsel as [_ Hsel].
    simpl in Hrow, Hsel. injection Hrow as _ _ Hquantity Hstock.
    apply int_cell_inj in Hquantity, Hstock.
    unfold exceeds_stock in *. now rewrite <- Hquantity, <- Hstock.
  - intros Hexc. exists (o, p). split; [reflexivity|].
    apply filter_In. split; [|exact Hexc].
    apply inner_join_In. now repeat split.
Qed.

(** [ABS(unit_price - price) > 0.01] is true when both prices are there
    and their difference is above the tolerance. *)
Lemma price_differs_holds (o : Order.t) (p : Product.t) :
  holds (price_differs o p) = true
  <-> exists u c, Order.unit_price o = Some u /\ Product.price p = Some c
                  /\ PrimFloat.ltb 0.01 (PrimFloat.abs (PrimFloat.sub u c)) = true.
Proof.
  unfold price_differs. destruct (Order.unit_price o) as [u|], (Product.price p) as [c|];
    simpl; split; try discriminate; try (intros (u' & c' & H1 & H2 & _); discriminate).
  - intros H. exists u, c. repeat split.
    now destruct (PrimFloat.ltb 0.01 (PrimFloat.abs (PrimFloat.sub u c))).
  - intros (u' & c' & H1 & H2 & H). injection H1 as <-. injection H2 as <-. now rewrite H.
Qed.

(** [quantity > stock_quantity + 100] is true when both numbers are there
    and the quantity is above the stock by more than the buffer. *)
Lemma exceeds_stock_holds (o : Order.t) (p : Product.t) :
  holds (exceeds_stock o p) = true
  <-> exists q s, Order.quantity o = Some q /\ Product.stock_quantity p = Some s
                  /\ q > s + 100.
Proof.
  unfold exceeds_stock. destruct (Order.quantity o) as [q|], (Product.stock_quantity p) as [s|];
    simpl; split; try discriminate; try (intros (q' & s' & H1 & H2 & _); discriminate).
  - intros H. exists q, s. repeat split.
    destruct (Z.gtb_spec q (s + 100)); [lia | discriminate].
  - intros (q' & s' & H1 & H2 & H). injection H1 as <-. injection H2 as <-.
    destruct (Z.gtb_spec q (s + 100)); [reflexivity | lia].
Qed.

Section Consistency.
Context {B : Builtins}.

Lemma price_case_counted (db : database) (row : pyobj) :
  In row (price_mismatches db) ->
  In (count_message "Order prices differ from current product prices (may be expected): "
                    (price_mismatches db))
     (consistency_issues db)
  /\ field (results db) "consistency" "valid" = Some (PyBool false).
Proof.
  intros Hrow.
  assert (Hissue : In (count_message
                         "Order prices differ from current product prices (may be expected): "
                         (price_mismatches db))
                      (consistency_issues db)).
  { unfold consistency_issues. apply append_if_keeps. eapply append_if_In, Hrow. }
  split; [exact Hissue|].
  rewrite (proj2 (consistency_fields db)). now rewrite (In_not_empty _ _ Hissue).
Qed.

Lemma stock_case_counted (db : database) (row : pyobj) :
  In row (potential_stock_issues db) ->
  In (count_message "Orders with quantities significantly exceeding current stock: "
                    (potential_stock_issues db))
     (consistency_issues db)
  /\ field (results db) "consistency" "valid" = Some (PyBool false).
Proof.
  intros Hrow.
  assert (Hissue : In (count_message
                         "Orders with quantities significantly exceeding current stock: "
                         (potential_stock_issues db))
                      (consistency_issues db)).
  { unfold consistency_issues. eapply append_if_In, Hrow. }
  split; [exact Hissue|].
  rewrite (proj2 (consistency_fields db)). now rewrite (In_not_empty _ _ Hissue).
Qed.

End Consistency.

(** Two equal numbers are never found apart, whatever they are. *)
Lemma same_price_never_differs (u : float) :
  PrimFloat.ltb 0.01 (PrimFloat.abs (PrimFloat.sub u u)) = false.
Proof.
  rewrite ltb_spec, abs_spec, sub_spec.
  destruct (Prim2SF u) as [s|s| |s m e]; try reflexivity.
  - destruct s; reflexivity.
  - destruct s; reflexivity.
  - unfold SF64sub, SFsub. rewrite Z.sub_diag. reflexivity.
Qed.

(** C4, as the claim states it, fails: the difference is not taken between
    the prices as they are written.  Three pairs of prices that are exactly
    0.01 apart, which is not above 0.01: 100.00 against 100.01 and 29.99
    against 30.00 are recorded, 0.01 against 0.02 is not.  The prices are
    stored as the binary64 numbers nearest to them, and the difference of
    those is rounded again. *)
Lemma one_cent_apart_goes_either_way :
  (Examples.money 10000 = 100%float /\ Examples.money 10001 = 100.01%float
   /\ Z.abs (10001 - 10000) = 1
   /\ price_mismatches (Examples.marked 10000 10001)
      = [PyTuple [PyInt 1; PyInt 7; PyFloat 100; PyFloat 100.01]])
  /\ (Examples.money 2999 = 29.99%float /\ Examples.money 3000 = 30%float
      /\ Z.abs (3000 - 2999) = 1
      /\ price_mismatches (Examples.marked 2999 3000)
         = [PyTuple [PyInt 1; PyInt 7; PyFloat 29.99; PyFloat 30]])
  /\ (Examples.money 1 = 0.01%float /\ Examples.money 2 = 0.02%float
      /\ Z.abs (2 - 1) = 1
      /\ price_mismatches (Examples.marked 1 2) = []).
Proof. vm_compute. repeat split. Qed.

(** C4, amended: for an order and the product it names, the price-drift
    query returns the case if and only if both prices are there and the
    difference of the two stored binary64 numbers, rounded to binary64 and
    taken without its sign, is above the binary64 number nearest to 0.01.
    An order at the very price of its product is never returned.  A case
    that is returned is counted in the message of the consistency section,
    and the overall status does not depend on that section. *)
Theorem price_drift_rule {B : Builtins} (db : database) (o : Order.t) (p : Product.t) (k : Z) :
  In o (orders db) ->
  In p (products db) ->
  Order.product_id o = Some k ->
  Product.product_id p = Some k ->
  (In (price_case o p) (price_mismatches db)
   <-> exists u c, Order.unit_price o = Some u /\ Product.price p = Some c
                   /\ PrimFloat.ltb 0.01 (PrimFloat.abs (PrimFloat.sub u c)) = true)
  /\ (Order.unit_price o = Product.price p -> ~ In (price_case o p) (price_mismatches db))
  /\ (In (price_case o p) (price_mismatches db) ->
      In (count_message "Order prices differ from current product prices (may be expected): "
                        (price_mismatches db))
         (consistency_issues db)
      /\ field (results db) "consistency" "valid" = Some (PyBool false))
  /\ (forall consistency : pyobj,
        all_valid (setitem (results db) "consistency" consistency) = all_valid (results db)).
Proof.
  intros Ho Hp Hok Hpk.
  assert (Hon : holds (int_eq (Order.product_id o) (Product.product_id p)) = true).
  { apply int_eq_holds. now exists k. }
  assert (Hrow : In (price_case o p) (price_mismatches db)
                 <-> exists u c, Order.unit_price o = Some u /\ Product.price p = Some c
                                 /\ PrimFloat.ltb 0.01 (PrimFloat.abs (PrimFloat.sub u c))
                                    = true).
  { rewrite <- price_differs_holds. now apply price_mismatches_In. }
  split; [exact Hrow|]. split; [|split].
  - intros Hsame Hin. apply Hrow in Hin as (u & c & Hu & Hc & Hdiff).
    rewrite Hu, Hc in Hsame. injection Hsame as <-.
    rewrite same_price_never_differs in Hdiff. discriminate Hdiff.
  - apply price_case_counted.
  - intros consistency. apply all_valid_ignores_consistency.
Qed.

(** The tolerance at work on an order at 100.00: against a price of
    100.009 no case is recorded; against 100.02 one case is, and the
    overall status stays true. *)
Lemma price_drift_rule_witness :
  ~ In (PyTuple [PyInt 1; PyInt 7; PyFloat 100; PyFloat 100.009])
       (price_mismatches (Examples.priced 100.009))
  /\ In (PyTuple [PyInt 1; PyInt 7; PyFloat 100; PyFloat 100.02])
        (price_mismatches (Examples.priced 100.02))
  /\ field (results (B := Examples.builtins) (Examples.priced 100.02)) "consistency" "issues"
     = Some (PyList [PyStr "Order prices differ from current product prices (may be expected): 1 cases"])
  /\ all_valid (results (B := Examples.builtins) (Examples.priced 100.02)) = Some true.
Proof.
  split; [|split; [|split]].
  - destruct (@price_drift_rule Examples.builtins (Examples.priced 100.009)
                (Examples.order 1 1 7 1 100) (Examples.product 7 "Desk" 100.009 10) 7
                ltac:(simpl; tauto) ltac:(simpl; tauto) eq_refl eq_refl) as (Hrow & _).
    intros Hin. apply Hrow in Hin as (u & c & Hu & Hc & Hdiff).
    injection Hu as <-. injection Hc as <-. vm_compute in Hdiff. discriminate Hdiff.
  - destruct (@price_drift_rule Examples.builtins (Examples.priced 100.02)
                (Examples.order 1 1 7 1 100) (Examples.product 7 "Desk" 100.02 10) 7
                ltac:(simpl; tauto) ltac:(simpl; tauto) eq_refl eq_refl) as (Hrow & _).
    apply Hrow. exists 100%float, 100.02%float. repeat split.
  - reflexivity.
  - reflexivity.
Defined.

(** C7: for an order and the product it names, the stock query returns the
    case if and only if the order's quantity is strictly above the
    product's stock plus 100: stock + 100 is not flagged, stock + 101 is.
    A case that is returned is counted in the message of the consistency
    section, and the overall status does not depend on that section. *)
Theorem stock_buffer_rule {B : Builtins} (db : database) (o : Order.t) (p : Product.t) (k : Z) :
  In o (orders db) ->
  In p (products db) ->
  Order.product_id o = Some k ->
  Product.product_id p = Some k ->
  (In (stock_case o p) (potential_stock_issues db)
   <-> exists q s, Order.quantity o = Some q /\ Product.stock_quantity p = Some s
                   /\ q > s + 100)
  /\ (forall s, Product.stock_quantity p = Some s -> Order.quantity o = Some (s + 100) ->
        ~ In (stock_case o p) (potential_stock_issues db))
  /\ (forall s, Product.stock_quantity p = Some s -> Order.quantity o = Some (s + 101) ->
        In (stock_case o p) (potential_stock_issues db))
  /\ (In (stock_case o p) (potential_stock_issues db) ->
      In (count_message "Orders with quantities significantly exceeding current stock: "
                        (potential_stock_issues db))
         (consistency_issues db)
      /\ field (results db) "consistency" "valid" = Some (PyBool false))
  /\ (forall consistency : pyobj,
        all_valid (setitem (results db) "consistency" consistency) = all_valid (results db)).
Proof.
  intros Ho Hp Hok Hpk.
  assert (Hon : holds (int_eq (Order.product_id o) (Product.product_id p)) = true).
  { apply int_eq_holds. now exists k. }
  assert (Hrow : In (stock_case o p) (potential_stock_issues db)
                 <-> exists q s, Order.quantity o = Some q /\ Product.stock_quantity p = Some s
                                 /\ q > s + 100).
  { rewrite <- exceeds_stock_holds. now apply potential_stock_issues_In. }
  split; [exact Hrow|]. split; [|split; [|split]].
  - intros s Hs Hq Hin. apply Hrow in Hin as (q' & s' & Hq' & Hs' & Hgt).
    rewrite Hs in Hs'. rewrite Hq in Hq'. injection Hs' as <-. injection Hq' as <-. lia.
  - intros s Hs Hq. apply Hrow. exists (s + 101), s. repeat split; [assumption.. | lia].
  - apply stock_case_counted.
  - intros consistency. apply all_valid_ignores_consistency.
Qed.

(** The buffer at work on a product with 40 in stock: an order of 140 is not
    flagged; an order of 141 is, and the overall status stays true. *)
Lemma stock_buffer_rule_witness :
  ~ In (PyTuple [PyInt 1; PyInt 104; PyInt 140; PyInt 40])
       (potential_stock_issues (Examples.stocked 140))
  /\ In (PyTuple [PyInt 1; PyInt 104; PyInt 141; PyInt 40])
        (potential_stock_issues (Examples.stocked 141))
  /\ field (results (B := Examples.builtins) (Examples.stocked 141)) "consistency" "issues"
     = Some (PyList [PyStr "Orders with quantities significantly exceeding current stock: 1 cases"])
  /\ all_valid (results (B := Examples.builtins) (Examples.stocked 141)) = Some true.
Proof.
  split; [|split; [|split]].
  - destruct (@stock_buffer_rule Examples.builtins (Examples.stocked 140)
                (Examples.order 1 1 104 140 399.99) (Examples.product 104 "Monitor" 399.99 40)
                104 ltac:(simpl; tauto) ltac:(simpl; tauto) eq_refl eq_refl)
      as (_ & Hkeep & _).
    exact (Hkeep 40 eq_refl eq_refl).
  - destruct (@stock_buffer_rule Examples.builtins (Examples.stocked 141)
                (Examples.order 1 1 104 141 399.99) (Examples.product 104 "Monitor" 399.99 40)
                104 ltac:(simpl; tauto) ltac:(simpl; tauto) eq_refl eq_refl)
      as (_ & _ & Hflag & _).
    exact (Hflag 40 eq_refl eq_refl).
  - reflexivity.
  - reflexivity.
Defined.

(* ===================================================================== *)
(** ** Clean data sets *)
(* ===================================================================== *)

Lemma filter_nil_of {A} (f : A -> bool) (xs : list A) :
  (forall x, In x xs -> f x = false) -> filter f xs = [].
Proof.
  intros H. induction xs as [|x xs IH]; [reflexivity|]. simpl.
  rewrite (H x (or_introl eq_refl)). apply IH. intros y Hy. apply H. now right.
Qed.

(** *** Groups of size one *)

Section Unique.
Variable K : Type.
Variable same : K -> K -> bool.
Variable before : K -> K -> bool.
Hypothesis same_eq : forall x y, same x y = true <-> x = y.

Lemma count_absent (k : K) (keys : list K) :
  existsb (same k) keys = false -> count same k keys = 0.
Proof.
  induction keys as [|x keys IH]; [reflexivity|]. simpl.
  destruct (same k x); [discriminate|]. intros H. now rewrite (IH H).
Qed.

Lemma count_unique (keys : list K) :
  unique same keys = true -> forall k, count same k keys <= 1.
Proof.
  induction keys as [|x keys IH]; intros Huniq k; simpl; [lia|].
  simpl in Huniq. apply andb_prop in Huniq as [Hfresh Huniq].
  apply negb_true_iff in Hfresh.
  destruct (same k x) eqn:Hk.
  - apply same_eq in Hk. subst k. rewrite (count_absent _ _ Hfresh). lia.
  - specialize (IH Huniq k). lia.
Qed.

Lemma having_count_gt_1_unique (keys : list K) :
  unique same keys = true -> having_count_gt_1 same before keys = [].
Proof.
  intros Huniq. unfold having_count_gt_1, group_count.
  apply filter_nil_of. intros [k n] Hin.
  apply in_map_iff in Hin as (k' & H & _). injection H as <- <-. simpl.
  pose proof (count_unique keys Huniq k'). destruct (Z.gtb_spec (count same k' keys) 1); [lia | reflexivity].
Qed.
End Unique.

Lemma same_cell_eq {A} (eqb : A -> A -> bool) :
  (forall x y, eqb x y = true <-> x = y) ->
  forall x y : cell A, same_cell eqb x y = true <-> x = y.
Proof.
  intros Heq [a|] [b|]; simpl; split; intros H; try discriminate; try reflexivity.
  - f_equal. now apply Heq.
  - injection H as ->. now apply Heq.
Qed.

(** *** Prices *)



(** *** The queries of a clean data set return nothing *)

(** What a [forallb] says about one element of the list. *)
Ltac for_element H Hin name :=
  pose proof (proj1 (forallb_forall _ _) H _ Hin) as name; cbv beta in name.








Lemma references_of_order (db : database) (o : Order.t) :
  references_resolve db = true -> In o (orders db) ->
  customer_exists db o = true /\ product_exists db o = true.
Proof.
  intros Hrefs Hin. for_element Hrefs Hin Ho. now apply andb_prop in Ho.
Qed.









Section Clean.
Context {B : Builtins}.

Lemma clean_section (db : database) (name : string) (issues : list pyobj) :
  field (results db) name "issues" = Some (PyList issues) ->
  field (results db) name "valid" = Some (PyBool (len_is_zero issues)) ->
  issues = [] -> section_clean (results db) name.
Proof. intros Hissues Hvalid ->. now split. Qed.






End Clean.




(* ===================================================================== *)
(** ** Groups and their sizes *)
(* ===================================================================== *)

Lemma len_is_zero_filter {A} (f : A -> pyobj) (g : A -> bool) (xs : list A) :
  len_is_zero (map f (filter g xs)) = forallb (fun x => negb (g x)) xs.
Proof.
  induction xs as [|x xs IH]; [reflexivity|]. simpl.
  destruct (g x); [reflexivity | exact IH].
Qed.

Lemma text_cell_inj (x y : cell string) : text_cell x = text_cell y -> x = y.
Proof.
  destruct x, y; simpl; intros H; try discriminate; [now injection H as -> | reflexivity].
Qed.




Section Groups.
Variable K : Type.
Variable same : K -> K -> bool.
Variable before : K -> K -> bool.
Hypothesis same_eq : forall x y, same x y = true <-> x = y.

Lemma same_refl (k : K) : same k k = true.
Proof. now apply same_eq. Qed.

Lemma count_length (k : K) (keys : list K) :
  count same k keys = Z.of_nat (List.length (filter (same k) keys)).
Proof.
  induction keys as [|x keys IH]; [reflexivity|]. simpl count. simpl filter.
  destruct (same k x); simpl List.length; lia.
Qed.

Lemma count_not_negative (k : K) (keys : list K) : 0 <= count same k keys.
Proof. rewrite count_length. lia. Qed.

Lemma count_present (k : K) (keys : list K) : In k keys <-> 1 <= count same k keys.
Proof.
  induction keys as [|x keys IH]; simpl; [lia|].
  pose proof (count_not_negative k keys) as Hpos.
  destruct (same k x) eqn:Hk.
  - apply same_eq in Hk. subst x. split; [lia | now left].
  - split.
    + intros [->|Hin]; [now rewrite same_refl in Hk | apply IH in Hin; lia].
    + intros Hc. right. apply IH. lia.
Qed.

Lemma occurring_In (k : K) (keys : list K) : In k (occurring same keys) <-> In k keys.
Proof.
  induction keys as [|x keys IH]; simpl; [tauto|].
  rewrite filter_In, IH. split.
  - intros [->|[Hin _]]; [now left | now right].
  - intros [->|Hin]; [now left|].
    destruct (same x k) eqn:Hk.
    + apply same_eq in Hk. now left.
    + right. now split.
Qed.


Lemma insert_key_In (x k : K) (sorted : list K) :
  In x (insert_key before k sorted) <-> x = k \/ In x sorted.
Proof.
  induction sorted as [|k' rest IH]; simpl.
  - split; (intros [H|[]]; left; now symmetry).
  - destruct (before k' k); simpl; [rewrite IH|]; split; intros H;
      repeat destruct H as [H|H]; subst; tauto.
Qed.


Lemma in_order_In (k : K) (keys : list K) :
  In k (fold_right (insert_key before) [] keys) <-> In k keys.
Proof.
  induction keys as [|x keys IH]; simpl; [tauto|].
  rewrite insert_key_In, IH. split; (intros [H|H]; [left; now symmetry | now right]).
Qed.


Lemma distinct_In (k : K) (keys : list K) : In k (distinct same before keys) <-> In k keys.
Proof. unfold distinct. now rewrite in_order_In, occurring_In. Qed.


(** The groups [HAVING COUNT( * ) > 1] keeps: every key that occurs more
    than once, with the number of its occurrences. *)
Lemma having_count_gt_1_In (k : K) (n : Z) (keys : list K) :
  In (k, n) (having_count_gt_1 same before keys) <-> n = count same k keys /\ 1 < n.
Proof.
  unfold having_count_gt_1, group_count. rewrite filter_In, in_map_iff. simpl. split.
  - intros [(k' & H & _) Hn]. injection H as -> <-. split; [reflexivity|].
    now apply Z.gtb_lt in Hn.
  - intros [-> Hn]. split.
    + exists k. split; [reflexivity|]. apply distinct_In, count_present. lia.
    + now apply Z.gtb_lt.
Qed.


Lemma unique_count (keys : list K) :
  unique same keys = true <-> forall k, count same k keys <= 1.
Proof.
  split; [apply count_unique, same_eq|].
  induction keys as [|x keys IH]; intros Hc; [reflexivity|]. simpl.
  apply andb_true_intro. split.
  - apply negb_true_iff. destruct (existsb (same x) keys) eqn:Hex; [|reflexivity].
    apply existsb_exists in Hex as (y & Hin & Hy). apply same_eq in Hy. subst y.
    apply count_present in Hin. specialize (Hc x). simpl in Hc.
    rewrite same_refl in Hc. lia.
  - apply IH. intros k. specialize (Hc k). simpl in Hc.
    destruct (same k x); lia.
Qed.

Lemma unique_no_group (keys : list K) :
  unique same keys = true <-> having_count_gt_1 same before keys = [].
Proof.
  split; [now apply having_count_gt_1_unique|].
  intros Hnone. apply unique_count. intros k.
  destruct (Z.leb_spec (count same k keys) 1) as [Hle|Hgt]; [exact Hle|].
  assert (Hin : In (k, count same k keys) (having_count_gt_1 same before keys)).
  { apply having_count_gt_1_In. now split. }
  rewrite Hnone in Hin. contradiction.
Qed.

(** *** The order of the groups *)

Hypothesis before_trans :
  forall x y z, before x y = true -> before y z = true -> before x z = true.
Hypothesis before_total :
  forall x y, before x y = false -> before y x = false -> x = y.



End Groups.

(** *** The order of a column *)








(* ===================================================================== *)
(** ** The rules of the three tables, one by one *)
(* ===================================================================== *)





(** A query that selects rows by a condition the returned columns decide:
    the row of a record is returned exactly when the record meets the
    condition. *)
Lemma row_selected {A} (f : A -> pyobj) (g : A -> bool) (xs : list A) (x : A) :
  In x xs ->
  (forall y, f y = f x -> g y = g x) ->
  (In (f x) (map f (filter g xs)) <-> g x = true).
Proof.
  intros Hin Hdet. rewrite in_map_iff. split.
  - intros (y & Hrow & Hsel). apply filter_In in Hsel as [_ Hsel].
    now rewrite <- (Hdet y Hrow).
  - intros Hsel. exists x. split; [reflexivity|]. now apply filter_In.
Qed.




Section Rules.
Context {B : Builtins}.



Lemma customers_section_invalid (db : database) (issue : pyobj) :
  In issue (customers_issues db) ->
  field (results db) "customers" "valid" = Some (PyBool false).
Proof.
  intros Hin. rewrite (proj2 (customers_fields db)). now rewrite (In_not_empty _ _ Hin).
Qed.

End Rules.

(** Two addresses and three keys shared, the rows of the tables in no
    particular order: the groups are listed in ascending order, the one
    without key first. *)
Example duplicate_groups_in_order :
  field (results (B := Examples.builtins)
           {| customers := [ Examples.customer 1 "Bo" "Lee" "b@x.org";
                             Examples.customer 2 "Al" "Roy" "a@x.org";
                             Examples.customer 3 "Bea" "Lee" "b@x.org";
                             Examples.customer 4 "Ann" "Roy" "a@x.org" ];
              products := [];
              orders := [] |})
        "customers" "issues"
  = Some (PyList [PyStr "Duplicate email addresses: [('a@x.org', 2), ('b@x.org', 2)]"])
  /\ duplicate_ids
       {| customers := [];
          products := map (fun k => {| Product.product_id := k;
                                       Product.product_name := Some "Desk";
                                       Product.price := Some 100%float;
                                       Product.stock_quantity := Some 1 |})
                          [Some 300; Some 200; Some 300; None; Some 200; Some 200; None];
          orders := [] |}
     = [ PyTuple [PyNone; PyInt 2]; PyTuple [PyInt 200; PyInt 3];
         PyTuple [PyInt 300; PyInt 2] ].
Proof. vm_compute. split; reflexivity. Qed.







(** X6: the required-field rules.  A customer is returned by the
    required-field query exactly when its first name, last name or email is
    [NULL]; an order exactly when its customer, product, quantity or unit
    price is.  A [NULL] value is reported by these rules only: no row of the
    format, negative-price, negative-stock or quantity queries carries a
    [NULL] in the column the query tests. *)
Theorem required_fields_rules (db : database) :
  (forall c, In c (customers db) ->
     (In (customer_fields c) (customers_null_fields db)
      <-> Customer.first_name c = None \/ Customer.last_name c = None
          \/ Customer.email c = None))
  /\ (forall o, In o (orders db) ->
        (In (order_fields o) (orders_null_fields db)
         <-> Order.customer_id o = None \/ Order.product_id o = None
             \/ Order.quantity o = None \/ Order.unit_price o = None))
  /\ (forall id, ~ In (PyTuple [id; PyNone]) (invalid_emails db))
  /\ (forall id name, ~ In (PyTuple [id; name; PyNone]) (products_negative_prices db))
  /\ (forall id name, ~ In (PyTuple [id; name; PyNone]) (negative_stock db))
  /\ (forall id, ~ In (PyTuple [id; PyNone]) (invalid_quantities db))
  /\ (forall id, ~ In (PyTuple [id; PyNone]) (orders_negative_prices db)).
Proof.
  repeat apply conj.
  - intros c Hin. unfold customers_null_fields.
    rewrite (row_selected customer_fields
               (fun c => holds (sql_or (sql_or (is_null (Customer.first_name c))
                                               (is_null (Customer.last_name c)))
                                       (is_null (Customer.email c))))); [|exact Hin|].
    + destruct (Customer.first_name c), (Customer.last_name c), (Customer.email c);
        simpl; split; intros H; try reflexivity; try discriminate H; try tauto;
        destruct H as [H|[H|H]]; discriminate H.
    + intros y Hrow. injection Hrow as _ Hf Hl He.
      apply text_cell_inj in Hf, Hl, He. now rewrite Hf, Hl, He.
  - intros o Hin. unfold orders_null_fields.
    rewrite (row_selected order_fields
               (fun o => holds (sql_or (sql_or (sql_or (is_null (Order.customer_id o))
                                                       (is_null (Order.product_id o)))
                                               (is_null (Order.quantity o)))
                                       (is_null (Order.unit_price o))))); [|exact Hin|].
    + destruct (Order.customer_id o), (Order.product_id o), (Order.quantity o),
        (Order.unit_price o);
        simpl; split; intros H; try reflexivity; try discriminate H; try tauto;
        destruct H as [H|[H|[H|H]]]; discriminate H.
    + intros y Hrow. injection Hrow as _ Hc Hp Hq Hu.
      apply int_cell_inj in Hc, Hp, Hq. apply real_cell_inj in Hu.
      now rewrite Hc, Hp, Hq, Hu.
  - intros id Hin. unfold invalid_emails in Hin.
    apply in_map_iff in Hin as (c & Hrow & Hsel). apply filter_In in Hsel as [_ Hsel].
    injection Hrow as _ He. destruct (Customer.email c); [discriminate He | discriminate Hsel].
  - intros id name Hin. unfold products_negative_prices in Hin.
    apply in_map_iff in Hin as (p & Hrow & Hsel). apply filter_In in Hsel as [_ Hsel].
    injection Hrow as _ _ Hp. destruct (Product.price p); [discriminate Hp | discriminate Hsel].
  - intros id name Hin. unfold negative_stock in Hin.
    apply in_map_iff in Hin as (p & Hrow & Hsel). apply filter_In in Hsel as [_ Hsel].
    injection Hrow as _ _ Hs.
    destruct (Product.stock_quantity p); [discriminate Hs | discriminate Hsel].
  - intros id Hin. unfold invalid_quantities in Hin.
    apply in_map_iff in Hin as (o & Hrow & Hsel). apply filter_In in Hsel as [_ Hsel].
    injection Hrow as _ Hq. destruct (Order.quantity o); [discriminate Hq | discriminate Hsel].
  - intros id Hin. unfold orders_negative_prices in Hin.
    apply in_map_iff in Hin as (o & Hrow & Hsel). apply filter_In in Hsel as [_ Hsel].
    injection Hrow as _ Hu. destruct (Order.unit_price o); [discriminate Hu | discriminate Hsel].
Qed.

(* ===================================================================== *)
(** ** The foreign-key section as a membership test *)
(* ===================================================================== *)

Lemma forallb_andb {A} (f g : A -> bool) (xs : list A) :
  forallb (fun x => f x && g x) xs = (forallb f xs && forallb g xs)%bool.
Proof.
  induction xs as [|x xs IH]; [reflexivity|]. simpl. rewrite IH.
  destruct (f x), (g x), (forallb f xs); reflexivity.
Qed.

Lemma forallb_pointwise {A} (f g : A -> bool) (xs : list A) :
  (forall x, f x = g x) -> forallb f xs = forallb g xs.
Proof.
  intros H. induction xs as [|x xs IH]; [reflexivity|]. simpl. now rewrite H, IH.
Qed.

(** The rows a [LEFT JOIN ... WHERE right.key IS NULL] query keeps: one per
    left row without a match, in the order of the left table. *)
Lemma left_join_unmatched_rows {L R A} (on : L -> R -> truth) (key : R -> cell A)
      (left : list L) (right : list R) :
  (forall l r, holds (on l r) = true -> key r <> None) ->
  filter (fun lr => holds (is_null (column key (snd lr)))) (left_join on left right)
  = map (fun l => (l, None))
        (filter (fun l => negb (existsb (fun r => holds (on l r)) right)) left).
Proof.
  intros Hkey. unfold left_join.
  induction left as [|l left IH]; [reflexivity|].
  cbn [flat_map]. rewrite filter_app, IH. cbn [filter]. unfold matches.
  destruct (existsb (fun r => holds (on l r)) right) eqn:Hex; cbn [negb].
  - pose proof (filter_some _ _ Hex) as Hsome.
    destruct (filter (fun r => holds (on l r)) right) as [|r rs] eqn:Hms; [contradiction|].
    rewrite <- Hms. clear Hsome.
    rewrite filter_nil_of; [reflexivity|].
    intros [l' r'] Hin. apply in_map_iff in Hin as (r0 & H & Hr0). injection H as <- <-.
    apply filter_In in Hr0 as [_ Hr0]. cbn [snd column].
    specialize (Hkey l r0 Hr0). now destruct (key r0).
  - rewrite (filter_none _ _ Hex). reflexivity.
Qed.

Lemma orphaned_customers_exact (db : database) :
  orphaned_customers db
  = map customer_reference (filter (fun o => negb (customer_exists db o)) (orders db)).
Proof.
  unfold orphaned_customers.
  rewrite (left_join_unmatched_rows
             (fun o c => int_eq (Order.customer_id o) (Customer.customer_id c))
             Customer.customer_id).
  - now rewrite map_map.
  - intros o c Hon. apply int_eq_holds in Hon as (k & _ & Hc). now rewrite Hc.
Qed.

Lemma orphaned_products_exact (db : database) :
  orphaned_products db
  = map product_reference (filter (fun o => negb (product_exists db o)) (orders db)).
Proof.
  unfold orphaned_products.
  rewrite (left_join_unmatched_rows
             (fun o p => int_eq (Order.product_id o) (Product.product_id p))
             Product.product_id).
  - now rewrite map_map.
  - intros o p Hon. apply int_eq_holds in Hon as (k & _ & Hp). now rewrite Hp.
Qed.

Lemma foreign_keys_valid_flag {B : Builtins} (db : database) :
  len_is_zero (foreign_keys_issues db) = references_resolve db.
Proof.
  unfold foreign_keys_issues. rewrite !len_is_zero_append_if.
  rewrite orphaned_customers_exact, orphaned_products_exact, !len_is_zero_filter.
  unfold references_resolve. rewrite forallb_andb. cbn [len_is_zero List.length Nat.eqb andb].
  f_equal; apply forallb_pointwise; intros o; apply negb_involutive.
Qed.

(** X7: the foreign-key queries as membership tests.  The first query
    returns, in the order of the orders table and once each, the orders
    whose customer key is that of no customer record; the second the same
    for products.  The section is valid exactly when every order names a
    customer and a product on record. *)
Theorem foreign_keys_are_membership_tests {B : Builtins} (db : database) :
  orphaned_customers db
  = map customer_reference (filter (fun o => negb (customer_exists db o)) (orders db))
  /\ orphaned_products db
     = map product_reference (filter (fun o => negb (product_exists db o)) (orders db))
  /\ field (results db) "foreign_keys" "valid" = Some (PyBool (references_resolve db)).
Proof.
  split; [apply orphaned_customers_exact|]. split; [apply orphaned_products_exact|].
  rewrite (proj2 (foreign_keys_fields db)). now rewrite foreign_keys_valid_flag.
Qed.

Lemma existsb_keys {A} (f : cell Z -> bool) (key : A -> cell Z) (xs : list A) :
  existsb (fun x => f (key x)) xs = existsb f (map key xs).
Proof. induction xs as [|x xs IH]; [reflexivity|]. simpl. now rewrite IH. Qed.

(** X8: the foreign-key section reads the orders and the key columns of
    the other two tables and nothing else: two snapshots with the same
    orders and the same customer and product keys get the same section,
    whatever their names, emails, prices and stock. *)
Theorem foreign_keys_read_keys_only {B : Builtins} (db db' : database) :
  same_references db db' ->
  validate_foreign_keys db' = validate_foreign_keys db.
Proof.
  intros (Horders & Hcustomers & Hproducts).
  unfold validate_foreign_keys, foreign_keys_issues.
  rewrite !orphaned_customers_exact, !orphaned_products_exact.
  unfold customer_exists, product_exists.
  assert (Hc : forall o, existsb (fun c => holds (int_eq (Order.customer_id o)
                                                        (Customer.customer_id c)))
                                 (customers db')
                         = existsb (fun c => holds (int_eq (Order.customer_id o)
                                                           (Customer.customer_id c)))
                                   (customers db)).
  { intros o.
    rewrite (existsb_keys (fun k => holds (int_eq (Order.customer_id o) k))
               Customer.customer_id (customers db')).
    rewrite (existsb_keys (fun k => holds (int_eq (Order.customer_id o) k))
               Customer.customer_id (customers db)).
    now rewrite Hcustomers. }
  assert (Hp : forall o, existsb (fun p => holds (int_eq (Order.product_id o)
                                                        (Product.product_id p)))
                                 (products db')
                         = existsb (fun p => holds (int_eq (Order.product_id o)
                                                           (Product.product_id p)))
                                   (products db)).
  { intros o.
    rewrite (existsb_keys (fun k => holds (int_eq (Order.product_id o) k))
               Product.product_id (products db')).
    rewrite (existsb_keys (fun k => holds (int_eq (Order.product_id o) k))
               Product.product_id (products db)).
    now rewrite Hproducts. }
  rewrite <- Horders.
  rewrite (filter_ext _ _ (fun o => f_equal negb (Hc o))).
  rewrite (filter_ext _ _ (fun o => f_equal negb (Hp o))).
  reflexivity.
Qed.

(** A product whose price turns negative changes nothing in the
    foreign-key section. *)
Lemma foreign_keys_read_keys_only_witness :
  validate_foreign_keys (B := Examples.builtins)
    {| customers := [Examples.john];
       products := [Examples.product 102 "Wireless Mouse" (-5) 150];
       orders := [Examples.order 2 1 102 2 29.99] |}
  = validate_foreign_keys (B := Examples.builtins)
      {| customers := [Examples.john];
         products := [Examples.mouse];
         orders := [Examples.order 2 1 102 2 29.99] |}.
Proof.
  apply (@foreign_keys_read_keys_only Examples.builtins).
  repeat split.
Defined.

(* ===================================================================== *)
(** ** The overall status in terms of the data *)
(* ===================================================================== *)

Lemma bool_eq_iff (a b : bool) : (a = true <-> b = true) -> a = b.
Proof. destruct a, b; intros [H1 H2]; try reflexivity; [now rewrite H1 | now rewrite H2]. Qed.

Lemma len_is_zero_rows {A} (f : A -> pyobj) (xs : list A) :
  len_is_zero (map f xs) = true <-> xs = [].
Proof. destruct xs; simpl; split; intros H; try reflexivity; discriminate H. Qed.

Section Flags.
Context {B : Builtins}.

Lemma customers_flag (db : database) :
  len_is_zero (customers_issues db) = customers_pass db.
Proof.
  rewrite customers_valid_flag. unfold customers_pass. f_equal; [f_equal|].
  - unfold customers_null_fields. rewrite len_is_zero_filter.
    apply forallb_pointwise. intros c. unfold customer_complete.
    now destruct (Customer.first_name c), (Customer.last_name c), (Customer.email c).
  - apply bool_eq_iff. unfold duplicate_emails, emails_unique.
    rewrite len_is_zero_rows.
    now rewrite (unique_no_group _ (cell_before String.ltb) (same_cell_eq String.eqb String.eqb_eq)).
  - unfold invalid_emails. rewrite len_is_zero_filter.
    apply forallb_pointwise. intros c. unfold email_well_formed.
    destruct (Customer.email c) as [e|]; [|reflexivity].
    unfold text_not_like, text_like, sql_not, lift1, option_map, holds.
    now destruct (like "%@%.%" e).
Qed.

Lemma products_flag (db : database) :
  len_is_zero (products_issues db) = products_pass db.
Proof.
  unfold products_issues. rewrite !len_is_zero_append_if.
  cbn [len_is_zero List.length Nat.eqb andb]. unfold products_pass.
  f_equal; [f_equal; [f_equal|]|].
  - unfold products_null_fields. rewrite len_is_zero_filter.
    apply forallb_pointwise. intros p. unfold product_complete.
    now destruct (Product.product_name p), (Product.price p).
  - unfold products_negative_prices. rewrite len_is_zero_filter.
    apply forallb_pointwise. intros p. unfold not_below_zero.
    destruct (Product.price p) as [v|]; [|reflexivity].
    unfold real_lt, lift2, holds. now destruct (PrimFloat.ltb v 0).
  - unfold negative_stock. rewrite len_is_zero_filter.
    apply forallb_pointwise. intros p. unfold stock_not_negative.
    destruct (Product.stock_quantity p) as [s|]; [|reflexivity].
    unfold int_lt, lift2, holds.
    destruct (Z.ltb_spec s 0), (Z.leb_spec 0 s); try reflexivity; lia.
  - apply bool_eq_iff. unfold duplicate_ids. rewrite len_is_zero_rows.
    now rewrite (unique_no_group _ (cell_before Z.ltb) (same_cell_eq Z.eqb Z.eqb_eq)).
Qed.

Lemma orders_flag (db : database) :
  len_is_zero (orders_issues db) = orders_pass db.
Proof.
  unfold orders_issues. rewrite !len_is_zero_append_if.
  cbn [len_is_zero List.length Nat.eqb andb]. unfold orders_pass.
  f_equal; [f_equal|].
  - unfold orders_null_fields. rewrite len_is_zero_filter.
    apply forallb_pointwise. intros o. unfold order_complete.
    now destruct (Order.customer_id o), (Order.product_id o), (Order.quantity o),
      (Order.unit_price o).
  - unfold invalid_quantities. rewrite len_is_zero_filter.
    apply forallb_pointwise. intros o. unfold quantity_positive.
    destruct (Order.quantity o) as [q|]; [|reflexivity].
    unfold int_le, lift2, holds.
    destruct (Z.leb_spec q 0), (Z.ltb_spec 0 q); try reflexivity; lia.
  - unfold orders_negative_prices. rewrite len_is_zero_filter.
    apply forallb_pointwise. intros o. unfold not_below_zero.
    destruct (Order.unit_price o) as [v|]; [|reflexivity].
    unfold real_lt, lift2, holds. now destruct (PrimFloat.ltb v 0).
Qed.

End Flags.

(** X9: the verdicts in terms of the records.  The customers section is
    valid exactly when every customer has both names and an email, no two
    customers share an email and every email passes the format; the
    products section when every product has a name and a price, no price
    and no stock is below 0 and no two products share a key; the orders
    section when every order has its four required values, a quantity above
    0 and a unit price not below 0; and the overall status is the
    conjunction of these three with every order naming a customer and a
    product on record. *)
Theorem verdicts_in_terms_of_records {B : Builtins} (db : database) :
  field (results db) "customers" "valid" = Some (PyBool (customers_pass db))
  /\ field (results db) "products" "valid" = Some (PyBool (products_pass db))
  /\ field (results db) "orders" "valid" = Some (PyBool (orders_pass db))
  /\ all_valid (results db)
     = Some (customers_pass db && products_pass db && orders_pass db
             && references_resolve db).
Proof.
  split; [|split; [|split]].
  - rewrite (proj2 (customers_fields db)). now rewrite customers_flag.
  - rewrite (proj2 (products_fields db)). now rewrite products_flag.
  - rewrite (proj2 (orders_fields db)). now rewrite orders_flag.
  - rewrite all_valid_results.
    now rewrite customers_flag, products_flag, orders_flag, foreign_keys_valid_flag.
Qed.

(* ===================================================================== *)
(** ** The printed report *)
(* ===================================================================== *)

Lemma header_opens_with_line_feed (title : string) : prefix nl (header title) = true.
Proof. unfold header. now destruct title. Qed.

Lemma issue_lines_open_with_blanks {B : Builtins} (issues : list pyobj) :
  filter (prefix nl) (map issue_line issues) = [].
Proof. apply filter_nil_of. intros line Hin. now apply in_map_iff in Hin as (issue & <- & _). Qed.

(** X10: what a run prints, on a database that has the three tables.  The
    run calls [print] 16 times and once more for every issue: three times
    for the title, then for each of the five sections its title, its status
    and its issues, then three times for the overall status.  Six of the
    texts, the titles of the five sections and the rule before the overall
    status, open with a line feed, which leaves a blank line before them.
    Every issue of every section is printed by a call of its own, after two
    blanks and a dash. *)
Theorem report_prints_every_issue {B : Builtins} (db : database) :
  exists printed,
    run_full_validation db = Some (printed, results db)
    /\ List.length printed
       = (16 + List.length (customers_issues db) + List.length (products_issues db)
          + List.length (orders_issues db) + List.length (foreign_keys_issues db)
          + List.length (consistency_issues db))%nat
    /\ filter (prefix nl) printed
       = [ header "[Customers Validation]"; header "[Products Validation]";
           header "[Orders Validation]"; header "[Foreign Keys Validation]";
           header "[Data Consistency Check]"; header banner ]
    /\ (forall issue,
          In issue (customers_issues db) \/ In issue (products_issues db)
          \/ In issue (orders_issues db) \/ In issue (foreign_keys_issues db)
          \/ In issue (consistency_issues db) ->
          In (issue_line issue) printed).
Proof.
  unfold run_full_validation. rewrite all_valid_results.
  unfold print_section.
  rewrite (proj1 (customers_fields db)), (proj2 (customers_fields db)),
    (proj1 (products_fields db)), (proj2 (products_fields db)),
    (proj1 (orders_fields db)), (proj2 (orders_fields db)),
    (proj1 (foreign_keys_fields db)), (proj2 (foreign_keys_fields db)),
    (proj1 (consistency_fields db)), (proj2 (consistency_fields db)).
  eexists. split; [reflexivity|]. split; [|split].
  - unfold List.concat. rewrite !length_app. cbn [List.length]. rewrite !length_map. lia.
  - unfold List.concat. rewrite !filter_app. cbn [filter].
    rewrite !header_opens_with_line_feed, !issue_lines_open_with_blanks.
    reflexivity.
  - intros issue Hin. unfold List.concat. rewrite !in_app_iff. right.
    destruct Hin as [H|[H|[H|[H|H]]]].
    + left. right. right. now apply in_map.
    + right. left. right. right. now apply in_map.
    + do 2 right. left. right. right. now apply in_map.
    + do 3 right. left. right. right. now apply in_map.
    + do 4 right. left. right. right. now apply in_map.
Qed.

(* ===================================================================== *)
(** ** Orders without a product and the consistency checks *)
(* ===================================================================== *)

(** X11: the consistency checks pass over orders without a product.  An
    order whose product key is that of no product record, or [NULL], yields
    no case of either consistency query, whatever its price and quantity;
    it is reported by the foreign-key section instead. *)
Theorem consistency_skips_orphans (db : database) (o : Order.t) :
  In o (orders db) ->
  product_exists db o = false ->
  (forall p, ~ In (price_case o p) (price_mismatches db))
  /\ (forall p, ~ In (stock_case o p) (potential_stock_issues db))
  /\ In (product_reference o) (orphaned_products db).
Proof.
  intros Hin Hnone.
  assert (Hjoin : forall o' p',
             In (o', p') (inner_join (fun o p => int_eq (Order.product_id o)
                                                       (Product.product_id p))
                                     (orders db) (products db)) ->
             Order.product_id o' <> Order.product_id o).
  { intros o' p' Hpair Hsame. apply inner_join_In in Hpair as (_ & Hp & Hon).
    unfold product_exists in Hnone. rewrite <- Hsame in Hnone.
    assert (Hex : existsb (fun p => holds (int_eq (Order.product_id o') (Product.product_id p)))
                          (products db) = true).
    { apply existsb_exists. now exists p'. }
    rewrite Hex in Hnone. discriminate Hnone. }
  split; [|split].
  - intros p Hrow. unfold price_mismatches in Hrow.
    apply in_map_iff in Hrow as ([o' p'] & Hrow & Hsel). apply filter_In in Hsel as [Hpair _].
    injection Hrow as _ Hkey _ _. apply int_cell_inj in Hkey.
    exact (Hjoin o' p' Hpair Hkey).
  - intros p Hrow. unfold potential_stock_issues in Hrow.
    apply in_map_iff in Hrow as ([o' p'] & Hrow & Hsel). apply filter_In in Hsel as [Hpair _].
    injection Hrow as _ Hkey _ _. apply int_cell_inj in Hkey.
    exact (Hjoin o' p' Hpair Hkey).
  - now apply orphaned_products_In.
Qed.

(** An order of 1000 pieces of a product that is not on record raises no
    stock case. *)
Lemma consistency_skips_orphans_witness :
  ~ In (PyTuple [PyInt 9; PyInt 999; PyInt 1000; PyInt 150])
       (potential_stock_issues
          {| customers := [Examples.john]; products := [Examples.mouse];
             orders := [Examples.order 9 1 999 1000 29.99] |})
  /\ In (PyTuple [PyInt 9; PyInt 999])
        (orphaned_products
           {| customers := [Examples.john]; products := [Examples.mouse];
              orders := [Examples.order 9 1 999 1000 29.99] |}).
Proof.
  destruct (@consistency_skips_orphans
              {| customers := [Examples.john]; products := [Examples.mouse];
                 orders := [Examples.order 9 1 999 1000 29.99] |}
              (Examples.order 9 1 999 1000 29.99) ltac:(simpl; tauto) eq_refl)
    as (_ & Hstock & Horphan).
  split; [exact (Hstock Examples.mouse) | exact Horphan].
Defined.

(* ===================================================================== *)
(** ** [DataIntegrator.validate_data_integrity] *)
(* ===================================================================== *)

Import DataIntegrator.

(** A run of the integrity check raises nothing and returns
    [integrity_report]. *)
Lemma integrity_results_value (db : database) :
  integrity_results db = Some (integrity_report db).
Proof. reflexivity. Qed.

Lemma validate_data_integrity_returns {B : Builtins} (db : database) :
  exists printed, validate_data_integrity db = Some (printed, integrity_report db).
Proof.
  unfold validate_data_integrity. rewrite integrity_results_value.
  eexists. reflexivity.
Qed.

Lemma length_rows_le {A} (f : A -> pyobj) (g : A -> bool) (xs : list A) :
  (List.length (map f (filter g xs)) <= List.length xs)%nat.
Proof. rewrite length_map. apply filter_length_le. Qed.

(** X12: the counts of the integrity check.  A run raises nothing; for each
    of the three tables the section it returns holds the number of records
    under [total], the rows of the offending records under [issues] and
    their difference under [valid], which lies between 0 and [total]. *)
Theorem integrity_counts {B : Builtins} (db : database) :
  exists printed report,
    validate_data_integrity db = Some (printed, report)
    /\ (exists valid,
          field report "customers" "total" = Some (PyInt (Z.of_nat (List.length (customers db))))
          /\ field report "customers" "issues" = Some (PyList (invalid_customers db))
          /\ field report "customers" "valid" = Some (PyInt valid)
          /\ valid + Z.of_nat (List.length (invalid_customers db))
             = Z.of_nat (List.length (customers db))
          /\ 0 <= valid <= Z.of_nat (List.length (customers db)))
    /\ (exists valid,
          field report "products" "total" = Some (PyInt (Z.of_nat (List.length (products db))))
          /\ field report "products" "issues" = Some (PyList (invalid_products db))
          /\ field report "products" "valid" = Some (PyInt valid)
          /\ valid + Z.of_nat (List.length (invalid_products db))
             = Z.of_nat (List.length (products db))
          /\ 0 <= valid <= Z.of_nat (List.length (products db)))
    /\ (exists valid,
          field report "orders" "total" = Some (PyInt (Z.of_nat (List.length (orders db))))
          /\ field report "orders" "issues" = Some (PyList (invalid_orders db))
          /\ field report "orders" "valid" = Some (PyInt valid)
          /\ valid + Z.of_nat (List.length (invalid_orders db))
             = Z.of_nat (List.length (orders db))
          /\ 0 <= valid <= Z.of_nat (List.length (orders db))).
Proof.
  destruct (validate_data_integrity_returns db) as (printed & Hrun).
  exists printed, (integrity_report db). split; [exact Hrun|].
  split; [|split]; eexists; repeat (split; [reflexivity|]).
  - pose proof (length_rows_le _ _ _ : (List.length (invalid_customers db) <= _)%nat). lia.
  - pose proof (length_rows_le _ _ _ : (List.length (invalid_products db) <= _)%nat). lia.
  - pose proof (length_rows_le _ _ _ : (List.length (invalid_orders db) <= _)%nat). lia.
Qed.

Lemma left_join_covers {L R} (on : L -> R -> truth) (left : list L) (right : list R) (l : L) :
  In l left -> exists r, In (l, r) (left_join on left right).
Proof.
  intros Hin. unfold left_join, matches.
  destruct (filter (fun r => holds (on l r)) right) as [|r rs] eqn:Hms.
  - exists None. apply in_flat_map. exists l. split; [exact Hin|].
    unfold matches. rewrite Hms. now left.
  - exists (Some r). apply in_flat_map. exists l. split; [exact Hin|].
    unfold matches. rewrite Hms. now left.
Qed.

Lemma left_join_left_In {L R} (on : L -> R -> truth) (left : list L) (right : list R)
      (l : L) (r : option R) :
  In (l, r) (left_join on left right) -> In l left.
Proof.
  unfold left_join. intros H. apply in_flat_map in H as (l' & Hin & H).
  destruct (matches on l' right) as [|r0 rs].
  - destruct H as [H|[]]. now injection H as <- _.
  - apply in_map_iff in H as (r' & H & _). now injection H as <- _.
Qed.

Lemma forallb_fails {A} (f : A -> bool) (xs : list A) :
  forallb f xs = false -> exists x, In x xs /\ f x = false.
Proof.
  induction xs as [|x xs IH]; [discriminate|]. simpl.
  destruct (f x) eqn:Hx.
  - intros H. destruct (IH H) as (y & Hy & Hf). exists y. split; [now right | exact Hf].
  - intros _. exists x. split; [now left | exact Hx].
Qed.

(** The double left join of the integrity check finds an order exactly
    when the two single joins of the validator find one. *)
Lemma orphaned_orders_empty (db : database) :
  len_is_zero (orphaned_orders db) = references_resolve db.
Proof.
  unfold orphaned_orders.
  set (on1 := fun (o : Order.t) (c : Customer.t) =>
                int_eq (Order.customer_id o) (Customer.customer_id c)).
  set (on2 := fun (oc : Order.t * option Customer.t) (p : Product.t) =>
                int_eq (Order.product_id (fst oc)) (Product.product_id p)).
  destruct (references_resolve db) eqn:Hres.
  - rewrite filter_nil_of; [reflexivity|].
    intros [[o c] p] Hin. cbn [fst snd].
    pose proof (left_join_left_In _ _ _ _ _ Hin) as Hoc.
    pose proof (left_join_left_In _ _ _ _ _ Hoc) as Ho.
    destruct (references_of_order db o Hres Ho) as [Hc Hp].
    destruct c as [c|].
    + apply left_join_matched_side, int_eq_holds in Hoc as (k & _ & Hck).
      destruct p as [p|].
      * apply left_join_matched_side in Hin. unfold on2 in Hin. cbn [fst] in Hin.
        apply int_eq_holds in Hin as (k' & _ & Hpk). cbn [column]. now rewrite Hck, Hpk.
      * apply left_join_null_side in Hin as [_ Hnone]. unfold on2 in Hnone. cbn [fst] in Hnone.
        unfold product_exists in Hp. rewrite Hp in Hnone. discriminate Hnone.
    + apply left_join_null_side in Hoc as [_ Hnone].
      unfold customer_exists in Hc. unfold on1 in Hnone. rewrite Hc in Hnone.
      discriminate Hnone.
  - unfold references_resolve in Hres. apply forallb_fails in Hres as (o & Ho & Hfail).
    match goal with
    | |- len_is_zero (map ?f (filter ?g ?rows)) = false =>
        assert (Hrow : exists row, In row (filter g rows))
    end.
    { destruct (customer_exists db o) eqn:Hc.
      - simpl in Hfail.
        destruct (left_join_covers on1 (orders db) (customers db) o Ho) as (c & Hoc).
        exists ((o, c), None). apply filter_In. split.
        + apply left_join_unmatched; [exact Hoc | exact Hfail].
        + cbn [fst snd column]. now destruct (column Customer.customer_id c).
      - assert (Hoc : In (o, None) (left_join on1 (orders db) (customers db))).
        { now apply left_join_unmatched. }
        destruct (left_join_covers on2 _ (products db) _ Hoc) as (p & Hocp).
        exists ((o, None), p). apply filter_In. split; [exact Hocp | reflexivity]. }
    destruct Hrow as (row & Hrow).
    match goal with
    | |- len_is_zero (map ?f ?rows) = false => destruct rows; [contradiction | reflexivity]
    end.
Qed.

(** X13: the two validators agree on referential integrity.  The
    [foreign_keys] section of the integrity check is valid exactly when the
    [foreign_keys] section of the validation report is: when every order
    names a customer and a product on record. *)
Theorem integrity_agrees_on_foreign_keys {B : Builtins} (db : database) :
  exists printed report,
    validate_data_integrity db = Some (printed, report)
    /\ field report "foreign_keys" "issues" = Some (PyList (orphaned_orders db))
    /\ field report "foreign_keys" "valid" = Some (PyBool (references_resolve db))
    /\ field report "foreign_keys" "valid" = field (results db) "foreign_keys" "valid".
Proof.
  destruct (validate_data_integrity_returns db) as (printed & Hrun).
  exists printed, (integrity_report db). split; [exact Hrun|]. split; [reflexivity|].
  assert (Hvalid : field (integrity_report db) "foreign_keys" "valid"
                   = Some (PyBool (references_resolve db))).
  { rewrite <- orphaned_orders_empty. reflexivity. }
  split; [exact Hvalid|].
  rewrite Hvalid, (proj2 (foreign_keys_fields db)). now rewrite foreign_keys_valid_flag.
Qed.

Lemma invalid_customers_none (db : database) :
  customers_pass db = true -> invalid_customers db = [].
Proof.
  intros Hpass. unfold customers_pass in Hpass.
  apply andb_prop in Hpass as [Hpass Hformat]. apply andb_prop in Hpass as [Hcomplete _].
  unfold invalid_customers. rewrite filter_nil_of; [reflexivity|]. intros c Hin.
  for_element Hcomplete Hin Hc. for_element Hformat Hin Hf.
  unfold customer_complete in Hc. unfold email_well_formed in Hf.
  destruct (Customer.first_name c), (Customer.last_name c), (Customer.email c) as [e|];
    cbn in Hc; try discriminate Hc.
  destruct e as [|a e]; [discriminate Hf | reflexivity].
Qed.

Lemma invalid_orders_none (db : database) :
  orders_pass db = true -> invalid_orders db = [].
Proof.
  intros Hpass. unfold orders_pass in Hpass.
  apply andb_prop in Hpass as [Hpass Hprice]. apply andb_prop in Hpass as [Hcomplete Hquantity].
  unfold invalid_orders. rewrite filter_nil_of; [reflexivity|]. intros o Hin.
  for_element Hcomplete Hin Hc. for_element Hquantity Hin Hq. for_element Hprice Hin Hp.
  unfold order_complete in Hc. unfold quantity_positive in Hq. unfold not_below_zero in Hp.
  destruct (Order.customer_id o), (Order.product_id o), (Order.quantity o) as [q|],
    (Order.unit_price o) as [v|]; cbn in Hc; try discriminate Hc.
  unfold int_le, real_lt, lift2. cbn [is_null sql_or].
  apply Z.ltb_lt in Hq. apply negb_true_iff in Hp. rewrite Hp.
  destruct (Z.leb_spec q 0); [lia | reflexivity].
Qed.

Lemma invalid_products_none (db : database) :
  products_pass db = true -> names_not_empty db = true -> invalid_products db = [].
Proof.
  intros Hpass Hnames. unfold products_pass in Hpass.
  apply andb_prop in Hpass as [Hpass _]. apply andb_prop in Hpass as [Hpass _].
  apply andb_prop in Hpass as [Hcomplete Hprice].
  unfold invalid_products. rewrite filter_nil_of; [reflexivity|]. intros p Hin.
  for_element Hcomplete Hin Hc. for_element Hprice Hin Hp. for_element Hnames Hin Hn.
  unfold product_complete in Hc. unfold not_below_zero in Hp.
  destruct (Product.product_name p) as [name|], (Product.price p) as [v|];
    cbn in Hc; try discriminate Hc.
  unfold text_eq, real_lt, lift2. cbn [is_null sql_or].
  apply negb_true_iff in Hp, Hn. now rewrite Hp, Hn.
Qed.

(** X14: the validation report is the stricter of the two checks on
    customers and orders.  When the customers section of the validation
    report is valid the integrity check finds no invalid customer, and the
    same holds for orders; for products it holds as long as no product name
    is the empty text, the one thing the integrity check looks at and the
    validation report does not. *)
Theorem validation_implies_integrity {B : Builtins} (db : database) :
  exists printed report,
    validate_data_integrity db = Some (printed, report)
    /\ (field (results db) "customers" "valid" = Some (PyBool true) ->
        field report "customers" "issues" = Some (PyList [])
        /\ field report "customers" "valid" = field report "customers" "total")
    /\ (field (results db) "orders" "valid" = Some (PyBool true) ->
        field report "orders" "issues" = Some (PyList [])
        /\ field report "orders" "valid" = field report "orders" "total")
    /\ (field (results db) "products" "valid" = Some (PyBool true) ->
        names_not_empty db = true ->
        field report "products" "issues" = Some (PyList [])
        /\ field report "products" "valid" = field report "products" "total").
Proof.
  destruct (validate_data_integrity_returns db) as (printed & Hrun).
  exists printed, (integrity_report db). split; [exact Hrun|].
  split; [|split].
  - rewrite (proj2 (customers_fields db)), customers_flag. intros H. injection H as H.
    unfold integrity_report. rewrite (invalid_customers_none db H).
    split; [reflexivity|]. cbn [List.length Z.of_nat]. now rewrite Z.sub_0_r.
  - rewrite (proj2 (orders_fields db)), orders_flag. intros H. injection H as H.
    unfold integrity_report. rewrite (invalid_orders_none db H).
    split; [reflexivity|]. cbn [List.length Z.of_nat]. now rewrite Z.sub_0_r.
  - rewrite (proj2 (products_fields db)), products_flag. intros H Hnames. injection H as H.
    unfold integrity_report. rewrite (invalid_products_none db H Hnames).
    split; [reflexivity|]. cbn [List.length Z.of_nat]. now rewrite Z.sub_0_r.
Qed.

(* ===================================================================== *)
(** ** [create_sample_orders] *)
(* ===================================================================== *)

Lemma with_orders_same (db : database) : with_orders db (orders db ++ []) = db.
Proof. destruct db. unfold with_orders. cbn. now rewrite app_nil_r. Qed.

Lemma with_products_same (db : database) : with_products db (products db ++ []) = db.
Proof. destruct db. unfold with_products. cbn. now rewrite app_nil_r. Qed.

Lemma int_eq_sym (x y : cell Z) : int_eq x y = int_eq y x.
Proof. destruct x, y; try reflexivity. cbn. now rewrite Z.eqb_sym. Qed.

Lemma filter_app_none {A} (f : A -> bool) (xs ys : list A) :
  (forall y, In y ys -> f y = false) -> filter f (xs ++ ys) = filter f xs.
Proof. intros H. now rewrite filter_app, (filter_nil_of f ys H), app_nil_r. Qed.

Lemma existsb_pointwise {A} (f g : A -> bool) (xs : list A) :
  (forall x, f x = g x) -> existsb f xs = existsb g xs.
Proof. intros H. induction xs as [|x xs IH]; [reflexivity|]. cbn. now rewrite H, IH. Qed.

(** [fetchone] finds a row exactly when some record carries the key. *)
Lemma not_fetched_first {A} (row : A -> pyobj) (f : A -> bool) (xs : list A) :
  (forall x, truthy (row x) = true) ->
  not_fetched (hd_error (map row (filter f xs))) = negb (existsb f xs).
Proof.
  intros Hrow. induction xs as [|x xs IH]; [reflexivity|]. cbn [filter existsb].
  destruct (f x); [|exact IH]. cbn [map hd_error not_fetched orb negb]. now rewrite Hrow.
Qed.

Lemma not_fetched_customer (db : database) (o : Order.t) (k : Z) :
  Order.customer_id o = Some k ->
  not_fetched (select_customer db k) = negb (customer_exists db o).
Proof.
  intros Hk. unfold select_customer, customer_exists. rewrite not_fetched_first.
  - f_equal. apply existsb_pointwise. intros c. now rewrite Hk, int_eq_sym.
  - reflexivity.
Qed.

Lemma not_fetched_product (db : database) (o : Order.t) (k : Z) :
  Order.product_id o = Some k ->
  not_fetched (select_product db k) = negb (product_exists db o).
Proof.
  intros Hk. unfold select_product, product_exists. rewrite not_fetched_first.
  - f_equal. apply existsb_pointwise. intros p. now rewrite Hk, int_eq_sym.
  - reflexivity.
Qed.

(** A turn of the loop either reports the entry and counts it as skipped,
    or writes its row, which then names a customer and a product on record. *)
Lemma create_order_step (answer : option string) (entry : Z * Z * Z * string * Z * float)
      (st : progress) :
  (exists line, create_order answer entry st = skip line st)
  \/ (create_order answer entry st = insert_order (order_of entry) st
      /\ customer_exists (tables st) (order_of entry) = true
      /\ product_exists (tables st) (order_of entry) = true).
Proof.
  destruct entry as [[[[[id c] p] d] q] u]. unfold create_order.
  rewrite (not_fetched_customer (tables st) (order_of (id, c, p, d, q, u)) eq_refl).
  rewrite (not_fetched_product (tables st) (order_of (id, c, p, d, q, u)) eq_refl).
  destruct (customer_exists (tables st) (order_of (id, c, p, d, q, u))); cbn [negb];
    [|left; eexists; reflexivity].
  destruct (product_exists (tables st) (order_of (id, c, p, d, q, u))); cbn [negb];
    [|left; eexists; reflexivity].
  destruct answer as [e|]; [left; eexists; reflexivity|].
  right. split; [reflexivity|]. split; reflexivity.
Qed.

Lemma create_orders_effect (engine : answers) (data : list (Z * Z * Z * string * Z * float)) :
  forall (i : nat) (st : progress),
  exists added lines,
    tables (create_orders engine i data st)
    = with_orders (tables st) (orders (tables st) ++ added)
    /\ printed (create_orders engine i data st) = (printed st ++ lines)%list
    /\ inserted_count (create_orders engine i data st)
       = inserted_count st + Z.of_nat (List.length added)
    /\ skipped_count (create_orders engine i data st)
       = skipped_count st + Z.of_nat (List.length lines)
    /\ (List.length added + List.length lines = List.length data)%nat
    /\ Forall (fun o => customer_exists (tables st) o = true
                        /\ product_exists (tables st) o = true
                        /\ exists entry, In entry data /\ o = order_of entry) added.
Proof.
  induction data as [|entry data IH]; intros i st.
  - exists [], []. cbn [create_orders List.length]. rewrite with_orders_same, app_nil_r.
    repeat (split; [first [reflexivity | lia]|]). constructor.
  - cbn [create_orders].
    destruct (create_order_step (engine i) entry st) as [(line & ->)|(-> & Hc & Hp)].
    + destruct (IH (S i) (skip line st)) as (added & lines & Ht & Hl & Hi & Hs & Hn & Hall).
      exists added, (line :: lines). rewrite Ht, Hl, Hi, Hs. cbn [skip tables printed
        inserted_count skipped_count List.length]. rewrite <- app_assoc.
      split; [reflexivity|]. split; [reflexivity|]. split; [reflexivity|].
      split; [lia|]. split; [lia|].
      eapply Forall_impl; [|exact Hall]. cbn [skip tables].
      intros o (H1 & H2 & entry' & Hin & Ho). split; [exact H1|]. split; [exact H2|].
      exists entry'. split; [now right | exact Ho].
    + destruct (IH (S i) (insert_order (order_of entry) st))
        as (added & lines & Ht & Hl & Hi & Hs & Hn & Hall).
      exists (order_of entry :: added), lines. rewrite Ht, Hl, Hi, Hs.
      cbn [insert_order tables printed inserted_count skipped_count List.length
           with_orders customers products orders]. rewrite <- app_assoc.
      split; [reflexivity|]. split; [reflexivity|]. split; [lia|].
      split; [reflexivity|]. split; [cbn; lia|].
      constructor.
      * split; [exact Hc|]. split; [exact Hp|]. exists entry. split; [now left | reflexivity].
      * eapply Forall_impl; [|exact Hall].
        intros o (H1 & H2 & entry' & Hin & Ho). split; [exact H1|]. split; [exact H2|].
        exists entry'. split; [now right | exact Ho].
Qed.

(** Every row [create_sample_orders] can write has its four required
    values, a quantity above 0 and a unit price not below 0. *)
Lemma orders_data_sound : forallb order_sound (map order_of orders_data) = true.
Proof. vm_compute. reflexivity. Qed.

Lemma order_sound_unselected (o : Order.t) :
  order_sound o = true ->
  holds (sql_or (sql_or (sql_or (is_null (Order.customer_id o))
                                (is_null (Order.product_id o)))
                        (is_null (Order.quantity o)))
                (is_null (Order.unit_price o))) = false
  /\ holds (int_le (Order.quantity o) (Some 0)) = false
  /\ holds (real_lt (Order.unit_price o) (Some 0%float)) = false
  /\ holds (sql_or (sql_or (sql_or (is_null (Order.quantity o))
                                   (int_le (Order.quantity o) (Some 0)))
                           (is_null (Order.unit_price o)))
                   (real_lt (Order.unit_price o) (Some 0%float))) = false.
Proof.
  unfold order_sound, order_complete, quantity_positive, not_below_zero, present.
  destruct (Order.customer_id o), (Order.product_id o), (Order.quantity o) as [q|],
    (Order.unit_price o) as [u|]; cbn; try discriminate.
  destruct (Z.ltb_spec 0 q); [|discriminate]. destruct (Z.leb_spec q 0); [lia|].
  destruct (PrimFloat.ltb u 0); [discriminate|]. intros _. repeat split.
Qed.

Section SampleOrders.
Context {B : Builtins}.

(** Rows that none of the three queries of [validate_orders] returns leave
    the section as it was. *)
Lemma orders_issues_grow (db : database) (added : list Order.t) :
  forallb order_sound added = true ->
  orders_issues (with_orders db (orders db ++ added)) = orders_issues db.
Proof.
  intros Hsound.
  assert (H : forall o, In o added -> order_sound o = true).
  { intros o Hin. now for_element Hsound Hin Ho. }
  unfold orders_issues, orders_null_fields, invalid_quantities, orders_negative_prices.
  cbn [orders with_orders].
  rewrite !filter_app_none; [reflexivity| | |];
    intros o Hin; now destruct (order_sound_unselected o (H o Hin)) as (H1 & H2 & H3 & _).
Qed.

Lemma foreign_keys_issues_grow (db : database) (added : list Order.t) :
  Forall (fun o => customer_exists db o = true /\ product_exists db o = true) added ->
  foreign_keys_issues (with_orders db (orders db ++ added)) = foreign_keys_issues db.
Proof.
  intros Hall. rewrite Forall_forall in Hall.
  unfold foreign_keys_issues. rewrite !orphaned_customers_exact, !orphaned_products_exact.
  unfold customer_exists, product_exists. cbn [orders customers products with_orders].
  rewrite !filter_app_none; [reflexivity| |]; intros o Hin; destruct (Hall o Hin) as [Hc Hp];
    unfold customer_exists, product_exists in Hc, Hp; first [now rewrite Hc | now rewrite Hp].
Qed.

End SampleOrders.

Lemma invalid_orders_grow (db : database) (added : list Order.t) :
  forallb order_sound added = true ->
  invalid_orders (with_orders db (orders db ++ added)) = invalid_orders db.
Proof.
  intros Hsound. unfold invalid_orders. cbn [orders with_orders].
  rewrite filter_app_none; [reflexivity|].
  intros o Hin. for_element Hsound Hin Ho.
  now destruct (order_sound_unselected o Ho) as (_ & _ & _ & H).
Qed.

Lemma orphaned_orders_grow (db : database) (added : list Order.t) :
  Forall (fun o => customer_exists db o = true /\ product_exists db o = true) added ->
  orphaned_orders (with_orders db (orders db ++ added)) = orphaned_orders db.
Proof.
  intros Hall.
  assert (Hnone : orphaned_orders (with_orders db added) = []).
  { assert (Hres : references_resolve (with_orders db added) = true).
    { unfold references_resolve. apply forallb_forall. intros o Hin.
      rewrite Forall_forall in Hall. destruct (Hall o Hin) as [Hc Hp].
      unfold customer_exists, product_exists in *. cbn [customers products with_orders].
      now rewrite Hc, Hp. }
    rewrite <- orphaned_orders_empty in Hres. unfold orphaned_orders in *.
    apply len_is_zero_rows in Hres. now rewrite Hres. }
  unfold orphaned_orders in *. cbn [orders customers products with_orders] in *.
  unfold left_join at 2. rewrite flat_map_app.
  fold (left_join (fun o c => int_eq (Order.customer_id o) (Customer.customer_id c))
                  (orders db) (customers db)).
  unfold left_join at 1. rewrite flat_map_app, filter_app, map_app.
  unfold left_join in Hnone. rewrite Hnone. now rewrite app_nil_r.
Qed.

(** What a run of [create_sample_orders] comes to, whatever the engine
    answers. *)
Lemma create_sample_orders_effect (engine : answers) (db : database) :
  exists added lines,
    tables (create_sample_orders engine db) = with_orders db (orders db ++ added)
    /\ printed (create_sample_orders engine db)
       = (lines
            ++ ("Created " ++ int_repr (Z.of_nat (List.length added)) ++ " sample orders")%string
            :: (if Z.of_nat (List.length lines) >? 0
                then [("Skipped " ++ int_repr (Z.of_nat (List.length lines))
                         ++ " invalid orders")%string]
                else []))%list
    /\ inserted_count (create_sample_orders engine db) = Z.of_nat (List.length added)
    /\ skipped_count (create_sample_orders engine db) = Z.of_nat (List.length lines)
    /\ (List.length added + List.length lines = 20)%nat
    /\ Forall (fun o => customer_exists db o = true /\ product_exists db o = true
                        /\ exists entry, In entry orders_data /\ o = order_of entry) added.
Proof.
  destruct (create_orders_effect engine orders_data 0 (start db))
    as (added & lines & Ht & Hl & Hi & Hs & Hn & Hall).
  exists added, lines. unfold create_sample_orders. cbv zeta.
  change (List.length orders_data) with 20%nat in Hn.
  revert Ht Hl Hi Hs. generalize (create_orders engine 0 orders_data (start db)).
  intros st Ht Hl Hi Hs. unfold summary.
  cbn [tables printed inserted_count skipped_count]. rewrite Ht, Hl, Hi, Hs.
  cbn [start tables printed inserted_count skipped_count app Z.add] in *.
  split; [reflexivity|]. split; [reflexivity|]. split; [reflexivity|].
  split; [reflexivity|]. split; [exact Hn|]. exact Hall.
Qed.

(** The rows a run adds: they name records of the tables and none of them
    is returned by a query of the orders section. *)
Lemma create_sample_orders_adds (engine : answers) (db : database) :
  exists added,
    tables (create_sample_orders engine db) = with_orders db (orders db ++ added)
    /\ inserted_count (create_sample_orders engine db) = Z.of_nat (List.length added)
    /\ Forall (fun o => customer_exists db o = true /\ product_exists db o = true) added
    /\ forallb order_sound added = true.
Proof.
  destruct (create_sample_orders_effect engine db)
    as (added & lines & Ht & _ & Hi & _ & _ & Hall).
  exists added. split; [exact Ht|]. split; [exact Hi|]. split.
  - eapply Forall_impl; [|exact Hall]. intros o (Hc & Hp & _). now split.
  - apply forallb_forall. intros o Hin. rewrite Forall_forall in Hall.
    destruct (Hall o Hin) as (_ & _ & entry & Hentry & ->).
    pose proof orders_data_sound as Hsound. rewrite forallb_forall in Hsound.
    apply Hsound, in_map, Hentry.
Qed.

(** X15: every sample order is accounted for.  Whatever the tables hold
    and whatever the engine answers, [create_sample_orders] raises nothing,
    leaves the customers and the products as they are, keeps every order
    that was there and adds rows of [orders_data] at the end; the two
    counters are the number of rows added and the number of entries left
    out, 20 together, and each entry left out is reported on a line of its
    own before the closing summary. *)
Theorem sample_orders_accounted_for (engine : answers) (db : database) :
  exists added lines,
    tables (create_sample_orders engine db) = with_orders db (orders db ++ added)
    /\ Forall (fun o => exists entry, In entry orders_data /\ o = order_of entry) added
    /\ inserted_count (create_sample_orders engine db) = Z.of_nat (List.length added)
    /\ skipped_count (create_sample_orders engine db) = Z.of_nat (List.length lines)
    /\ inserted_count (create_sample_orders engine db)
       + skipped_count (create_sample_orders engine db) = 20
    /\ printed (create_sample_orders engine db)
       = (lines
            ++ ("Created " ++ int_repr (Z.of_nat (List.length added)) ++ " sample orders")%string
            :: (if Z.of_nat (List.length lines) >? 0
                then [("Skipped " ++ int_repr (Z.of_nat (List.length lines))
                         ++ " invalid orders")%string]
                else []))%list.
Proof.
  destruct (create_sample_orders_effect engine db)
    as (added & lines & Ht & Hl & Hi & Hs & Hn & Hall).
  exists added, lines. split; [exact Ht|]. split.
  - eapply Forall_impl; [|exact Hall]. now intros o (_ & _ & H).
  - split; [exact Hi|]. split; [exact Hs|]. split; [lia | exact Hl].
Qed.

(** X16: a sample order is written only for a customer and a product on
    record.  Every row [create_sample_orders] adds names a customer and a
    product of the tables, so the run adds no orphan: the foreign-key
    section of the validation report and the orphaned orders of the
    integrity check are after the run what they were before it. *)
Theorem sample_orders_name_records_on_file {B : Builtins} (engine : answers) (db : database) :
  exists added,
    tables (create_sample_orders engine db) = with_orders db (orders db ++ added)
    /\ Forall (fun o => customer_exists db o = true /\ product_exists db o = true) added
    /\ validate_foreign_keys (tables (create_sample_orders engine db))
       = validate_foreign_keys db
    /\ orphaned_orders (tables (create_sample_orders engine db)) = orphaned_orders db
    /\ references_resolve (tables (create_sample_orders engine db)) = references_resolve db.
Proof.
  destruct (create_sample_orders_adds engine db) as (added & Ht & _ & Hall & _).
  exists added. split; [exact Ht|]. split; [exact Hall|]. rewrite Ht.
  split; [|split].
  - unfold validate_foreign_keys. now rewrite foreign_keys_issues_grow.
  - now apply orphaned_orders_grow.
  - rewrite <- !orphaned_orders_empty. now rewrite orphaned_orders_grow.
Qed.

(** X17: the sample orders change no verdict.  The customers, products and
    orders sections of the validation report are after a run of
    [create_sample_orders] what they were before it, and so is the overall
    status: every row the run can write has its required values, a
    quantity above 0 and a unit price not below 0. *)
Theorem sample_orders_keep_the_verdicts {B : Builtins} (engine : answers) (db : database) :
  validate_customers (tables (create_sample_orders engine db)) = validate_customers db
  /\ validate_products (tables (create_sample_orders engine db)) = validate_products db
  /\ validate_orders (tables (create_sample_orders engine db)) = validate_orders db
  /\ all_valid (results (tables (create_sample_orders engine db))) = all_valid (results db).
Proof.
  destruct (create_sample_orders_adds engine db) as (added & Ht & _ & Hall & Hsound).
  rewrite Ht. split; [reflexivity|]. split; [reflexivity|]. split.
  - unfold validate_orders. now rewrite orders_issues_grow.
  - rewrite !all_valid_results.
    rewrite orders_issues_grow, foreign_keys_issues_grow by assumption. reflexivity.
Qed.

(** The integrity check on the tables a run leaves. *)
Lemma integrity_after_sample_orders {B : Builtins} (engine : answers) (db : database) :
  exists printed report,
    validate_data_integrity (tables (create_sample_orders engine db)) = Some (printed, report)
    /\ field report "orders" "total"
       = Some (PyInt (Z.of_nat (List.length (orders db))
                      + inserted_count (create_sample_orders engine db)))
    /\ field report "orders" "valid"
       = Some (PyInt (Z.of_nat (List.length (orders db))
                      - Z.of_nat (List.length (invalid_orders db))
                      + inserted_count (create_sample_orders engine db)))
    /\ field report "orders" "issues" = Some (PyList (invalid_orders db))
    /\ field report "foreign_keys" "issues" = Some (PyList (orphaned_orders db))
    /\ field report "foreign_keys" "valid" = Some (PyBool (references_resolve db))
    /\ getitem report "customers" = getitem (integrity_report db) "customers"
    /\ getitem report "products" = getitem (integrity_report db) "products".
Proof.
  destruct (create_sample_orders_adds engine db) as (added & Ht & Hi & Hall & Hsound).
  destruct (validate_data_integrity_returns (tables (create_sample_orders engine db)))
    as (printed & Hrun).
  exists printed, (integrity_report (tables (create_sample_orders engine db))).
  split; [exact Hrun|]. rewrite Hi, Ht.
  assert (Hlen : Z.of_nat (List.length (orders (with_orders db (orders db ++ added))))
                 = Z.of_nat (List.length (orders db)) + Z.of_nat (List.length added)).
  { cbn [orders with_orders]. rewrite length_app. lia. }
  assert (Hf : forall name key, field (integrity_report (with_orders db (orders db ++ added)))
                                      name key
                                = field (PyDict
    [ ("customers",
       PyDict [ ("total", PyInt (Z.of_nat (List.length (customers db))));
                ("valid", PyInt (Z.of_nat (List.length (customers db))
                                 - Z.of_nat (List.length (invalid_customers db))));
                ("issues", PyList (invalid_customers db)) ]);
      ("products",
       PyDict [ ("total", PyInt (Z.of_nat (List.length (products db))));
                ("valid", PyInt (Z.of_nat (List.length (products db))
                                 - Z.of_nat (List.length (invalid_products db))));
                ("issues", PyList (invalid_products db)) ]);
      ("orders",
       PyDict [ ("total", PyInt (Z.of_nat (List.length (orders db))
                                 + Z.of_nat (List.length added)));
                ("valid", PyInt (Z.of_nat (List.length (orders db))
                                 + Z.of_nat (List.length added)
                                 - Z.of_nat (List.length (invalid_orders db))));
                ("issues", PyList (invalid_orders db)) ]);
      ("foreign_keys",
       PyDict [ ("valid", PyBool (len_is_zero (orphaned_orders db)));
                ("issues", PyList (orphaned_orders db)) ]) ]) name key).
  { intros name key. unfold integrity_report.
    rewrite Hlen, (invalid_orders_grow db added Hsound), (orphaned_orders_grow db Hall).
    reflexivity. }
  rewrite !Hf. split; [reflexivity|]. split.
  - cbn. do 2 f_equal. lia.
  - split; [reflexivity|]. split; [reflexivity|]. split.
    + cbn. now rewrite orphaned_orders_empty.
    + split; reflexivity.
Qed.

(** X18: the integrity check after the sample orders.  Run on the tables
    [create_sample_orders] leaves, [validate_data_integrity] counts every
    added order as valid: the total and the valid count of its orders
    section are those of the tables before the run plus the number of rows
    inserted, its issues and its foreign-key section those of before. *)
Theorem sample_orders_count_as_valid {B : Builtins} (engine : answers) (db : database) :
  exists printed report,
    validate_data_integrity (tables (create_sample_orders engine db)) = Some (printed, report)
    /\ field report "orders" "total"
       = Some (PyInt (Z.of_nat (List.length (orders db))
                      + inserted_count (create_sample_orders engine db)))
    /\ field report "orders" "valid"
       = Some (PyInt (Z.of_nat (List.length (orders db))
                      - Z.of_nat (List.length (invalid_orders db))
                      + inserted_count (create_sample_orders engine db)))
    /\ field report "orders" "issues" = Some (PyList (invalid_orders db))
    /\ field report "foreign_keys" "issues" = Some (PyList (orphaned_orders db))
    /\ field report "foreign_keys" "valid" = Some (PyBool (references_resolve db))
    /\ getitem report "customers" = getitem (integrity_report db) "customers"
    /\ getitem report "products" = getitem (integrity_report db) "products".
Proof. apply integrity_after_sample_orders. Qed.

(** A run on a shop with two customers and three products, the engine
    refusing the row of the third turn. *)
Example sample_orders_run :
  map Order.order_id (orders (tables (create_sample_orders Samples.picky Samples.stocked_shop)))
  = [Some 1; Some 2]
  /\ inserted_count (create_sample_orders Samples.picky Samples.stocked_shop) = 2
  /\ skipped_count (create_sample_orders Samples.picky Samples.stocked_shop) = 18
  /\ hd_error (printed (create_sample_orders Samples.picky Samples.stocked_shop))
     = Some "Error inserting order 3: UNIQUE constraint failed: orders.order_id".
Proof. vm_compute. repeat split. Qed.

(* ===================================================================== *)
(** ** [import_product_data] *)
(* ===================================================================== *)

Lemma bind_real_not_below (f : float) :
  PrimFloat.ltb f 0 = false -> not_below_zero (bind_real f) = true.
Proof.
  intros H. unfold bind_real. destruct (PrimFloat.is_nan f); cbn; [reflexivity|].
  now rewrite H.
Qed.

(** A row of a full line has a text under every name of the header. *)
Lemma lookup_full (row : csv_row) (key : string) :
  full row = true -> row_lookup key row <> Some None.
Proof.
  induction row as [|[k v] row IH]; [discriminate|]. unfold full in *. cbn.
  destruct v as [s|]; cbn; [|discriminate]. intros Hfull.
  destruct (String.eqb key k); [discriminate | now apply IH].
Qed.

Section ImportedProducts.
Context {B : Builtins} {P : Parsers}.

(** A turn of the loop that raises nothing either counts the row as skipped
    and leaves the tables, or adds a product with a key, a name and a
    stock, neither price nor stock below 0. *)
Lemma import_product_step (answer : option string) (row : csv_row) (st st' : progress) :
  import_product answer row st = Some st' ->
  (tables st' = tables st
   /\ inserted_count st' = inserted_count st
   /\ skipped_count st' = skipped_count st + 1)
  \/ (exists p,
        tables st' = with_products (tables st) (products (tables st) ++ [p])
        /\ inserted_count st' = inserted_count st + 1
        /\ skipped_count st' = skipped_count st
        /\ product_sound p = true).
Proof.
  unfold import_product. destruct (read_product row) as [v|[message|key|]].
  - destruct (PrimFloat.ltb (price v) 0) eqn:Hprice.
    + intros H. injection H as <-. left. repeat split.
    + destruct (stock_quantity v <? 0) eqn:Hstock; destruct answer as [e|];
        try discriminate; intros H; injection H as <-; right; eexists;
        (split; [reflexivity|]); (split; [reflexivity|]); (split; [reflexivity|]);
        unfold product_sound, product_row, stock_not_negative;
        cbn [Product.product_id Product.product_name Product.price Product.stock_quantity
             present andb]; rewrite (bind_real_not_below Hprice); cbn [andb].
      * reflexivity.
      * apply Z.ltb_ge in Hstock. now apply Z.leb_le.
  - intros H. injection H as <-. left. repeat split.
  - intros H. injection H as <-. left. repeat split.
  - discriminate.
Qed.

Lemma import_products_effect (engine : answers) (rows : list csv_row) :
  forall (i : nat) (st st' : progress),
  import_products engine i rows st = Some st' ->
  exists added,
    tables st' = with_products (tables st) (products (tables st) ++ added)
    /\ inserted_count st' = inserted_count st + Z.of_nat (List.length added)
    /\ inserted_count st' + skipped_count st'
       = inserted_count st + skipped_count st + Z.of_nat (List.length rows)
    /\ forallb product_sound added = true.
Proof.
  induction rows as [|row rows IH]; intros i st st'; cbn [import_products].
  - intros H. injection H as <-. exists []. rewrite with_products_same.
    cbn [List.length forallb]. repeat split; lia.
  - destruct (import_product (engine i) row st) as [st1|] eqn:Hstep; [|discriminate].
    intros Hrest. destruct (IH _ _ _ Hrest) as (added & Ht & Hi & Hn & Hsound).
    destruct (import_product_step _ _ _ Hstep) as [(Ht1 & Hi1 & Hs1)|(p & Ht1 & Hi1 & Hs1 & Hp)].
    + exists added. rewrite Ht, Ht1. split; [reflexivity|]. split; [lia|].
      split; [|exact Hsound]. cbn [List.length]. lia.
    + exists (p :: added). rewrite Ht, Ht1. cbn [with_products customers products orders].
      rewrite <- app_assoc. split; [reflexivity|]. cbn [List.length forallb].
      split; [lia|]. split; [lia|]. now rewrite Hp, Hsound.
Qed.

(** What a run of [import_product_data] that returns comes to. *)
Lemma import_product_data_effect (engine : answers) (product_file : string)
      (rows : list csv_row) (db : database) (st : progress) :
  import_product_data engine product_file rows db = Some st ->
  exists added,
    tables st = with_products db (products db ++ added)
    /\ inserted_count st = Z.of_nat (List.length added)
    /\ inserted_count st + skipped_count st = Z.of_nat (List.length rows)
    /\ forallb product_sound added = true.
Proof.
  unfold import_product_data.
  destruct (import_products engine 0 rows (start db)) as [st1|] eqn:Hloop; [|discriminate].
  intros H. injection H as <-.
  destruct (import_products_effect _ _ _ _ Hloop) as (added & Ht & Hi & Hn & Hsound).
  exists added. unfold summary. cbn [tables inserted_count skipped_count start] in *.
  split; [exact Ht|]. split; [lia|]. split; [lia | exact Hsound].
Qed.

Lemma product_sound_unselected (p : Product.t) :
  product_sound p = true ->
  holds (real_lt (Product.price p) (Some 0%float)) = false
  /\ holds (int_lt (Product.stock_quantity p) (Some 0)) = false.
Proof.
  unfold product_sound, stock_not_negative, not_below_zero, present.
  destruct (Product.product_id p) as [id|], (Product.product_name p) as [name|];
    try discriminate.
  destruct (Product.price p) as [v|]; [destruct (PrimFloat.ltb v 0) eqn:Hv; [discriminate|]|];
    (destruct (Product.stock_quantity p) as [n|]; [|discriminate]);
    cbn; try rewrite Hv; (destruct (Z.leb_spec 0 n); [|discriminate]);
    (destruct (Z.ltb_spec n 0); [lia|]); now split.
Qed.

(** X19: every row of the file is accounted for.  When
    [import_product_data] returns, the customers and the orders are as they
    were, the products that were there are kept and the new ones follow
    them; the two counters are the number of products added and the number
    of rows left out, together the number of rows; and every product added
    has a key, a name and a stock quantity, its price and its stock not
    below 0. *)
Theorem import_accounts_for_every_row (engine : answers) (product_file : string)
        (rows : list csv_row) (db : database) (st : progress) :
  import_product_data engine product_file rows db = Some st ->
  exists added,
    tables st = with_products db (products db ++ added)
    /\ inserted_count st = Z.of_nat (List.length added)
    /\ inserted_count st + skipped_count st = Z.of_nat (List.length rows)
    /\ forallb product_sound added = true.
Proof. apply import_product_data_effect. Qed.

(** X20: what the import lets through passes the price and stock rules of
    the validator.  After a run of [import_product_data] that returns, the
    negative-price and the negative-stock query of [validate_products]
    return what they returned before it, the customers and the orders
    section of the validation report are unchanged, and an order that named
    a customer and a product on record still does. *)
Theorem imported_products_pass_price_and_stock_rules (engine : answers)
        (product_file : string) (rows : list csv_row) (db : database) (st : progress) :
  import_product_data engine product_file rows db = Some st ->
  products_negative_prices (tables st) = products_negative_prices db
  /\ negative_stock (tables st) = negative_stock db
  /\ validate_customers (tables st) = validate_customers db
  /\ validate_orders (tables st) = validate_orders db
  /\ orphaned_customers (tables st) = orphaned_customers db
  /\ (references_resolve db = true -> references_resolve (tables st) = true).
Proof.
  intros Hrun. destruct (import_product_data_effect _ _ _ _ Hrun) as (added & -> & _ & _ & Hsound).
  assert (H : forall p, In p added -> product_sound p = true).
  { intros p Hin. now for_element Hsound Hin Hp. }
  split; [|split; [|split; [|split; [|split]]]]; try reflexivity.
  - unfold products_negative_prices. cbn [products with_products].
    rewrite filter_app_none; [reflexivity|].
    intros p Hin. now destruct (product_sound_unselected p (H p Hin)).
  - unfold negative_stock. cbn [products with_products].
    rewrite filter_app_none; [reflexivity|].
    intros p Hin. now destruct (product_sound_unselected p (H p Hin)).
  - unfold references_resolve. cbn [orders with_products]. intros Hres.
    apply forallb_forall. intros o Hin. for_element Hres Hin Ho.
    apply andb_prop in Ho as [Hc Hp]. apply andb_true_intro. split; [exact Hc|].
    unfold product_exists in *. cbn [products with_products].
    now rewrite existsb_app, Hp.
Qed.

(** With every line as long as the header, no step of the [try] block
    raises anything but the two exceptions the [except] clause names. *)
Lemma read_product_full (row : csv_row) :
  full row = true -> read_product row <> Raises Uncaught.
Proof.
  intros Hfull. pose proof (lookup_full row) as Hrow.
  unfold read_product, item, get_or_empty, and_then, to_int, to_float, stripped.
  repeat match goal with
         | |- context [row_lookup ?k row] =>
             let H := fresh "H" in
             destruct (row_lookup k row) as [[?|]|] eqn:H;
             [ | exfalso; exact (Hrow k Hfull H) | ]
         | |- context [int_of_str ?s] => destruct (int_of_str s)
         | |- context [float_of_str ?s] => destruct (float_of_str s)
         end; discriminate.
Qed.

Lemma import_product_full (row : csv_row) (st : progress) :
  full row = true -> import_product None row st <> None.
Proof.
  intros Hfull. pose proof (read_product_full row Hfull) as Hread.
  unfold import_product. destruct (read_product row) as [v|[message|key|]];
    [| discriminate | discriminate | contradiction].
  destruct (PrimFloat.ltb (price v) 0); [discriminate|].
  destruct (stock_quantity v <? 0); discriminate.
Qed.

(** X21: the import goes through on a well-formed file.  When no line of
    the file is shorter than the header and the engine takes every row it
    is given, [import_product_data] returns: a missing column or a text
    that is no number costs the row, never the run. *)
Theorem import_returns_on_full_rows (engine : answers) (product_file : string)
        (rows : list csv_row) (db : database) :
  forallb full rows = true ->
  (forall i, engine i = None) ->
  exists st, import_product_data engine product_file rows db = Some st.
Proof.
  intros Hfull Hengine. unfold import_product_data.
  assert (Hloop : forall i st, exists st', import_products engine i rows st = Some st').
  { induction rows as [|row rows IH]; intros i st; cbn [import_products].
    - now exists st.
    - cbn [forallb] in Hfull. apply andb_prop in Hfull as [Hrow Hrest].
      rewrite Hengine.
      destruct (import_product None row st) as [st1|] eqn:Hstep.
      + apply IH, Hrest.
      + now destruct (import_product_full row st Hrow). }
  destruct (Hloop 0%nat (start db)) as (st' & ->). eexists. reflexivity.
Qed.

End ImportedProducts.

Lemma import_accounts_for_every_row_witness :
  exists st,
    import_product_data (B := Examples.builtins) (P := Samples.parsers)
      (fun _ => None) "product_data.csv" Samples.products_file Examples.empty_db = Some st
    /\ exists added,
         tables st = with_products Examples.empty_db (products Examples.empty_db ++ added)
         /\ inserted_count st = Z.of_nat (List.length added)
         /\ inserted_count st + skipped_count st = 4
         /\ forallb product_sound added = true.
Proof.
  destruct (import_product_data (B := Examples.builtins) (P := Samples.parsers)
              (fun _ => None) "product_data.csv" Samples.products_file Examples.empty_db)
    as [st|] eqn:Hrun; [|vm_compute in Hrun; discriminate Hrun].
  exists st. split; [reflexivity|].
  exact (@import_accounts_for_every_row Examples.builtins Samples.parsers
           (fun _ => None) "product_data.csv" Samples.products_file Examples.empty_db st Hrun).
Defined.

Lemma imported_products_pass_price_and_stock_rules_witness :
  exists st,
    import_product_data (B := Examples.builtins) (P := Samples.parsers)
      (fun _ => None) "product_data.csv" Samples.products_file Samples.stocked_shop = Some st
    /\ products_negative_prices (tables st) = []
    /\ negative_stock (tables st) = [].
Proof.
  destruct (import_product_data (B := Examples.builtins) (P := Samples.parsers)
              (fun _ => None) "product_data.csv" Samples.products_file Samples.stocked_shop)
    as [st|] eqn:Hrun; [|vm_compute in Hrun; discriminate Hrun].
  exists st. split; [reflexivity|].
  destruct (@imported_products_pass_price_and_stock_rules Examples.builtins Samples.parsers
              (fun _ => None) "product_data.csv" Samples.products_file Samples.stocked_shop
              st Hrun) as (Hprices & Hstock & _).
  rewrite Hprices, Hstock. split; reflexivity.
Defined.

Lemma import_returns_on_full_rows_witness :
  exists st,
    import_product_data (B := Examples.builtins) (P := Samples.parsers)
      (fun _ => None) "product_data.csv" Samples.products_file Examples.empty_db = Some st.
Proof.
  apply (@import_returns_on_full_rows Examples.builtins Samples.parsers
           (fun _ => None) "product_data.csv" Samples.products_file Examples.empty_db).
  - vm_compute. reflexivity.
  - intros i. reflexivity.
Defined.

(* ===================================================================== *)
(** ** [run_integration]: the import, the sample orders, the check *)
(* ===================================================================== *)

Lemma no_orders_no_findings {B : Builtins} (db : database) :
  orders db = [] ->
  orders_issues db = [] /\ foreign_keys_issues db = []
  /\ invalid_orders db = [] /\ orphaned_orders db = [] /\ references_resolve db = true.
Proof.
  intros Hnone.
  unfold orders_issues, orders_null_fields, invalid_quantities, orders_negative_prices,
    foreign_keys_issues, orphaned_customers, orphaned_products, invalid_orders,
    orphaned_orders, references_resolve.
  rewrite Hnone. repeat split.
Qed.

(** X26: an integration that goes through leaves sound orders.  Steps 3
    to 5 of [run_integration] in a row: when the [orders] table is empty
    before them and [import_product_data] returns, then after
    [create_sample_orders], whatever the engine answers, the integrity
    check counts every order as valid and finds no orphan, and the orders
    and foreign-key sections of the validation report are without
    findings. *)
Theorem integration_leaves_orders_sound {B : Builtins} {P : Parsers}
        (engine engine' : answers) (product_file : string) (rows : list csv_row)
        (db : database) (st : progress) :
  orders db = [] ->
  import_product_data engine product_file rows db = Some st ->
  exists printed report,
    validate_data_integrity (tables (create_sample_orders engine' (tables st)))
    = Some (printed, report)
    /\ field report "orders" "total"
       = Some (PyInt (inserted_count (create_sample_orders engine' (tables st))))
    /\ field report "orders" "valid"
       = Some (PyInt (inserted_count (create_sample_orders engine' (tables st))))
    /\ field report "orders" "issues" = Some (PyList [])
    /\ field report "foreign_keys" "issues" = Some (PyList [])
    /\ field report "foreign_keys" "valid" = Some (PyBool true)
    /\ section_clean (results (tables (create_sample_orders engine' (tables st)))) "orders"
    /\ section_clean (results (tables (create_sample_orders engine' (tables st))))
                     "foreign_keys".
Proof.
  intros Hempty Hrun.
  destruct (import_product_data_effect _ _ _ _ Hrun) as (imported & Ht & _).
  assert (Hnone : orders (tables st) = []) by (rewrite Ht; exact Hempty).
  destruct (no_orders_no_findings (tables st) Hnone) as (Ho & Hf & Hio & Hoo & Hres).
  destruct (integrity_after_sample_orders engine' (tables st))
    as (printed & report & Hcheck & Htotal & Hvalid & Hissues & Hfki & Hfkv & _).
  rewrite Hnone in Htotal, Hvalid. rewrite Hio in Hvalid, Hissues.
  rewrite Hoo in Hfki. rewrite Hres in Hfkv.
  change (Z.of_nat (List.length (@nil Order.t))) with 0 in Htotal, Hvalid.
  change (Z.of_nat (List.length (@nil pyobj))) with 0 in Hvalid.
  rewrite Z.sub_0_r in Hvalid. rewrite Z.add_0_l in Htotal, Hvalid.
  exists printed, report.
  split; [exact Hcheck|]. split; [exact Htotal|]. split; [exact Hvalid|].
  split; [exact Hissues|]. split; [exact Hfki|]. split; [exact Hfkv|].
  destruct (create_sample_orders_adds engine' (tables st)) as (added & Hadd & _ & Hall & Hsound).
  rewrite Hadd. split.
  - apply clean_section with (issues := orders_issues (tables st)).
    + rewrite (proj1 (orders_fields _)). now rewrite orders_issues_grow.
    + rewrite (proj2 (orders_fields _)). now rewrite orders_issues_grow.
    + exact Ho.
  - apply clean_section with (issues := foreign_keys_issues (tables st)).
    + rewrite (proj1 (foreign_keys_fields _)). now rewrite foreign_keys_issues_grow.
    + rewrite (proj2 (foreign_keys_fields _)). now rewrite foreign_keys_issues_grow.
    + exact Hf.
Qed.

Lemma integration_leaves_orders_sound_witness :
  exists st,
    import_product_data (B := Examples.builtins) (P := Samples.parsers)
      (fun _ => None) "product_data.csv" Samples.products_file Samples.stocked_shop = Some st
    /\ exists printed report,
         validate_data_integrity (B := Examples.builtins)
           (tables (create_sample_orders Samples.picky (tables st)))
         = Some (printed, report)
         /\ field report "orders" "issues" = Some (PyList [])
         /\ field report "foreign_keys" "valid" = Some (PyBool true).
Proof.
  destruct (import_product_data (B := Examples.builtins) (P := Samples.parsers)
              (fun _ => None) "product_data.csv" Samples.products_file Samples.stocked_shop)
    as [st|] eqn:Hrun; [|vm_compute in Hrun; discriminate Hrun].
  exists st. split; [reflexivity|].
  destruct (@integration_leaves_orders_sound Examples.builtins Samples.parsers
              (fun _ => None) Samples.picky "product_data.csv" Samples.products_file
              Samples.stocked_shop st eq_refl Hrun)
    as (printed & report & Hcheck & _ & _ & Hissues & _ & Hvalid & _).
  exists printed, report. exact (conj Hcheck (conj Hissues Hvalid)).
Defined.

(* ===================================================================== *)
(** ** [run_queries.py]: the table of a query result *)
(* ===================================================================== *)

Lemma length_append (s t : string) :
  String.length (s ++ t) = (String.length s + String.length t)%nat.
Proof. induction s as [|c s IH]; [reflexivity|]. cbn. now rewrite IH. Qed.

Lemma length_blanks (n : nat) : String.length (str_mul " " n) = n.
Proof. induction n as [|n IH]; [reflexivity|]. cbn. now rewrite IH. Qed.

Lemma length_substring_0 (m : nat) (s : string) :
  String.length (String.substring 0 m s) = Nat.min m (String.length s).
Proof.
  revert m. induction s as [|c s IH]; intros [|m]; try reflexivity. cbn. now rewrite IH.
Qed.

Lemma len_append (s t : string) :
  RunQueries.len (s ++ t) = RunQueries.len s + RunQueries.len t.
Proof. unfold RunQueries.len. rewrite length_append. lia. Qed.

Lemma len_not_negative (s : string) : 0 <= RunQueries.len s.
Proof. unfold RunQueries.len. lia. Qed.

Lemma len_ljust (s : string) (w : Z) :
  RunQueries.len (RunQueries.ljust s w) = Z.max (RunQueries.len s) w.
Proof.
  unfold RunQueries.ljust. rewrite len_append. unfold RunQueries.len at 2.
  rewrite length_blanks. pose proof (len_not_negative s). lia.
Qed.

Lemma len_slice_to (s : string) (k : Z) :
  RunQueries.len (RunQueries.slice_to s k)
  = if k <? 0 then Z.max 0 (RunQueries.len s + k) else Z.min k (RunQueries.len s).
Proof.
  unfold RunQueries.slice_to, RunQueries.len.
  destruct (Z.ltb_spec k 0); rewrite length_substring_0; lia.
Qed.

Lemma gtb_cases (n m : Z) : (n >? m) = true /\ m < n \/ (n >? m) = false /\ n <= m.
Proof. rewrite Z.gtb_ltb. destruct (Z.ltb_spec m n); [left | right]; now split. Qed.

(** A part of a row is as long as what is left of the value, the three
    dots and the padding make it. *)
Lemma len_row_part (w : Z) (val : string) :
  RunQueries.len (RunQueries.row_part w val)
  = if RunQueries.len val >? w - 2
    then Z.max w (3 + (if w - 5 <? 0 then Z.max 0 (RunQueries.len val + (w - 5))
                       else Z.min (w - 5) (RunQueries.len val)))
    else w.
Proof.
  unfold RunQueries.row_part.
  destruct (gtb_cases (RunQueries.len val) (w - 2)) as [[-> H]|[-> H]]; rewrite len_ljust.
  - rewrite len_append, len_slice_to. change (RunQueries.len "...") with 3.
    destruct (w - 5 <? 0); lia.
  - lia.
Qed.

Lemma len_row_part_wide (w : Z) (val : string) :
  5 <= w -> RunQueries.len (RunQueries.row_part w val) = w.
Proof.
  intros Hw. rewrite len_row_part.
  destruct (gtb_cases (RunQueries.len val) (w - 2)) as [[-> H]|[-> H]]; [|reflexivity].
  destruct (Z.ltb_spec (w - 5) 0); lia.
Qed.

(** The loop that looks for the longest value. *)
Lemma longest_lower {Row} (v : Row -> Z) (rows : list Row) :
  forall m,
  m <= fold_left (fun max_len row => let val_len := v row in
                                     if val_len >? max_len then val_len else max_len) rows m
  /\ Forall (fun row =>
               v row <= fold_left (fun max_len row => let val_len := v row in
                                                      if val_len >? max_len then val_len
                                                      else max_len) rows m) rows.
Proof.
  cbv zeta. induction rows as [|row rows IH]; intros m; cbn [fold_left].
  - split; [lia | constructor].
  - destruct (gtb_cases (v row) m) as [[-> H]|[-> H]].
    + destruct (IH (v row)) as [H1 H2]. split; [lia|]. constructor; [lia | exact H2].
    + destruct (IH m) as [H1 H2]. split; [lia|]. constructor; [lia | exact H2].
Qed.

Lemma longest_upper {Row} (v : Row -> Z) (rows : list Row) (bound : Z) :
  forall m,
  m <= bound -> Forall (fun row => v row <= bound) rows ->
  fold_left (fun max_len row => let val_len := v row in
                                if val_len >? max_len then val_len else max_len) rows m
  <= bound.
Proof.
  cbv zeta. induction rows as [|row rows IH]; intros m Hm Hall; cbn [fold_left]; [exact Hm|].
  inversion Hall as [|? ? Hrow Hrest]; subst.
  destruct (gtb_cases (v row) m) as [[-> H]|[-> H]]; now apply IH.
Qed.

Lemma max_len_lower {Row} (text : Row -> string -> string) (col : string) (results : list Row) :
  RunQueries.len col <= RunQueries.max_len text col results
  /\ Forall (fun row => RunQueries.len (text row col) <= RunQueries.max_len text col results)
            (firstn 10 results).
Proof.
  exact (longest_lower (fun row => RunQueries.len (text row col)) (firstn 10 results)
                       (RunQueries.len col)).
Qed.

Lemma col_width_range {Row} (text : Row -> string -> string) (col : string)
      (results : list Row) :
  2 <= RunQueries.col_width text col results <= 25
  /\ Z.min (RunQueries.len col + 2) 25 <= RunQueries.col_width text col results.
Proof.
  unfold RunQueries.col_width. destruct (max_len_lower text col results) as [H _].
  pose proof (len_not_negative col). lia.
Qed.

(** The first eight columns, each with the width computed for it. *)
Lemma combine_firstn_map {A C} (f : A -> C) (n : nat) (xs : list A) :
  combine (firstn n xs) (map f xs) = map (fun x => (x, f x)) (firstn n xs).
Proof.
  revert n. induction xs as [|x xs IH]; intros [|n]; try reflexivity.
  cbn. now rewrite IH.
Qed.

Lemma shown_widths {Row} (text : Row -> string -> string) (columns : list string)
      (results : list Row) :
  RunQueries.shown columns (RunQueries.col_widths text columns results)
  = map (fun col => (col, RunQueries.col_width text col results)) (firstn 8 columns).
Proof. apply combine_firstn_map. Qed.

Lemma firstn_widths {Row} (text : Row -> string -> string) (columns : list string)
      (results : list Row) :
  firstn 8 (RunQueries.col_widths text columns results)
  = map (fun col => RunQueries.col_width text col results) (firstn 8 columns).
Proof.
  unfold RunQueries.col_widths. generalize 8%nat as n. intros n. revert n.
  induction columns as [|col columns IH]; intros [|n]; try reflexivity.
  cbn. now rewrite IH.
Qed.

Lemma len_join (sep : string) (ps qs : list string) :
  map RunQueries.len ps = map RunQueries.len qs ->
  RunQueries.len (join sep ps) = RunQueries.len (join sep qs).
Proof.
  revert qs. induction ps as [|p ps IH]; intros [|q qs] H; try discriminate H; [reflexivity|].
  injection H as Hp Hrest.
  destruct ps as [|p' ps], qs as [|q' qs]; try discriminate Hrest; [exact Hp|].
  change (join sep (p :: p' :: ps)) with (p ++ sep ++ join sep (p' :: ps)).
  change (join sep (q :: q' :: qs)) with (q ++ sep ++ join sep (q' :: qs)).
  rewrite !len_append, Hp, (IH (q' :: qs) Hrest). reflexivity.
Qed.

Lemma plain_name_width {Row} (text : Row -> string -> string) (col : string)
      (results : list Row) :
  RunQueries.plain_name col = true ->
  5 <= RunQueries.col_width text col results
  /\ RunQueries.len col <= RunQueries.col_width text col results.
Proof.
  unfold RunQueries.plain_name. intros H. apply andb_prop in H as [H3 H25].
  apply Z.leb_le in H3, H25. destruct (col_width_range text col results) as [_ H]. lia.
Qed.

(** X22: the width of a column.  It lies between 2 and 25, and unless it
    is 25 it leaves two characters more than the name of the column and
    than each value of the column in the first ten rows take. *)
Theorem column_width_bounds {Row} (text : Row -> string -> string) (col : string)
        (results : list Row) :
  2 <= RunQueries.col_width text col results <= 25
  /\ Z.min (RunQueries.len col + 2) 25 <= RunQueries.col_width text col results
  /\ Forall (fun row => Z.min (RunQueries.len (text row col) + 2) 25
                        <= RunQueries.col_width text col results)
            (firstn 10 results).
Proof.
  destruct (col_width_range text col results) as [Hrange Hname].
  split; [exact Hrange|]. split; [exact Hname|].
  destruct (max_len_lower text col results) as [_ Hall].
  eapply Forall_impl; [|exact Hall]. unfold RunQueries.col_width. cbv beta. intros row H. lia.
Qed.

(** X23: the table is aligned.  When the names of the columns shown have 3
    to 25 characters, every part of the header and of every row, the rows
    after the tenth included, is exactly as long as the width of its
    column, so that each of the at most 15 row lines is as long as the
    header line. *)
Theorem table_is_aligned {Row} (text : Row -> string -> string) (columns : list string)
        (results : list Row) :
  forallb RunQueries.plain_name (firstn 8 columns) = true ->
  exists header lines,
    RunQueries.table text columns results = header :: str_mul "-" 80 :: lines
    /\ List.length lines = Nat.min 15 (List.length results)
    /\ map RunQueries.len
           (RunQueries.header_parts columns (RunQueries.col_widths text columns results))
       = firstn 8 (RunQueries.col_widths text columns results)
    /\ (forall row,
          map RunQueries.len
              (RunQueries.row_parts text columns
                 (RunQueries.col_widths text columns results) row)
          = firstn 8 (RunQueries.col_widths text columns results))
    /\ Forall (fun line => RunQueries.len line = RunQueries.len header) lines.
Proof.
  intros Hplain.
  assert (Hname : forall col, In col (firstn 8 columns) ->
                    5 <= RunQueries.col_width text col results
                    /\ RunQueries.len col <= RunQueries.col_width text col results).
  { intros col Hin. apply plain_name_width. now for_element Hplain Hin Hcol. }
  assert (Hheader : map RunQueries.len
                        (RunQueries.header_parts columns
                           (RunQueries.col_widths text columns results))
                    = firstn 8 (RunQueries.col_widths text columns results)).
  { unfold RunQueries.header_parts. rewrite shown_widths, firstn_widths, !map_map.
    apply map_ext_in. intros col Hin. cbn [fst snd]. rewrite len_ljust.
    destruct (Hname col Hin). lia. }
  assert (Hrow : forall row,
             map RunQueries.len
                 (RunQueries.row_parts text columns
                    (RunQueries.col_widths text columns results) row)
             = firstn 8 (RunQueries.col_widths text columns results)).
  { intros row. unfold RunQueries.row_parts. rewrite shown_widths, firstn_widths, !map_map.
    apply map_ext_in. intros col Hin. cbn [fst snd]. apply len_row_part_wide.
    now destruct (Hname col Hin). }
  eexists. eexists. split; [reflexivity|].
  split; [now rewrite length_map, length_firstn|].
  split; [exact Hheader|]. split; [exact Hrow|].
  apply Forall_forall. intros line Hin. apply in_map_iff in Hin as (row & <- & _).
  apply len_join. now rewrite Hheader, Hrow.
Qed.

Lemma table_is_aligned_witness :
  exists header lines,
    RunQueries.table RunQueries.sample_text ["name"] RunQueries.sample_results
    = header :: str_mul "-" 80 :: lines
    /\ List.length lines = 11%nat
    /\ Forall (fun line => RunQueries.len line = RunQueries.len header) lines.
Proof.
  destruct (@table_is_aligned _ RunQueries.sample_text ["name"] RunQueries.sample_results
              eq_refl) as (header & lines & Htable & Hlines & _ & _ & Hall).
  exists header, lines. exact (conj Htable (conj Hlines Hall)).
Defined.

(** X24: a narrow column overflows.  The widths are taken from the first
    ten rows, the lines from the first fifteen.  When the name of a column
    and its values in the first ten rows have at most 2 characters, its
    width is at most 4, and a value of 3 characters or more in a later row
    loses its last characters to three dots and still comes out longer
    than the column is wide. *)
Theorem short_column_overflows {Row} (text : Row -> string -> string) (col : string)
        (results : list Row) (row : Row) :
  RunQueries.len col <= 2 ->
  Forall (fun r => RunQueries.len (text r col) <= 2) (firstn 10 results) ->
  3 <= RunQueries.len (text row col) ->
  RunQueries.col_width text col results <= 4
  /\ RunQueries.len (RunQueries.row_part (RunQueries.col_width text col results)
                                         (text row col))
     = RunQueries.len (text row col) + RunQueries.col_width text col results - 2
  /\ RunQueries.col_width text col results
     < RunQueries.len (RunQueries.row_part (RunQueries.col_width text col results)
                                           (text row col)).
Proof.
  intros Hcol Hall Hrow.
  assert (Hw : 2 <= RunQueries.col_width text col results <= 4).
  { destruct (col_width_range text col results) as [[H2 _] _]. split; [exact H2|].
    unfold RunQueries.col_width, RunQueries.max_len.
    pose proof (longest_upper (fun r => RunQueries.len (text r col)) Hcol Hall) as H.
    cbv beta zeta in H. lia. }
  rewrite len_row_part.
  destruct (gtb_cases (RunQueries.len (text row col))
                      (RunQueries.col_width text col results - 2)) as [[-> H]|[-> H]]; [|lia].
  destruct (Z.ltb_spec (RunQueries.col_width text col results - 5) 0); lia.
Qed.

Lemma short_column_overflows_witness :
  RunQueries.col_width RunQueries.sample_text "id" RunQueries.sample_results <= 4
  /\ RunQueries.col_width RunQueries.sample_text "id" RunQueries.sample_results
     < RunQueries.len
         (RunQueries.row_part
            (RunQueries.col_width RunQueries.sample_text "id" RunQueries.sample_results)
            "12345").
Proof.
  destruct (@short_column_overflows _ RunQueries.sample_text "id" RunQueries.sample_results
              (RunQueries.sample_row "12345" "Mouse")
              ltac:(vm_compute; discriminate)
              ltac:(repeat (apply Forall_cons; [vm_compute; discriminate|]); apply Forall_nil)
              ltac:(vm_compute; discriminate)) as (Hwidth & _ & Hover).
  exact (conj Hwidth Hover).
Defined.

(** X25: what a row of the first ten shows.  A value of at most 23
    characters is shown in full, with blanks up to the width of its column;
    a longer one makes the column 25 wide and is cut to its first 20
    characters, three dots and two blanks. *)
Theorem sampled_values_shown_in_full {Row} (text : Row -> string -> string) (col : string)
        (results : list Row) (row : Row) :
  In row (firstn 10 results) ->
  (RunQueries.len (text row col) <= 23 ->
   RunQueries.row_part (RunQueries.col_width text col results) (text row col)
   = RunQueries.ljust (text row col) (RunQueries.col_width text col results))
  /\ (23 < RunQueries.len (text row col) ->
      RunQueries.col_width text col results = 25
      /\ RunQueries.row_part (RunQueries.col_width text col results) (text row col)
         = String.substring 0 20 (text row col) ++ "..." ++ "  ").
Proof.
  intros Hin. destruct (max_len_lower text col results) as [_ Hall].
  rewrite Forall_forall in Hall. specialize (Hall row Hin).
  split; intros Hlen.
  - unfold RunQueries.row_part.
    destruct (gtb_cases (RunQueries.len (text row col))
                        (RunQueries.col_width text col results - 2)) as [[_ H]|[-> _]];
      [|reflexivity].
    unfold RunQueries.col_width in H. lia.
  - assert (Hw : RunQueries.col_width text col results = 25).
    { unfold RunQueries.col_width. lia. }
    split; [exact Hw|]. rewrite Hw. unfold RunQueries.row_part.
    destruct (gtb_cases (RunQueries.len (text row col)) (25 - 2)) as [[-> _]|[_ H]]; [|lia].
    change (RunQueries.slice_to (text row col) (25 - 5))
      with (String.substring 0 20 (text row col)).
    unfold RunQueries.ljust. rewrite len_append. unfold RunQueries.len at 1.
    rewrite length_substring_0. change (RunQueries.len "...") with 3.
    replace (Z.to_nat (25 - (Z.of_nat (Nat.min 20 (String.length (text row col))) + 3)))
      with 2%nat by (unfold RunQueries.len in Hlen; lia).
    now rewrite <- append_assoc.
Qed.

Lemma sampled_values_shown_in_full_witness :
  RunQueries.row_part
    (RunQueries.col_width RunQueries.sample_text "name" RunQueries.sample_results) "Laptop"
  = RunQueries.ljust
      "Laptop" (RunQueries.col_width RunQueries.sample_text "name" RunQueries.sample_results).
Proof.
  destruct (@sampled_values_shown_in_full _ RunQueries.sample_text "name"
              RunQueries.sample_results (RunQueries.sample_row "1" "Laptop")
              ltac:(left; reflexivity)) as [Hfull _].
  exact (Hfull ltac:(vm_compute; discriminate)).
Defined.
